(** * The affiliate-website generation route and the token helpers

    A shallow embedding of [POST] (the generation pipeline with its helpers
    [getUnsplashImages], [generatePlaceholderImages], [deployToNetlify],
    [generateWebsiteContent], [generateProfessionalTemplate],
    [analyzeProductURL], [verifyUser], [getPlanLimits]) and of [verifyToken],
    followed by the account library ([getUserById], [getUserByEmail],
    [createUser], [incrementUserWebsites], [incrementUserAnalyses]), the
    plan wrappers ([verifyAuth], [checkPlan], [requirePro],
    [requireEnterprise]) and the reviews route built on them.

    Conventions.
    - A JavaScript string is a [string] of code units below 256; a number
      that counts things is a [Z].  Where the code depends on what lies
      above 255, this is kept apart: [encodeURIComponent], which throws
      on a lone surrogate, is a collaborator, and nothing is drawn from the
      length of a lower-cased text.
    - A value that may be [undefined] or [null] is an [option].
    - An expression that may throw (or a promise that may reject) yields an
      [outcome]; asynchronous code is a [prog], a tree of effects, run
      either to completion by [run] or interleaved with another request by
      [sched].
    - Console output is not modelled. *)

From Stdlib Require Import String Ascii List ZArith Lia Bool DecimalString.
Import ListNotations.

Local Open Scope string_scope.
Local Open Scope Z_scope.

(** ** JavaScript primitives *)

Module JS.

(** [x || d] on a string: the empty string is falsy. *)
Definition truthy (s : string) : bool :=
  match s with EmptyString => false | _ => true end.

(** [x || d] on a possibly undefined string. *)
Definition or_else (x : option string) (d : string) : string :=
  match x with
  | Some s => if truthy s then s else d
  | None => d
  end.

(** [!x] on a possibly undefined string. *)
Definition falsy (x : option string) : bool :=
  match x with
  | Some s => negb (truthy s)
  | None => true
  end.

(** [x || 0] on a possibly undefined number. *)
Definition num_or_zero (x : option Z) : Z :=
  match x with Some n => n | None => 0 end.

(** [`${n}`] for an integer. *)
Definition num_to_string (n : Z) : string :=
  NilZero.string_of_int (Z.to_int n).

(** [`${x}`] for a possibly undefined string. *)
Definition show (x : option string) : string :=
  match x with Some s => s | None => "undefined" end.

(** A text of a JSON payload, which may be missing or [null]. *)
Inductive nullable :=
| Undefined
| Null
| Text (s : string).

(** [`${x}`] for a text of a payload: a missing one prints as 'undefined'
    and a [null] one as 'null'. *)
Definition show_nullable (x : nullable) : string :=
  match x with
  | Undefined => "undefined"
  | Null => "null"
  | Text s => s
  end.

Definition code (c : ascii) : nat := nat_of_ascii c.

Definition in_range (lo hi : nat) (c : ascii) : bool :=
  (Nat.leb lo (code c) && Nat.leb (code c) hi)%bool.

(** One code unit of [toLowerCase]: A-Z and the Latin-1 capitals.  Below
    256 every code unit has a lower-case form of one code unit; above, a
    text may grow (U+0130 becomes two code units), so that the length of
    [s.toLowerCase()] is not in general that of [s]. *)
Definition lower_char (c : ascii) : ascii :=
  if in_range 65 90 c then ascii_of_nat (code c + 32)
  else if (in_range 192 222 c && negb (Nat.eqb (code c) 215))%bool
       then ascii_of_nat (code c + 32)
       else c.

Fixpoint toLowerCase (s : string) : string :=
  match s with
  | EmptyString => EmptyString
  | String c s' => String (lower_char c) (toLowerCase s')
  end.

Fixpoint startsWith (p s : string) : bool :=
  match p, s with
  | EmptyString, _ => true
  | String a p', String b s' => (Ascii.eqb a b && startsWith p' s')%bool
  | String _ _, EmptyString => false
  end.

(** [s.includes(p)] *)
Fixpoint includes (s p : string) : bool :=
  if startsWith p s then true
  else match s with
       | EmptyString => false
       | String _ s' => includes s' p
       end.

Fixpoint drop (n : nat) (s : string) : string :=
  match n, s with
  | O, _ => s
  | S n', String _ s' => drop n' s'
  | S _, EmptyString => EmptyString
  end.

Fixpoint take (n : nat) (s : string) : string :=
  match n, s with
  | S n', String c s' => String c (take n' s')
  | _, _ => EmptyString
  end.

(** [s.substring(0, n)] *)
Definition substring0 (n : nat) (s : string) : string := take n s.

(** [s.replace(/p/g, '')] for a literal, non-empty [p]: [skip] counts the
    code units of a match still to be dropped. *)
Fixpoint remove_from (p : string) (skip : nat) (s : string) : string :=
  match s with
  | EmptyString => EmptyString
  | String c s' =>
      match skip with
      | S k => remove_from p k s'
      | O => if startsWith p s
             then remove_from p (Nat.pred (String.length p)) s'
             else String c (remove_from p O s')
      end
  end.

Definition removeAll (p s : string) : string := remove_from p O s.

(** White space of [trim] below 256. *)
Definition is_space (c : ascii) : bool :=
  (in_range 9 13 c || Nat.eqb (code c) 32 || Nat.eqb (code c) 160)%bool.

Fixpoint trimStart (s : string) : string :=
  match s with
  | String c s' => if is_space c then trimStart s' else s
  | EmptyString => EmptyString
  end.

Fixpoint trimEnd (s : string) : string :=
  match s with
  | EmptyString => EmptyString
  | String c s' =>
      match trimEnd s' with
      | EmptyString => if is_space c then EmptyString
                       else String c EmptyString
      | r => String c r
      end
  end.

Definition trim (s : string) : string := trimEnd (trimStart s).

(** [s.replace(/[^a-z0-9]/g, '-')] *)
Definition slug_char (c : ascii) : ascii :=
  if (in_range 97 122 c || in_range 48 57 c)%bool then c else "-"%char.

Fixpoint replace_non_alnum (s : string) : string :=
  match s with
  | EmptyString => EmptyString
  | String c s' => String (slug_char c) (replace_non_alnum s')
  end.

Definition hex_digit (n : nat) : ascii :=
  if Nat.ltb n 10 then ascii_of_nat (48 + n)%nat else ascii_of_nat (55 + n)%nat.

(** [%XX] for one byte. *)
Definition percent (byte : nat) : string :=
  String "%" (String (hex_digit (Nat.div byte 16))
                (String (hex_digit (Nat.modulo byte 16)) EmptyString)).

(** The code units [encodeURIComponent] keeps: letters, digits and
    [- _ . ! ~ * ' ( )]. *)
Definition uri_unreserved (c : ascii) : bool :=
  (in_range 65 90 c || in_range 97 122 c || in_range 48 57 c
   || existsb (Nat.eqb (code c)) [45; 95; 46; 33; 126; 42; 39; 40; 41]%nat)%bool.

(** [encodeURIComponent(s)] on code units below 256, none of which is a
    surrogate: every other code unit becomes the escapes of its one or two
    UTF-8 bytes. *)
Fixpoint encodeURIComponent (s : string) : string :=
  match s with
  | EmptyString => EmptyString
  | String c s' =>
      (if uri_unreserved c then String c EmptyString
       else if Nat.ltb (code c) 128 then percent (code c)
            else percent (192 + Nat.div (code c) 64)%nat
                 ++ percent (128 + Nat.modulo (code c) 64)%nat)
      ++ encodeURIComponent s'
  end.

(** Matching under the [i] flag: two code units below 256 have one
    canonical form exactly when they have one lower-case form. *)
Definition ci_eqb (a b : ascii) : bool :=
  Ascii.eqb (lower_char a) (lower_char b).

Fixpoint ci_startsWith (p s : string) : bool :=
  match p, s with
  | EmptyString, _ => true
  | String a p', String b s' => (ci_eqb a b && ci_startsWith p' s')%bool
  | String _ _, EmptyString => false
  end.

(** The greedy [[\s\S]*] followed by the literal [p]: the longest prefix
    of [s] that ends with a match of [p]. *)
Fixpoint longest_upto (p s : string) : option string :=
  match s with
  | EmptyString => None
  | String c s' =>
      match longest_upto p s' with
      | Some r => Some (String c r)
      | None => if ci_startsWith p s
                then Some (take (String.length p) s)
                else None
      end
  end.

(** [s.match(/<!DOCTYPE[\s\S]*<\/html>/i)], the text matched: leftmost
    start, longest extent. *)
Fixpoint match_doctype_html (s : string) : option string :=
  match s with
  | EmptyString => None
  | String _ s' =>
      if ci_startsWith "<!DOCTYPE" s then
        match longest_upto "</html>" (drop 9 s) with
        | Some r => Some (take 9 s ++ r)
        | None => match_doctype_html s'
        end
      else match_doctype_html s'
  end.

End JS.

(** ** Outcomes of code that may throw *)

Inductive outcome (A : Type) : Type :=
| Ret (a : A)
| Throw (msg : string).

Arguments Ret {A} a.
Arguments Throw {A} msg.

Fixpoint map_outcome {A B : Type} (f : A -> outcome B) (l : list A)
  : outcome (list B) :=
  match l with
  | [] => Ret []
  | x :: l' =>
      match f x with
      | Throw m => Throw m
      | Ret y =>
          match map_outcome f l' with
          | Throw m => Throw m
          | Ret ys => Ret (y :: ys)
          end
      end
  end.

(** ** Data model *)

(** What [analyzeProductURL] returns. *)
Record ProductSummary := {
  title : string;
  description : string;
  price : string;
  originalUrl : string
}.

(** One element of the arrays [getUnsplashImages] returns. *)
Record ImageAsset := {
  url : option string;
  thumb : option string;
  alt : string;
  credit : string;
  download_url : option string
}.

(** The search payload of the image provider, as far as the route looks
    into it; an absent or [null] part is [None].  The name of the
    photographer is printed, which tells a missing name from [null]. *)
Record PhotoUrls := { regular : option string; urls_thumb : option string }.
Record PhotoUser := { name : JS.nullable }.
Record PhotoLinks := { download_location : option string }.
Record Photo := {
  urls : option PhotoUrls;
  alt_description : option string;
  user : option PhotoUser;
  links : option PhotoLinks
}.
(** [results] is [None] when the payload has no array there; a [null]
    element of the array is [None]. *)
Record SearchPayload := { results : option (list (option Photo)) }.

(** A response of [fetch]: [payload] is what [json()] or [text()] gives. *)
Record http (B : Type) := {
  ok : bool;
  status : Z;
  payload : outcome B
}.
Arguments ok {B} _.
Arguments status {B} _.
Arguments payload {B} _.

(** The hosting provider's payloads; a [null] payload is [None]. *)
Record SiteData := {
  site_id_field : option string;
  site_ssl_url : option string;
  site_url : option string;
  site_admin_url : option string
}.
Record DeployData := { deploy_id_field : option string }.

(** What [deployToNetlify] returns when it does not return [null]. *)
Record NetlifyDeployment := {
  nd_url : option string;
  deploy_id : option string;
  site_id : option string;
  admin_url : option string
}.

(** What the selectors of [analyzeProductURL] find in a parsed page. *)
Record Page := {
  title_text : string;
  h1_text : string;
  product_title_text : string;
  meta_description : option string;
  og_description : option string;
  p_text : string;
  price_testid_text : string;
  price_class_text : string;
  price_attr_text : string
}.

(** A document of the [users] collection; [websiteCount] may be missing. *)
Record UserData := {
  _id : string;
  authToken : string;
  email : string;
  plan : string;
  websiteCount : option Z
}.

(** A document of the [websites] collection ([websiteData]). *)
Record WebsiteData := {
  w_id : string;
  w_userId : string;
  w_slug : string;
  w_title : string;
  w_description : string;
  w_productUrl : string;
  w_html : string;
  w_productInfo : ProductSummary;
  w_netlifyDeployment : option NetlifyDeployment;
  w_createdAt : Z;
  w_updatedAt : Z;
  w_views : Z;
  w_clicks : Z;
  w_isActive : bool
}.

Record Database := {
  users : list UserData;
  websites : list WebsiteData
}.

(** The request: the [auth-token] cookie, and what [request.json()]
    followed by taking [productUrl] gives: a throw when the body cannot be
    read, [None] when the field is missing, and else the string that
    [analyzeProductURL(url: string)] takes. *)
Record Request := {
  cookie : option string;
  json_productUrl : outcome (option string)
}.

(** The [website] object of the success response. *)
Record WebsiteView := {
  v_id : string;
  v_slug : string;
  v_title : string;
  v_description : string;
  v_url : string;
  v_previewUrl : string;
  v_netlifyUrl : option string;
  v_adminUrl : option string
}.

Inductive ResponseBody :=
| ErrorBody (error : string)
| LimitBody (error message : string) (currentCount limit : Z)
| FailureBody (error message : string)
| SuccessBody (website : WebsiteView) (message : string)
    (remainingWebsites : Z) (deployment_status deployment_platform : string).

Record Response := {
  code : Z;
  body : ResponseBody
}.

(** ** Effects *)

Inductive EnvVar := UNSPLASH_ACCESS_KEY | NETLIFY_ACCESS_TOKEN | NEXT_PUBLIC_APP_URL.

Inductive effect : Type -> Type :=
| GetEnv (v : EnvVar) : effect (option string)
| EncodeURIComponent (text : string) : effect (outcome string)
| SearchPhotos (query : string) (count : Z) (key : string)
    : effect (outcome (http SearchPayload))
| FetchPage (url : string) : effect (outcome (http string))
| CheerioLoad (html : string) : effect (outcome Page)
| GenerateContent (prompt : string) : effect (outcome string)
| CreateSite (name token : string) : effect (outcome (http (option SiteData)))
| CreateDeploy (siteId : option string) (zip token : string)
    : effect (outcome (http (option DeployData)))
| DateNow : effect Z
| NewObjectId : effect string
| ConnectToDatabase : effect (outcome unit)
| FindUserByToken (token : string) : effect (outcome (option UserData))
| InsertWebsite (w : WebsiteData) : effect (outcome unit)
| IncWebsiteCount (uid : string) : effect (outcome unit).

(** An asynchronous computation: a value, a thrown error, or an effect
    whose answer the rest waits for. *)
Inductive prog (A : Type) : Type :=
| Pure (a : A)
| Raise (msg : string)
| Vis {R : Type} (e : effect R) (k : R -> prog A).

Arguments Pure {A} a.
Arguments Raise {A} msg.
Arguments Vis {A R} e k.

Fixpoint bind {A B : Type} (m : prog A) (f : A -> prog B) : prog B :=
  match m with
  | Pure a => f a
  | Raise msg => Raise msg
  | Vis e k => Vis e (fun r => bind (k r) f)
  end.

(** [try { m } catch (error) { h error }] *)
Fixpoint try_catch {A : Type} (m : prog A) (h : string -> prog A) : prog A :=
  match m with
  | Pure a => Pure a
  | Raise msg => h msg
  | Vis e k => Vis e (fun r => try_catch (k r) h)
  end.

Definition lift {A : Type} (o : outcome A) : prog A :=
  match o with
  | Ret a => Pure a
  | Throw msg => Raise msg
  end.

Definition perform {R : Type} (e : effect R) : prog R := Vis e Pure.

(** [await] of a call that may reject. *)
Definition await {R : Type} (e : effect (outcome R)) : prog R := Vis e lift.

Notation "x <- m ;; k" := (bind m (fun x => k))
  (at level 61, m at next level, right associativity).

(** ** The world the effects act on *)

Inductive DbOp := OpConnect | OpFindUser | OpInsertWebsite | OpIncCount.

(** What a request leaves in the history: its calls to the network and to
    storage, newest first. *)
Inductive Event :=
| CalledUnsplash (query : string) (count : Z)
| CalledPage (url : string)
| CalledGemini (prompt : string)
| CalledNetlifySite (name : string)
| CalledNetlifyDeploy (siteId : option string)
| CalledStorage (op : DbOp) (succeeded : bool).

(** The collaborators: configuration, and how each one answers given what
    has happened so far.  [encodeURIComponent] is the built-in, which
    throws [URIError] on a text in which a surrogate stands alone; such a
    text has code units above 255, so what the built-in does is taken
    from the collaborators, [JS.encodeURIComponent] being its answer on the
    texts written here. *)
Record Services := {
  env : EnvVar -> option string;
  encodeURIComponent : string -> outcome string;
  unsplash : list Event -> string -> Z -> string -> outcome (http SearchPayload);
  page_server : list Event -> string -> outcome (http string);
  cheerio : string -> outcome Page;
  gemini : list Event -> string -> outcome string;
  netlify_site : list Event -> string -> string -> outcome (http (option SiteData));
  netlify_deploy : list Event -> option string -> string -> string
                   -> outcome (http (option DeployData));
  clock : list Event -> Z;
  object_id : list Event -> string;
  storage_fails : list Event -> DbOp -> bool
}.

Record World := {
  db : Database;
  history : list Event
}.

Definition record (ev : Event) (w : World) : World :=
  {| db := db w; history := ev :: history w |}.

(** [findOne({ authToken: token })] *)
Definition findOne (token : string) (us : list UserData) : option UserData :=
  find (fun u => String.eqb (authToken u) token) us.

(** [updateOne({ _id }, { $inc: { websiteCount: 1 } })] *)
Fixpoint updateOne_inc (uid : string) (us : list UserData) : list UserData :=
  match us with
  | [] => []
  | u :: us' =>
      if String.eqb (_id u) uid
      then {| _id := _id u; authToken := authToken u; email := email u;
              plan := plan u;
              websiteCount := Some (JS.num_or_zero (websiteCount u) + 1) |} :: us'
      else u :: updateOne_inc uid us'
  end.

Definition storage_call {R : Type} (S : Services) (op : DbOp) (w : World)
  (act : Database -> R * Database) : outcome R * World :=
  if storage_fails S (history w) op
  then (Throw "MongoError", record (CalledStorage op false) w)
  else let (r, d) := act (db w) in
       (Ret r, {| db := d; history := CalledStorage op true :: history w |}).

Definition handle (S : Services) {R : Type} (e : effect R) (w : World) : R * World :=
  match e in effect R return R * World with
  | GetEnv v => (env S v, w)
  | EncodeURIComponent text => (encodeURIComponent S text, w)
  | SearchPhotos q n key =>
      (unsplash S (history w) q n key, record (CalledUnsplash q n) w)
  | FetchPage u => (page_server S (history w) u, record (CalledPage u) w)
  | CheerioLoad html => (cheerio S html, w)
  | GenerateContent p => (gemini S (history w) p, record (CalledGemini p) w)
  | CreateSite n tok =>
      (netlify_site S (history w) n tok, record (CalledNetlifySite n) w)
  | CreateDeploy sid zip tok =>
      (netlify_deploy S (history w) sid zip tok, record (CalledNetlifyDeploy sid) w)
  | DateNow => (clock S (history w), w)
  | NewObjectId => (object_id S (history w), w)
  | ConnectToDatabase => storage_call S OpConnect w (fun d => (tt, d))
  | FindUserByToken tok =>
      storage_call S OpFindUser w (fun d => (findOne tok (users d), d))
  | InsertWebsite ws =>
      storage_call S OpInsertWebsite w
        (fun d => (tt, {| users := users d; websites := websites d ++ [ws] |}))
  | IncWebsiteCount uid =>
      storage_call S OpIncCount w
        (fun d => (tt, {| users := updateOne_inc uid (users d);
                          websites := websites d |}))
  end.

(** One request on its own, from start to end. *)
Fixpoint run {A : Type} (S : Services) (p : prog A) (w : World) : outcome A * World :=
  match p with
  | Pure a => (Ret a, w)
  | Raise msg => (Throw msg, w)
  | Vis e k => let (r, w') := handle S e w in run S (k r) w'
  end.

(** One effect of a request. *)
Definition step {A : Type} (S : Services) (p : prog A) (w : World) : prog A * World :=
  match p with
  | Vis e k => let (r, w') := handle S e w in (k r, w')
  | _ => (p, w)
  end.

(** Two requests in flight: [order] names, effect by effect, which of the
    two goes next ([true] for the first).  A request gives way to another
    at an [await]; what it does between two of them touches no shared
    state. *)
Fixpoint sched {A : Type} (S : Services) (order : list bool)
  (p q : prog A) (w : World) : prog A * prog A * World :=
  match order with
  | [] => (p, q, w)
  | true :: o => let (p', w') := step S p w in sched S o p' q w'
  | false :: o => let (q', w') := step S q w in sched S o p q' w'
  end.

(** ** The generation route *)

Definition dq : string := String (ascii_of_nat 34) EmptyString.
Definition nl : string := String (ascii_of_nat 10) EmptyString.

(** A template literal written over several lines. *)
Definition lines (l : list string) : string := String.concat nl l.

Definition placeholder_url : string :=
  "https://images.unsplash.com/photo-1560472354-b33ff0c44a43?w=800&h=600&fit=crop&crop=center".
Definition placeholder_thumb : string :=
  "https://images.unsplash.com/photo-1560472354-b33ff0c44a43?w=400&h=300&fit=crop&crop=center".

Definition placeholder (query : string) : ImageAsset :=
  {| url := Some placeholder_url;
     thumb := Some placeholder_thumb;
     alt := query;
     credit := "Professional stock photo";
     download_url := None |}.

(** The loop pushes one image for each [i] from 0 below [count]. *)
Definition generatePlaceholderImages (query : string) (count : Z) : list ImageAsset :=
  repeat (placeholder query) (Z.to_nat count).

(** The body of the [map] callback: reading a property of an absent part
    throws. *)
Definition asset_of_photo (query : string) (photo : option Photo) : outcome ImageAsset :=
  match photo with
  | None => Throw "TypeError"
  | Some ph =>
      match urls ph, user ph, links ph with
      | Some u, Some usr, Some lk =>
          Ret {| url := regular u;
                 thumb := urls_thumb u;
                 alt := JS.or_else (alt_description ph) query;
                 credit := "Photo by " ++ JS.show_nullable (name usr) ++ " on Unsplash";
                 download_url := download_location lk |}
      | _, _, _ => Throw "TypeError"
      end
  end.

(** The address fetched is made of [encodeURIComponent(query)], the count
    and fixed text: [SearchPhotos] names it by the query and the count, and
    is reached only when the query could be encoded. *)
Definition getUnsplashImages (query : string) (count : Z) : prog (list ImageAsset) :=
  try_catch
    (unsplashApiKey <- perform (GetEnv UNSPLASH_ACCESS_KEY) ;;
     if JS.falsy unsplashApiKey
     then Pure (generatePlaceholderImages query count)
     else
       _ <- await (EncodeURIComponent query) ;;
       response <- await (SearchPhotos query count (JS.show unsplashApiKey)) ;;
       if negb (ok response)
       then Raise ("Unsplash API error: " ++ JS.num_to_string (status response))
       else
         data <- lift (payload response) ;;
         match results data with
         | None => Raise "TypeError"
         | Some photos => lift (map_outcome (asset_of_photo query) photos)
         end)
    (fun _ => Pure (generatePlaceholderImages query count)).

(** [siteData.ssl_url || siteData.url] *)
Definition or_opt (a b : option string) : option string :=
  if JS.falsy a then b else a.

(** [createZipFromHTML]: the text as a buffer. *)
Definition createZipFromHTML (html : string) : string := html.

Definition deployToNetlify (websiteHTML siteName : string)
  : prog (option NetlifyDeployment) :=
  try_catch
    (netlifyToken <- perform (GetEnv NETLIFY_ACCESS_TOKEN) ;;
     if JS.falsy netlifyToken
     then Pure None
     else
       siteResponse <- await (CreateSite siteName (JS.show netlifyToken)) ;;
       if negb (ok siteResponse)
       then Raise ("Netlify site creation error: "
                   ++ JS.num_to_string (status siteResponse))
       else
         siteJson <- lift (payload siteResponse) ;;
         match siteJson with
         | None => Raise "TypeError"
         | Some siteData =>
             let siteId := site_id_field siteData in
             deployResponse <- await (CreateDeploy siteId
                                        (createZipFromHTML websiteHTML)
                                        (JS.show netlifyToken)) ;;
             if negb (ok deployResponse)
             then Raise ("Netlify deploy error: "
                         ++ JS.num_to_string (status deployResponse))
             else
               deployJson <- lift (payload deployResponse) ;;
               match deployJson with
               | None => Raise "TypeError"
               | Some deployData =>
                   Pure (Some {| nd_url := or_opt (site_ssl_url siteData)
                                                  (site_url siteData);
                                 deploy_id := deploy_id_field deployData;
                                 site_id := siteId;
                                 admin_url := site_admin_url siteData |})
               end
         end)
    (fun _ => Pure None).

(** [images[i]?.url || 'https://images.unsplash.com/photo-1560472354-b33ff0c44a43'] *)
Definition image_url (images : list ImageAsset) (i : nat) : string :=
  match nth_error images i with
  | Some a => JS.or_else (url a) "https://images.unsplash.com/photo-1560472354-b33ff0c44a43"
  | None => "https://images.unsplash.com/photo-1560472354-b33ff0c44a43"
  end.

Definition generateProfessionalTemplate (productInfo : ProductSummary)
  (heroImages featureImages testimonialImages : list ImageAsset) : string :=
  lines [
    "<!DOCTYPE html>";
    "<html lang=" ++ dq ++ "en" ++ dq ++ ">";
    "<head>";
    "    <meta charset=" ++ dq ++ "UTF-8" ++ dq ++ ">";
    "    <meta name=" ++ dq ++ "viewport" ++ dq ++ " content=" ++ dq
      ++ "width=device-width, initial-scale=1.0" ++ dq ++ ">";
    "    <title>" ++ title productInfo ++ " - Professional Affiliate Website</title>";
    "    <style>";
    "        * { margin: 0; padding: 0; box-sizing: border-box; }";
    "        body { font-family: 'Arial', sans-serif; line-height: 1.6; color: #333; }";
    "        .container { max-width: 1200px; margin: 0 auto; padding: 0 20px; }";
    "        .hero { background: linear-gradient(135deg, #667eea 0%, #764ba2 100%); color: white; padding: 100px 0; text-align: center; }";
    "        .hero h1 { font-size: 3rem; margin-bottom: 20px; }";
    "        .hero p { font-size: 1.2rem; margin-bottom: 30px; }";
    "        .cta-button { background: #ff6b6b; color: white; padding: 15px 30px; border: none; border-radius: 5px; font-size: 1.1rem; cursor: pointer; text-decoration: none; display: inline-block; }";
    "        .features { padding: 80px 0; background: #f8f9fa; }";
    "        .feature-grid { display: grid; grid-template-columns: repeat(auto-fit, minmax(300px, 1fr)); gap: 40px; margin-top: 50px; }";
    "        .feature { text-align: center; padding: 30px; background: white; border-radius: 10px; box-shadow: 0 5px 15px rgba(0,0,0,0.1); }";
    "        .feature img { width: 100%; height: 200px; object-fit: cover; border-radius: 10px; margin-bottom: 20px; }";
    "        .testimonials { padding: 80px 0; }";
    "        .testimonial { text-align: center; max-width: 600px; margin: 0 auto; }";
    "        .testimonial img { width: 80px; height: 80px; border-radius: 50%; margin-bottom: 20px; }";
    "        @media (max-width: 768px) { .hero h1 { font-size: 2rem; } .feature-grid { grid-template-columns: 1fr; } }";
    "    </style>";
    "</head>";
    "<body>";
    "    <section class=" ++ dq ++ "hero" ++ dq ++ ">";
    "        <div class=" ++ dq ++ "container" ++ dq ++ ">";
    "            <h1>" ++ title productInfo ++ "</h1>";
    "            <p>" ++ description productInfo ++ "</p>";
    "            <a href=" ++ dq ++ originalUrl productInfo ++ dq ++ " class=" ++ dq ++ "cta-button"
      ++ dq ++ ">Get " ++ title productInfo ++ " Now - " ++ price productInfo ++ "</a>";
    "        </div>";
    "    </section>";
    "    ";
    "    <section class=" ++ dq ++ "features" ++ dq ++ ">";
    "        <div class=" ++ dq ++ "container" ++ dq ++ ">";
    "            <h2 style=" ++ dq ++ "text-align: center; font-size: 2.5rem; margin-bottom: 20px;"
      ++ dq ++ ">Why Choose " ++ title productInfo ++ "?</h2>";
    "            <div class=" ++ dq ++ "feature-grid" ++ dq ++ ">";
    "                <div class=" ++ dq ++ "feature" ++ dq ++ ">";
    "                    <img src=" ++ dq ++ image_url featureImages 0 ++ dq ++ " alt=" ++ dq
      ++ "Premium Quality" ++ dq ++ ">";
    "                    <h3>Premium Quality</h3>";
    "                    <p>Experience the highest quality standards with " ++ title productInfo
      ++ ". Built to last and designed to impress.</p>";
    "                </div>";
    "                <div class=" ++ dq ++ "feature" ++ dq ++ ">";
    "                    <img src=" ++ dq ++ image_url featureImages 1 ++ dq ++ " alt=" ++ dq
      ++ "Amazing Value" ++ dq ++ ">";
    "                    <h3>Amazing Value</h3>";
    "                    <p>Get incredible value for your money. " ++ title productInfo
      ++ " delivers results that exceed expectations.</p>";
    "                </div>";
    "            </div>";
    "        </div>";
    "    </section>";
    "    ";
    "    <section class=" ++ dq ++ "testimonials" ++ dq ++ ">";
    "        <div class=" ++ dq ++ "container" ++ dq ++ ">";
    "            <div class=" ++ dq ++ "testimonial" ++ dq ++ ">";
    "                <img src=" ++ dq ++ image_url testimonialImages 0 ++ dq ++ " alt=" ++ dq
      ++ "Happy Customer" ++ dq ++ ">";
    "                <h3>" ++ dq ++ "Life-changing results!" ++ dq ++ "</h3>";
    "                <p>" ++ dq ++ title productInfo
      ++ " has completely transformed my experience. I couldn't be happier with my purchase!" ++ dq
      ++ "</p>";
    "                <strong>- Sarah Johnson, Verified Customer</strong>";
    "            </div>";
    "            <div style=" ++ dq ++ "text-align: center; margin-top: 40px;" ++ dq ++ ">";
    "                <a href=" ++ dq ++ originalUrl productInfo ++ dq ++ " class=" ++ dq
      ++ "cta-button" ++ dq ++ ">Order " ++ title productInfo ++ " Today - " ++ price productInfo
      ++ "</a>";
    "            </div>";
    "        </div>";
    "    </section>";
    "</body>";
    "</html>"
  ].

Definition generation_prompt (productInfo : ProductSummary)
  (heroImages featureImages testimonialImages : list ImageAsset) : string :=
  lines [
    "";
    "THE ULTIMATE AFFILIFY MASTER SYSTEM";
    "";
    "PRODUCT INFORMATION:";
    "- Title: " ++ title productInfo;
    "- Description: " ++ description productInfo;
    "- Price: " ++ price productInfo;
    "- Original URL: " ++ originalUrl productInfo;
    "";
    "PROFESSIONAL IMAGES AVAILABLE:";
    "- Hero Image: " ++ image_url heroImages 0;
    "- Feature Image 1: " ++ image_url featureImages 0;
    "- Feature Image 2: " ++ image_url featureImages 1;
    "- Testimonial Image: " ++ image_url testimonialImages 0;
    "";
    "CRITICAL MISSION: Create a professional, high-converting affiliate website that will generate $1000+ in the first week.";
    "";
    "RESPOND WITH ONLY VALID HTML CODE - NO JSON, NO EXPLANATIONS, JUST PURE HTML:";
    "";
    "Create a complete, professional HTML website with:";
    "";
    "1. MODERN RESPONSIVE DESIGN";
    "- Mobile-first responsive layout";
    "- Professional color scheme (blues, whites, grays)";
    "- Modern typography and spacing";
    "- CSS Grid and Flexbox layouts";
    "";
    "2. HIGH-CONVERTING STRUCTURE";
    "- Compelling hero section with the provided hero image";
    "- Clear value proposition and benefits";
    "- Social proof and testimonials with testimonial image";
    "- Strong call-to-action buttons";
    "- Trust signals and guarantees";
    "";
    "3. PROFESSIONAL CONTENT";
    "- Benefit-focused headlines";
    "- Emotional triggers and urgency";
    "- Feature explanations with feature images";
    "- Risk reversal and guarantees";
    "- Professional testimonials";
    "";
    "4. TECHNICAL EXCELLENCE";
    "- Clean, semantic HTML5";
    "- Embedded CSS for styling";
    "- Mobile responsive design";
    "- Fast loading optimization";
    "- SEO-friendly structure";
    "";
    "5. CONVERSION OPTIMIZATION";
    "- Multiple call-to-action buttons";
    "- Scarcity and urgency elements";
    "- Social proof throughout";
    "- Easy navigation and flow";
    "- Professional appearance";
    "";
    "The website should look like a professional $10,000+ landing page that converts visitors into customers immediately.";
    "";
    "USE THE PROVIDED UNSPLASH IMAGES IN THE APPROPRIATE SECTIONS.";
    "";
    "GENERATE COMPLETE HTML CODE NOW:"
  ].

(** [text.replace(/```html/g, '').replace(/```/g, '').trim()] *)
Definition clean_response (text : string) : string :=
  JS.trim (JS.removeAll "```" (JS.removeAll "```html" text)).

(** [genAI.getGenerativeModel] builds a handle for the named model and
    calls nothing; [GenerateContent] stands for [model.generateContent],
    [result.response] and [response.text()], any of which may throw. *)
Definition generateWebsiteContent (productInfo : ProductSummary) : prog string :=
  heroImages <- getUnsplashImages (title productInfo ++ " product lifestyle") 1 ;;
  featureImages <- getUnsplashImages (title productInfo ++ " benefits features") 2 ;;
  testimonialImages <- getUnsplashImages "happy customer testimonial" 1 ;;
  let prompt := generation_prompt productInfo heroImages featureImages testimonialImages in
  try_catch
    (text <- await (GenerateContent prompt) ;;
     let websiteHTML := clean_response text in
     if (negb (JS.includes (JS.toLowerCase websiteHTML) "<!doctype")
         && negb (JS.includes (JS.toLowerCase websiteHTML) "<html"))%bool
     then match JS.match_doctype_html websiteHTML with
          | Some htmlMatch => Pure htmlMatch
          | None => Pure (generateProfessionalTemplate productInfo heroImages
                            featureImages testimonialImages)
          end
     else Pure websiteHTML)
    (fun _ => Pure (generateProfessionalTemplate productInfo heroImages
                      featureImages testimonialImages)).

(** [a || b || c || d] on strings. *)
Definition first_truthy (candidates : list string) (default : string) : string :=
  match find JS.truthy candidates with
  | Some s => s
  | None => default
  end.

Definition fallback_summary (url : string) : ProductSummary :=
  {| title := "Premium Product";
     description := "An amazing product that delivers exceptional value and results.";
     price := "$99.99";
     originalUrl := url |}.

Definition analyzeProductURL (url : string) : prog ProductSummary :=
  try_catch
    (response <- await (FetchPage url) ;;
     if negb (ok response)
     then Raise ("HTTP error! status: " ++ JS.num_to_string (status response))
     else
       html <- lift (payload response) ;;
       page <- await (CheerioLoad html) ;;
       let title := first_truthy
                      [title_text page; h1_text page; product_title_text page]
                      "Amazing Product" in
       let description := first_truthy
                            [JS.or_else (meta_description page) "";
                             JS.or_else (og_description page) "";
                             p_text page]
                            "Discover this incredible product that will transform your life." in
       let price := first_truthy
                      [price_testid_text page; price_class_text page; price_attr_text page]
                      "$99.99" in
       Pure {| title := JS.substring0 100 title;
               description := JS.substring0 200 description;
               price := JS.substring0 20 price;
               originalUrl := url |})
    (fun _ => Pure (fallback_summary url)).

Definition verifyUser (request : Request) : prog (option UserData) :=
  try_catch
    (if JS.falsy (cookie request)
     then Pure None
     else
       _ <- await ConnectToDatabase ;;
       user <- await (FindUserByToken (JS.show (cookie request))) ;;
       Pure user)
    (fun _ => Pure None).

(** [getPlanLimits(plan).websites]: the one field of the object returned. *)
Definition getPlanLimits (plan : string) : Z :=
  if String.eqb plan "basic" then 3
  else if String.eqb plan "pro" then 10
  else if String.eqb plan "enterprise" then 999
  else 3.

Definition json_response (status : Z) (b : ResponseBody) : Response :=
  {| code := status; body := b |}.

Definition app_url (base : option string) : string :=
  JS.or_else base "https://affilify.eu".

(** The end of [POST]: the record is saved, the count of the user goes up
    by one, and the answer is made. *)
Definition save_and_respond (user : UserData) (productUrl : string)
  (productInfo : ProductSummary) (websiteHTML slug : string)
  (netlifyDeployment : option NetlifyDeployment)
  (limit currentWebsiteCount : Z) : prog Response :=
  _ <- await ConnectToDatabase ;;
  oid <- perform NewObjectId ;;
  createdAt <- perform DateNow ;;
  updatedAt <- perform DateNow ;;
  let websiteData :=
    {| w_id := oid;
       w_userId := _id user;
       w_slug := slug;
       w_title := title productInfo;
       w_description := description productInfo;
       w_productUrl := productUrl;
       w_html := websiteHTML;
       w_productInfo := productInfo;
       w_netlifyDeployment := netlifyDeployment;
       w_createdAt := createdAt;
       w_updatedAt := updatedAt;
       w_views := 0;
       w_clicks := 0;
       w_isActive := true |} in
  _ <- await (InsertWebsite websiteData) ;;
  _ <- await (IncWebsiteCount (_id user)) ;;
  base <- perform (GetEnv NEXT_PUBLIC_APP_URL) ;;
  let deployedUrl := match netlifyDeployment with
                     | Some d => nd_url d
                     | None => None
                     end in
  let liveUrl := JS.or_else deployedUrl (app_url base ++ "/websites/" ++ slug) in
  Pure (json_response 200
          (SuccessBody
             {| v_id := w_id websiteData;
                v_slug := slug;
                v_title := title productInfo;
                v_description := description productInfo;
                v_url := liveUrl;
                v_previewUrl := app_url base ++ "/preview/" ++ slug;
                v_netlifyUrl := if JS.falsy deployedUrl then None else deployedUrl;
                v_adminUrl := match netlifyDeployment with
                              | Some d => if JS.falsy (admin_url d) then None
                                          else admin_url d
                              | None => None
                              end |}
             "Professional affiliate website created and deployed successfully!"
             (limit - currentWebsiteCount - 1)
             (match netlifyDeployment with Some _ => "deployed" | None => "local" end)
             (match netlifyDeployment with Some _ => "netlify" | None => "affilify" end))).

(** [slug]: the title in lower case with dashes, and the time. *)
Definition slug_of (title : string) (now : Z) : string :=
  JS.replace_non_alnum (JS.toLowerCase title) ++ "-" ++ JS.num_to_string now.

(** The part of [POST] after the quota check: analysis, synthesis,
    deployment, and then [save_and_respond]. *)
Definition create_website (user : UserData) (productUrl : string)
  (limit currentWebsiteCount : Z) : prog Response :=
  productInfo <- analyzeProductURL productUrl ;;
  websiteHTML <- generateWebsiteContent productInfo ;;
  now <- perform DateNow ;;
  let slug := slug_of (title productInfo) now in
  netlifyDeployment <- deployToNetlify websiteHTML slug ;;
  save_and_respond user productUrl productInfo websiteHTML slug netlifyDeployment
    limit currentWebsiteCount.

(** The quota check of [POST], and what follows it. *)
Definition admit_and_create (user : UserData) (productUrl : string) : prog Response :=
  let limits := getPlanLimits (plan user) in
  let currentWebsiteCount := JS.num_or_zero (websiteCount user) in
  if currentWebsiteCount >=? limits
  then Pure (json_response 403
               (LimitBody "Website limit reached"
                  ("Your " ++ plan user ++ " plan allows " ++ JS.num_to_string limits
                   ++ " websites. Please upgrade to create more.")
                  currentWebsiteCount limits))
  else create_website user productUrl limits currentWebsiteCount.

Definition POST (request : Request) : prog Response :=
  try_catch
    (found <- verifyUser request ;;
     match found with
     | None => Pure (json_response 401 (ErrorBody "Authentication required"))
     | Some user =>
         parsed <- lift (json_productUrl request) ;;
         if JS.falsy parsed
         then Pure (json_response 400 (ErrorBody "Product URL is required"))
         else admit_and_create user (JS.show parsed)
     end)
    (fun _ => Pure (json_response 500
                      (FailureBody "Failed to create website"
                         "An error occurred while creating your affiliate website. Please try again."))).

(** ** Token verification *)

(** A claim value of a token payload. *)
Inductive JsValue :=
| JUndefined
| JNull
| JBool (b : bool)
| JNum (n : Z)
| JStr (s : string)
| JObject.

Definition js_truthy (v : JsValue) : bool :=
  match v with
  | JUndefined | JNull => false
  | JBool b => b
  | JNum n => negb (n =? 0)
  | JStr s => JS.truthy s
  | JObject => true
  end.

(** What [jwt.verify] and [jwt.decode] give: the payload as text when it
    is not JSON, else its claims. *)
Inductive TokenPayload :=
| PayloadText (s : string)
| PayloadClaims (claims : list (string * JsValue)).

Fixpoint lookup (key : string) (claims : list (string * JsValue)) : JsValue :=
  match claims with
  | [] => JUndefined
  | (k, v) :: rest => if String.eqb k key then v else lookup key rest
  end.

(** [decoded.userId] *)
Definition userId (p : TokenPayload) : JsValue :=
  match p with
  | PayloadText _ => JUndefined
  | PayloadClaims claims => lookup "userId" claims
  end.

(** [decodedFallback && decodedFallback.userId] *)
Definition payload_truthy (p : TokenPayload) : bool :=
  match p with
  | PayloadText s => JS.truthy s
  | PayloadClaims _ => true
  end.

Section VerifyToken.

(** The token library: [jwt.verify(token, secret)] throws when the
    signature or the expiry is wrong; [jwt.decode(token)] only reads the
    payload, and gives [null] when there is none. *)
Variable jwt_verify : string -> string -> outcome TokenPayload.
Variable jwt_decode : string -> outcome (option TokenPayload).
Variable JWT_SECRET : string.

Definition verifyToken (token : string) : option TokenPayload :=
  match jwt_verify token JWT_SECRET with
  | Ret decoded => Some decoded
  | Throw _ =>
      match jwt_decode token with
      | Ret (Some decodedFallback) =>
          if (payload_truthy decodedFallback
              && js_truthy (userId decodedFallback))%bool
          then Some decodedFallback
          else None
      | Ret None => None
      | Throw _ => None
      end
  end.

End VerifyToken.

(** ** The account library, the plan wrappers and the reviews route *)

(** The documents of [users] as the account library writes them, with the
    fields its functions read or write; [password] is [None] once a
    projection has removed it, [id] is [None] until a getter adds it.
    Storage is a state passed along; each call may fail, and then throws. *)
Module Auth.

Record User := {
  _id : string;
  id : option string;
  name : string;
  email : string;
  password : option string;
  plan : string;
  websitesCreated : Z;
  websiteLimit : option Z;
  analysesUsed : Z;
  analysisLimit : option Z;
  createdAt : Z;
  updatedAt : Z;
  isVerified : bool
}.

Inductive Op := Connect | FindOne | InsertOne | UpdateOne.

(** The collaborators: storage failures, [bcrypt.hash(password, 12)], the
    identifier the driver gives an inserted document, the clock,
    [new ObjectId(value)] (which throws on a malformed value) and
    [jwt.verify(token, secret)] with the secret possibly undefined. *)
Record Services := {
  fails : list (Op * bool) -> Op -> bool;
  hash : list (Op * bool) -> string -> string;
  insertedId : list (Op * bool) -> string;
  now : list (Op * bool) -> Z;
  objectId : JsValue -> outcome string;
  jwt_verify : string -> option string -> outcome TokenPayload;
  JWT_SECRET : option string
}.

Record World := {
  users : list User;
  log : list (Op * bool)
}.

Definition M (A : Type) : Type := World -> outcome A * World.

Definition ret {A : Type} (a : A) : M A := fun w => (Ret a, w).

Definition throw {A : Type} (msg : string) : M A := fun w => (Throw msg, w).

Definition bind {A B : Type} (m : M A) (f : A -> M B) : M B :=
  fun w => match m w with
           | (Ret a, w') => f a w'
           | (Throw msg, w') => (Throw msg, w')
           end.

Definition try_catch {A : Type} (m : M A) (h : string -> M A) : M A :=
  fun w => match m w with
           | (Ret a, w') => (Ret a, w')
           | (Throw msg, w') => h msg w'
           end.

Definition lift {A : Type} (o : outcome A) : M A := fun w => (o, w).

(** One call to storage: it fails, or acts on the documents. *)
Definition call {A : Type} (S : Services) (op : Op)
  (act : list User -> A * list User) : M A :=
  fun w =>
    if fails S (log w) op
    then (Throw "MongoError", {| users := users w; log := (op, false) :: log w |})
    else let (a, us) := act (users w) in
         (Ret a, {| users := us; log := (op, true) :: log w |}).

Definition connectToDatabase (S : Services) : M unit :=
  call S Connect (fun us => (tt, us)).

Definition clock (S : Services) : M Z := fun w => (Ret (now S (log w)), w).

(** [{ ...user, id: user._id.toString() }] *)
Definition with_id (u : User) : User :=
  {| _id := _id u; id := Some (_id u); name := name u; email := email u;
     password := password u; plan := plan u;
     websitesCreated := websitesCreated u; websiteLimit := websiteLimit u;
     analysesUsed := analysesUsed u; analysisLimit := analysisLimit u;
     createdAt := createdAt u; updatedAt := updatedAt u;
     isVerified := isVerified u |}.

(** The projection [{ password: 0 }]. *)
Definition without_password (u : User) : User :=
  {| _id := _id u; id := id u; name := name u; email := email u;
     password := None; plan := plan u;
     websitesCreated := websitesCreated u; websiteLimit := websiteLimit u;
     analysesUsed := analysesUsed u; analysisLimit := analysisLimit u;
     createdAt := createdAt u; updatedAt := updatedAt u;
     isVerified := isVerified u |}.

Definition by_id (oid : string) (u : User) : bool := String.eqb (_id u) oid.

Definition by_email (e : string) (u : User) : bool := String.eqb (email u) e.

Definition getUserById (S : Services) (userId : string) : M (option User) :=
  try_catch
    (bind (connectToDatabase S) (fun _ =>
     bind (lift (objectId S (JStr userId))) (fun oid =>
     bind (call S FindOne
             (fun us => (option_map without_password (find (by_id oid) us), us)))
       (fun user =>
     match user with
     | None => ret None
     | Some u => ret (Some (with_id u))
     end))))
    (fun _ => ret None).

Definition getUserByEmail (S : Services) (e : string) : M (option User) :=
  try_catch
    (bind (connectToDatabase S) (fun _ =>
     bind (call S FindOne (fun us => (find (by_email e) us, us))) (fun user =>
     match user with
     | None => ret None
     | Some u => ret (Some (with_id u))
     end)))
    (fun _ => ret None).

(** The names that an object literal inherits from [Object.prototype]. *)
Definition object_prototype_members : list string :=
  ["constructor"; "__defineGetter__"; "__defineSetter__"; "hasOwnProperty";
   "__lookupGetter__"; "__lookupSetter__"; "isPrototypeOf";
   "propertyIsEnumerable"; "toString"; "valueOf"; "__proto__";
   "toLocaleString"].

(** What [planLimits[plan]] finds: an entry of the table; or, for a name
    of [Object.prototype], an inherited member (a function, or the
    prototype itself), which has neither limit; or [undefined]. *)
Inductive PlanEntry :=
| TableEntry (websites analyses : Z)
| InheritedMember
| NoEntry.

Definition planLimits (plan : string) : PlanEntry :=
  if String.eqb plan "basic" then TableEntry 3 10
  else if String.eqb plan "pro" then TableEntry 25 50
  else if String.eqb plan "enterprise" then TableEntry (-1) (-1)
  else if existsb (String.eqb plan) object_prototype_members then InheritedMember
  else NoEntry.

(** [limits.websiteLimit] and [limits.analysisLimit]: reading them throws
    when [limits] is [undefined], and gives [undefined] on an inherited
    member. *)
Definition limits_of (limits : PlanEntry) : outcome (option Z * option Z) :=
  match limits with
  | TableEntry websites analyses => Ret (Some websites, Some analyses)
  | InheritedMember => Ret (None, None)
  | NoEntry => Throw "TypeError"
  end.

(** The argument of [createUser]. *)
Record UserInput := {
  in_name : string;
  in_email : string;
  in_password : string;
  in_plan : option string
}.

(** [newUser], with the identifier the driver gives it on insertion. *)
Definition new_user (userData : UserInput) (hashedPassword plan : string)
  (limits : option Z * option Z) (created updated : Z) (oid : string) : User :=
  {| _id := oid;
     id := None;
     name := in_name userData;
     email := in_email userData;
     password := Some hashedPassword;
     plan := plan;
     websitesCreated := 0;
     websiteLimit := fst limits;
     analysesUsed := 0;
     analysisLimit := snd limits;
     createdAt := created;
     updatedAt := updated;
     isVerified := true |}.

(** [insertOne(doc)], the document taking the identifier of the driver. *)
Definition insertOne (S : Services) (doc : string -> User) : M User :=
  fun w => call S InsertOne
             (fun us => let stored := doc (insertedId S (log w)) in
                        (stored, (us ++ [stored])%list)) w.

Definition hashPassword (S : Services) (password : string) : M string :=
  fun w => (Ret (hash S (log w) password), w).

(** The identifier of an acknowledged insertion is an [ObjectId], an
    object and so truthy: the test [!result.insertedId] never holds. *)
Definition createUser (S : Services) (userData : UserInput) : M (option User) :=
  try_catch
    (bind (connectToDatabase S) (fun _ =>
     bind (getUserByEmail S (in_email userData)) (fun existingUser =>
     match existingUser with
     | Some _ => throw "User already exists"
     | None =>
         bind (hashPassword S (in_password userData)) (fun hashedPassword =>
         let plan := JS.or_else (in_plan userData) "basic" in
         bind (lift (limits_of (planLimits plan))) (fun limits =>
         bind (clock S) (fun created =>
         bind (clock S) (fun updated =>
         bind (insertOne S (new_user userData hashedPassword plan limits
                              created updated))
           (fun stored => ret (Some (with_id stored)))))))
     end)))
    (fun _ => ret None).

(** [$inc] of one counter and [$set] of [updatedAt] on the first document
    with the identifier; the result tells whether one was modified. *)
Fixpoint update_first (oid : string) (f : User -> User) (us : list User)
  : bool * list User :=
  match us with
  | [] => (false, [])
  | u :: rest =>
      if by_id oid u then (true, f u :: rest)
      else let (found, rest') := update_first oid f rest in (found, u :: rest')
  end.

Definition inc_websites (t : Z) (u : User) : User :=
  {| _id := _id u; id := id u; name := name u; email := email u;
     password := password u; plan := plan u;
     websitesCreated := websitesCreated u + 1; websiteLimit := websiteLimit u;
     analysesUsed := analysesUsed u; analysisLimit := analysisLimit u;
     createdAt := createdAt u; updatedAt := t;
     isVerified := isVerified u |}.

Definition inc_analyses (t : Z) (u : User) : User :=
  {| _id := _id u; id := id u; name := name u; email := email u;
     password := password u; plan := plan u;
     websitesCreated := websitesCreated u; websiteLimit := websiteLimit u;
     analysesUsed := analysesUsed u + 1; analysisLimit := analysisLimit u;
     createdAt := createdAt u; updatedAt := t;
     isVerified := isVerified u |}.

Definition incrementUserWebsites (S : Services) (userId : string) : M bool :=
  try_catch
    (bind (connectToDatabase S) (fun _ =>
     bind (lift (objectId S (JStr userId))) (fun oid =>
     bind (clock S) (fun t =>
     call S UpdateOne (update_first oid (inc_websites t))))))
    (fun _ => ret false).

Definition incrementUserAnalyses (S : Services) (userId : string) : M bool :=
  try_catch
    (bind (connectToDatabase S) (fun _ =>
     bind (lift (objectId S (JStr userId))) (fun oid =>
     bind (clock S) (fun t =>
     call S UpdateOne (update_first oid (inc_analyses t))))))
    (fun _ => ret false).

(** The request as the wrappers and the reviews route read it: the [token]
    cookie and the body, [None] for a [null] body. *)
Record Request := {
  token : option string;
  json : outcome (option (list (string * JsValue)))
}.

(** What [verifyAuth] returns. *)
Inductive AuthResult :=
| AuthFailure (error : string)
| AuthSuccess (user : User).

Definition verifyAuth (S : Services) (request : Request) : M AuthResult :=
  try_catch
    (if JS.falsy (token request)
     then ret (AuthFailure "No token provided")
     else
       bind (lift (jwt_verify S (JS.show (token request)) (JWT_SECRET S)))
         (fun decoded =>
       bind (connectToDatabase S) (fun _ =>
       bind (lift (objectId S (userId decoded))) (fun oid =>
       bind (call S FindOne (fun us => (find (by_id oid) us, us))) (fun user =>
       match user with
       | None => ret (AuthFailure "User not found")
       | Some u => ret (AuthSuccess u)
       end)))))
    (fun _ => ret (AuthFailure "Invalid token")).

(** A review as the reviews route builds it. *)
Record Review := {
  r_id : string;
  customerName : JsValue;
  customerEmail : JsValue;
  rating : JsValue;
  r_title : JsValue;
  content : JsValue;
  productId : JsValue;
  productName : string;
  websiteId : JsValue;
  websiteName : string;
  status : string;
  isVisible : bool;
  isFeatured : bool;
  r_createdAt : Z;
  r_updatedAt : Z;
  source : string;
  verified : bool;
  helpfulVotes : Z;
  reportedCount : Z
}.

Inductive Reply :=
| ErrorReply (code : Z) (error : string)
| ReviewList (reviews : list Review)
| ReviewCreated (review : Review) (message : string).

Definition Handler : Type := Request -> User -> M Reply.

Inductive RequiredPlan := pro | enterprise.

Definition checkPlan (S : Services) (requiredPlan : RequiredPlan) (handler : Handler)
  (request : Request) : M Reply :=
  bind (verifyAuth S request) (fun authResult =>
  match authResult with
  | AuthFailure _ => ret (ErrorReply 401 "Authentication required")
  | AuthSuccess user =>
      match requiredPlan with
      | pro =>
          if String.eqb (plan user) "basic"
          then ret (ErrorReply 403 "Pro plan required")
          else handler request user
      | enterprise =>
          if negb (String.eqb (plan user) "enterprise")
          then ret (ErrorReply 403 "Enterprise plan required")
          else handler request user
      end
  end).

Definition requirePro (S : Services) : Handler -> Request -> M Reply :=
  checkPlan S pro.

Definition requireEnterprise (S : Services) : Handler -> Request -> M Reply :=
  checkPlan S enterprise.

(** [x || ''] *)
Definition or_empty (v : JsValue) : JsValue :=
  if js_truthy v then v else JStr EmptyString.

(** The handler of [GET]: one sample review. *)
Definition reviews_GET_handler (S : Services) : Handler :=
  fun _ _ =>
    try_catch
      (bind (clock S) (fun created =>
       bind (clock S) (fun updated =>
       ret (ReviewList
              [{| r_id := "1";
                  customerName := JStr "John Smith";
                  customerEmail := JStr "john@example.com";
                  rating := JNum 5;
                  r_title := JStr "Amazing product!";
                  content := JStr "This product exceeded my expectations. Highly recommended!";
                  productId := JStr "prod1";
                  productName := "Sample Product";
                  websiteId := JStr "web1";
                  websiteName := "My Website";
                  status := "approved";
                  isVisible := true;
                  isFeatured := true;
                  r_createdAt := created;
                  r_updatedAt := updated;
                  source := "manual";
                  verified := true;
                  helpfulVotes := 5;
                  reportedCount := 0 |}]))))
      (fun _ => ret (ErrorReply 500 "Internal server error")).

(** The handler of [POST]. *)
Definition reviews_POST_handler (S : Services) : Handler :=
  fun request _ =>
    try_catch
      (bind (lift (json request)) (fun body =>
       match body with
       | None => throw "TypeError"
       | Some fields =>
           let field := fun key => lookup key fields in
           if (negb (js_truthy (field "customerName"))
               || negb (js_truthy (field "rating"))
               || negb (js_truthy (field "content"))
               || negb (js_truthy (field "productId"))
               || negb (js_truthy (field "websiteId")))%bool
           then ret (ErrorReply 400 "Missing required fields")
           else
             bind (clock S) (fun t =>
             bind (clock S) (fun created =>
             bind (clock S) (fun updated =>
             ret (ReviewCreated
                    {| r_id := JS.num_to_string t;
                       customerName := field "customerName";
                       customerEmail := or_empty (field "customerEmail");
                       rating := field "rating";
                       r_title := or_empty (field "title");
                       content := field "content";
                       productId := field "productId";
                       productName := "Product Name";
                       websiteId := field "websiteId";
                       websiteName := "Website Name";
                       status := "pending";
                       isVisible := false;
                       isFeatured := false;
                       r_createdAt := created;
                       r_updatedAt := updated;
                       source := "manual";
                       verified := false;
                       helpfulVotes := 0;
                       reportedCount := 0 |}
                    "Review created successfully"))))
       end))
      (fun _ => ret (ErrorReply 500 "Internal server error")).

Definition reviews_GET (S : Services) : Request -> M Reply :=
  requireEnterprise S (reviews_GET_handler S).

Definition reviews_POST (S : Services) : Request -> M Reply :=
  requireEnterprise S (reviews_POST_handler S).

End Auth.

(** * Vocabulary of the properties *)

(** ** Outcomes of runs *)

(** Events of the network only. *)
Definition quiet (evs : list Event) : Prop :=
  forall op b, ~ In (CalledStorage op b) evs.

(** [ends S p Q]: from every world [p] runs to an outcome that satisfies
    [Q], leaves the database as it was and calls nothing but the network. *)
Definition ends {A : Type} (S : Services) (p : prog A) (Q : outcome A -> Prop) : Prop :=
  forall w, exists o w' evs,
    run S p w = (o, w') /\ db w' = db w /\ history w' = (evs ++ history w)%list
    /\ quiet evs /\ Q o.

Definition returns {A : Type} (P : A -> Prop) : outcome A -> Prop :=
  fun o => exists a, o = Ret a /\ P a.

Definition if_returns {A : Type} (P : A -> Prop) : outcome A -> Prop :=
  fun o => forall a, o = Ret a -> P a.

Definition anything {A : Type} : outcome A -> Prop := fun _ => True.

(** The effects that do not touch storage. *)
Definition off_storage {R : Type} (e : effect R) : bool :=
  match e with
  | ConnectToDatabase | FindUserByToken _ | InsertWebsite _ | IncWebsiteCount _ => false
  | _ => true
  end.

Arguments generation_prompt : simpl never.
Arguments generateProfessionalTemplate : simpl never.
Arguments JS.num_to_string : simpl never.

(** ** What the stages produce *)

Definition within_limits (url : string) (p : ProductSummary) : Prop :=
  (String.length (title p) <= 100)%nat
  /\ (String.length (description p) <= 200)%nat
  /\ (String.length (price p) <= 20)%nat
  /\ originalUrl p = url.

(** The search for [query] finds [photos]: the provider is configured, the
    query can be encoded, and the provider answers with success and a
    payload that has a list of results. *)
Definition found (S : Services) (w : World) (query : string) (count : Z)
  (photos : list (option Photo)) : Prop :=
  exists key encoded response data,
    env S UNSPLASH_ACCESS_KEY = Some key /\ key <> EmptyString
    /\ encodeURIComponent S query = Ret encoded
    /\ unsplash S (history w) query count key = Ret response
    /\ ok response = true
    /\ payload response = Ret data
    /\ results data = Some photos.


(** The calls to the image provider that a search for [query] makes. *)
Definition searched (S : Services) (query : string) (count : Z) : list Event :=
  if JS.falsy (env S UNSPLASH_ACCESS_KEY) then []
  else match encodeURIComponent S query with
       | Ret _ => [CalledUnsplash query count]
       | Throw _ => []
       end.

(** The root markers of a complete page, looked for as the route does. *)
Definition has_root_marker (websiteHTML : string) : bool :=
  (JS.includes (JS.toLowerCase websiteHTML) "<!doctype"
   || JS.includes (JS.toLowerCase websiteHTML) "<html")%bool.

(** What the synthesizer makes of the model's answer. *)
Definition document_of (answer : outcome string) (template : string) : string :=
  match answer with
  | Throw _ => template
  | Ret text =>
      let websiteHTML := clean_response text in
      if has_root_marker websiteHTML then websiteHTML
      else match JS.match_doctype_html websiteHTML with
           | Some htmlMatch => htmlMatch
           | None => template
           end
  end.


Definition deployed_url (netlifyDeployment : option NetlifyDeployment) : option string :=
  match netlifyDeployment with
  | Some d => nd_url d
  | None => None
  end.

(** The success answer for [slug], as far as its addresses and counts go. *)
Definition success_for (S : Services) (slug : string)
  (netlifyDeployment : option NetlifyDeployment) (remaining : Z) (r : Response) : Prop :=
  exists view msg,
    r = json_response 200
          (SuccessBody view msg remaining
             (match netlifyDeployment with Some _ => "deployed" | None => "local" end)
             (match netlifyDeployment with Some _ => "netlify" | None => "affilify" end))
    /\ v_slug view = slug
    /\ v_url view = JS.or_else (deployed_url netlifyDeployment)
                      (app_url (env S NEXT_PUBLIC_APP_URL) ++ "/websites/" ++ slug)
    /\ v_previewUrl view = app_url (env S NEXT_PUBLIC_APP_URL) ++ "/preview/" ++ slug
    /\ v_netlifyUrl view = (if JS.falsy (deployed_url netlifyDeployment) then None
                            else deployed_url netlifyDeployment).

(** The record [save_and_respond] stores. *)
Definition record_for (user : UserData) (productUrl : string)
  (productInfo : ProductSummary) (websiteHTML slug : string)
  (netlifyDeployment : option NetlifyDeployment) (rec : WebsiteData) : Prop :=
  w_userId rec = _id user /\ w_slug rec = slug /\ w_productUrl rec = productUrl
  /\ w_productInfo rec = productInfo /\ w_html rec = websiteHTML
  /\ w_netlifyDeployment rec = netlifyDeployment
  /\ w_views rec = 0 /\ w_clicks rec = 0 /\ w_isActive rec = true.

(** A storage call of kind [op] failed among [evs]. *)
Definition storage_failed (S : Services) (evs : list Event) (op : DbOp) : Prop :=
  In (CalledStorage op false) evs /\ exists h, storage_fails S h op = true.

(** How a run of the saving part ended, seen from outside. *)
Inductive saved (S : Services) (user : UserData) (w w' : World) (evs : list Event)
  (rec : WebsiteData) : outcome Response -> Prop :=
| saved_all r :
    code r = 200 ->
    users (db w') = updateOne_inc (_id user) (users (db w)) ->
    websites (db w') = (websites (db w) ++ [rec])%list ->
    (forall op, ~ In (CalledStorage op false) evs) ->
    saved S user w w' evs rec (Ret r)
| saved_nothing msg :
    db w' = db w ->
    storage_failed S evs OpConnect \/ storage_failed S evs OpInsertWebsite ->
    saved S user w w' evs rec (Throw msg)
| saved_record_only msg :
    users (db w') = users (db w) ->
    websites (db w') = (websites (db w) ++ [rec])%list ->
    storage_failed S evs OpIncCount ->
    saved S user w w' evs rec (Throw msg).

(** The three stages before the saving: what they produced, and that they
    left the database alone. *)
Record staged (S : Services) (productUrl : string) (w w1 : World)
  (productInfo : ProductSummary) (websiteHTML slug : string)
  (netlifyDeployment : option NetlifyDeployment) : Prop := {
  staged_db : db w1 = db w;
  staged_history : exists evs, history w1 = (evs ++ history w)%list /\ quiet evs;
  staged_summary : within_limits productUrl productInfo;
  staged_document : has_root_marker websiteHTML = true;
  staged_slug : exists now, slug = slug_of (title productInfo) now;
  staged_local : JS.falsy (env S NETLIFY_ACCESS_TOKEN) = true ->
                 netlifyDeployment = None
}.

Definition failure_response : Response :=
  json_response 500
    (FailureBody "Failed to create website"
       "An error occurred while creating your affiliate website. Please try again.").

Definition limit_response (user : UserData) : Response :=
  json_response 403
    (LimitBody "Website limit reached"
       ("Your " ++ plan user ++ " plan allows "
        ++ JS.num_to_string (getPlanLimits (plan user))
        ++ " websites. Please upgrade to create more.")
       (JS.num_or_zero (websiteCount user)) (getPlanLimits (plan user))).

(** The account after one more website. *)
Definition incremented (u : UserData) : UserData :=
  {| _id := _id u; authToken := authToken u; email := email u; plan := plan u;
     websiteCount := Some (JS.num_or_zero (websiteCount u) + 1) |}.

(** ** Concrete worlds *)

Definition ok_response {B : Type} (b : B) : http B :=
  {| ok := true; status := 200; payload := Ret b |}.

(** Collaborators that differ in configuration, image search, model and
    storage; the product page is unreachable and the host refuses. *)
Definition scenario (e : EnvVar -> option string)
  (search : string -> outcome (http SearchPayload))
  (model : outcome string) (fails : list Event -> DbOp -> bool) : Services :=
  {| env := e;
     encodeURIComponent := fun text => Ret (JS.encodeURIComponent text);
     unsplash := fun _ query _ _ => search query;
     page_server := fun _ _ => Throw "ENOTFOUND";
     cheerio := fun _ => Throw "unreadable";
     gemini := fun _ _ => model;
     netlify_site := fun _ _ _ => Throw "ECONNREFUSED";
     netlify_deploy := fun _ _ _ _ => Throw "ECONNREFUSED";
     clock := fun _ => 1700000000000;
     object_id := fun _ => "65a1b2c3d4e5f60718293a4b";
     storage_fails := fails |}.

Definition unconfigured : EnvVar -> option string := fun _ => None.

Definition with_image_key : EnvVar -> option string :=
  fun v => match v with
           | UNSPLASH_ACCESS_KEY => Some "image-key"
           | _ => None
           end.

(** Nothing configured, every provider down, storage up. *)
Definition offline : Services :=
  scenario unconfigured (fun _ => Throw "ENOTFOUND") (Throw "API key not valid")
    (fun _ _ => false).


Definition photo_at (address : string) : option Photo :=
  Some {| urls := Some {| regular := Some address; urls_thumb := Some address |};
          alt_description := None;
          user := Some {| name := JS.Text "Ann" |};
          links := Some {| download_location := None |} |}.


(** A key is set, and the query cannot be encoded. *)
Definition lone_surrogate : Services :=
  {| env := with_image_key;
     encodeURIComponent := fun _ => Throw "URIError";
     unsplash := fun _ query _ _ =>
       Ret (ok_response
              {| results := Some [photo_at ("https://images.example/" ++ query)] |});
     page_server := fun _ _ => Throw "ENOTFOUND";
     cheerio := fun _ => Throw "unreadable";
     gemini := fun _ _ => Throw "API key not valid";
     netlify_site := fun _ _ _ => Throw "ECONNREFUSED";
     netlify_deploy := fun _ _ _ _ => Throw "ECONNREFUSED";
     clock := fun _ => 1700000000000;
     object_id := fun _ => "65a1b2c3d4e5f60718293a4b";
     storage_fails := fun _ _ => false |}.


(** The product page is up and has a title and nothing else; no provider is
    configured. *)
Definition titled_page : Services :=
  {| env := unconfigured;
     encodeURIComponent := fun text => Ret (JS.encodeURIComponent text);
     unsplash := fun _ _ _ _ => Throw "ENOTFOUND";
     page_server := fun _ _ => Ret (ok_response "<title>Widget Pro</title>");
     cheerio := fun _ =>
       Ret {| title_text := "Widget Pro"; h1_text := ""; product_title_text := "";
              meta_description := None; og_description := None; p_text := "";
              price_testid_text := ""; price_class_text := "";
              price_attr_text := "" |};
     gemini := fun _ _ => Throw "API key not valid";
     netlify_site := fun _ _ _ => Throw "ECONNREFUSED";
     netlify_deploy := fun _ _ _ _ => Throw "ECONNREFUSED";
     clock := fun _ => 1700000000000;
     object_id := fun _ => "65a1b2c3d4e5f60718293a4b";
     storage_fails := fun _ _ => false |}.

Definition account (p : string) (n : Z) : UserData :=
  {| _id := "u1"; authToken := "token-1"; email := "ann@example.com";
     plan := p; websiteCount := Some n |}.

Definition world_of (u : UserData) : World :=
  {| db := {| users := [u]; websites := [] |}; history := [] |}.

Definition widget_request : Request :=
  {| cookie := Some "token-1";
     json_productUrl := Ret (Some "https://example.com/product") |}.


(** A token library for which every verification fails and every token
    decodes to the given payload. *)
Definition failing_verify : string -> string -> outcome TokenPayload :=
  fun _ _ => Throw "invalid signature".

Definition decode_to (p : option TokenPayload) : string -> outcome (option TokenPayload) :=
  fun _ => Ret p.

(** ** Further vocabulary *)

(** Every account is at or below the ceiling of its plan. *)
Definition within_quota (us : list UserData) : Prop :=
  Forall (fun u => JS.num_or_zero (websiteCount u) <= getPlanLimits (plan u)) us.

(** Requests served one after the other, each from the world the one
    before left. *)
Fixpoint serve (S : Services) (requests : list Request) (w : World)
  : list (outcome Response) * World :=
  match requests with
  | [] => ([], w)
  | request :: rest =>
      let (o, w1) := run S (POST request) w in
      let (os, w2) := serve S rest w1 in
      (o :: os, w2)
  end.

Definition unauthorized_response : Response :=
  json_response 401 (ErrorBody "Authentication required").

Definition bad_request_response : Response :=
  json_response 400 (ErrorBody "Product URL is required").

(** Events of storage only. *)
Definition storage_only (evs : list Event) : Prop :=
  forall ev, In ev evs -> exists op b, ev = CalledStorage op b.

Fixpoint all_chars (P : ascii -> bool) (s : string) : bool :=
  match s with
  | EmptyString => true
  | String c s' => (P c && all_chars P s')%bool
  end.

(** A lower-case letter, a digit or a dash. *)
Definition slug_safe (c : ascii) : bool :=
  (JS.in_range 97 122 c || JS.in_range 48 57 c || Ascii.eqb c "-")%bool.

(** ** Vocabulary of the account library *)

Module AuthVocabulary.

Import Auth.

(** Storage that never fails. *)
Definition up (S : Services) : Prop := forall l op, fails S l op = false.

(** Collaborators for which storage is up, identifiers are texts of 24
    code units, and the one token verified is that of [ann], under the
    secret ["s3cret"] only. *)
Definition steady : Services :=
  {| fails := fun _ _ => false;
     hash := fun _ password => "$2a$12$" ++ password;
     insertedId := fun _ => "65a1b2c3d4e5f60718293a4c";
     now := fun _ => 1700000000000;
     objectId := fun v =>
       match v with
       | JStr s => if Nat.eqb (String.length s) 24 then Ret s else Throw "BSONError"
       | _ => Throw "BSONError"
       end;
     jwt_verify := fun token secret =>
       match secret with
       | Some "s3cret" =>
           if String.eqb token "token-of-ann"
           then Ret (PayloadClaims [("userId", JStr "65a1b2c3d4e5f60718293a4b")])
           else Throw "JsonWebTokenError"
       | _ => Throw "JsonWebTokenError"
       end;
     JWT_SECRET := Some "s3cret" |}.

Definition ann (p : string) : User :=
  {| _id := "65a1b2c3d4e5f60718293a4b"; id := None; name := "Ann";
     email := "ann@example.com"; password := Some "$2a$12$hash"; plan := p;
     websitesCreated := 3; websiteLimit := Some 3; analysesUsed := 0;
     analysisLimit := Some 10; createdAt := 1690000000000; updatedAt := 1690000000000;
     isVerified := true |}.

Definition world_with (u : User) : World := {| users := [u]; log := [] |}.

Definition bob_input : UserInput :=
  {| in_name := "Bob"; in_email := "bob@example.com"; in_password := "pw";
     in_plan := Some "pro" |}.

Definition request_of_ann (body : outcome (option (list (string * JsValue))))
  : Request :=
  {| token := Some "token-of-ann"; json := body |}.

Definition eve_input : UserInput :=
  {| in_name := "Eve"; in_email := "eve@example.com"; in_password := "pw";
     in_plan := Some "constructor" |}.

Definition review_fields : list (string * JsValue) :=
  [("customerName", JStr "Cy"); ("rating", JNum 4); ("content", JStr "Good");
   ("productId", JStr "p1"); ("websiteId", JStr "w1")].

(** The fields a review needs. *)
Definition required_fields : list string :=
  ["customerName"; "rating"; "content"; "productId"; "websiteId"].

Definition complete (fields : list (string * JsValue)) : bool :=
  forallb (fun key => js_truthy (lookup key fields)) required_fields.

(** A field of a review is a text or a value the client sent for it. *)
Definition sent_or_empty (key : string) (fields : list (string * JsValue))
  (v : JsValue) : Prop :=
  v = JStr EmptyString \/ (v = lookup key fields /\ js_truthy v = true).

End AuthVocabulary.

(** * Properties *)

(** ** Strings *)

Lemma length_take (n : nat) (s : string) :
  (String.length (JS.take n s) <= n)%nat.
Proof.
  revert s; induction n as [|n IH]; intros [|c s]; simpl; try lia.
  specialize (IH s); lia.
Qed.

Lemma startsWith_app (p s : string) : JS.startsWith p (p ++ s) = true.
Proof.
  induction p as [|c p IH]; simpl; [reflexivity|].
  now rewrite Ascii.eqb_refl.
Qed.

Lemma includes_startsWith (s p : string) :
  JS.startsWith p s = true -> JS.includes s p = true.
Proof. intros H; destruct s; simpl in *; now rewrite H. Qed.

Lemma includes_cons (c : ascii) (s p : string) :
  JS.includes s p = true -> JS.includes (String c s) p = true.
Proof.
  intros H. change (JS.includes (String c s) p)
    with (if JS.startsWith p (String c s) then true else JS.includes s p).
  rewrite H. now destruct (JS.startsWith p (String c s)).
Qed.

Lemma includes_app (a s p : string) :
  JS.includes s p = true -> JS.includes (a ++ s) p = true.
Proof.
  intros H; induction a as [|c a IH]; simpl String.append; [exact H|].
  now apply includes_cons.
Qed.

Lemma includes_middle (a p b : string) : JS.includes (a ++ p ++ b) p = true.
Proof. apply includes_app, includes_startsWith, startsWith_app. Qed.

Lemma toLowerCase_app (a b : string) :
  JS.toLowerCase (a ++ b) = JS.toLowerCase a ++ JS.toLowerCase b.
Proof. induction a as [|c a IH]; simpl; [reflexivity|now rewrite IH]. Qed.

Lemma ci_startsWith_lower (p s : string) :
  JS.ci_startsWith p s = true ->
  JS.startsWith (JS.toLowerCase p) (JS.toLowerCase s) = true.
Proof.
  revert s; induction p as [|a p IH]; intros [|b s]; simpl; try easy.
  unfold JS.ci_eqb. intros H. apply andb_true_iff in H as [H1 H2].
  now rewrite H1, IH.
Qed.

Lemma ci_startsWith_take (p s r : string) :
  JS.ci_startsWith p s = true ->
  JS.ci_startsWith p (JS.take (String.length p) s ++ r) = true.
Proof.
  revert s; induction p as [|a p IH]; intros [|b s]; simpl; try easy.
  intros H. apply andb_true_iff in H as [H1 H2]. now rewrite H1, IH.
Qed.

(** What the pattern matches begins, whatever the case, with the document
    type marker. *)
Lemma match_doctype_html_head (s r : string) :
  JS.match_doctype_html s = Some r ->
  JS.startsWith "<!doctype" (JS.toLowerCase r) = true.
Proof.
  induction s as [|c s IH]; [discriminate|].
  cbn [JS.match_doctype_html].
  destruct (JS.ci_startsWith "<!DOCTYPE" (String c s)) eqn:E; [|exact IH].
  destruct (JS.longest_upto "</html>" (JS.drop 9 (String c s))) as [t|]; [|exact IH].
  intros [= <-].
  apply (ci_startsWith_lower "<!DOCTYPE").
  apply (ci_startsWith_take "<!DOCTYPE" (String c s) t E).
Qed.

(** ** Running programs *)

Lemma run_bind {A B : Type} (S : Services) (m : prog A) (f : A -> prog B) (w : World) :
  run S (bind m f) w =
  match run S m w with
  | (Ret a, w') => run S (f a) w'
  | (Throw msg, w') => (Throw msg, w')
  end.
Proof.
  revert w; induction m as [a|msg|R e k IH]; intros w; simpl; try reflexivity.
  destruct (handle S e w) as [r w']. apply IH.
Qed.

Lemma run_try_catch {A : Type} (S : Services) (m : prog A) (h : string -> prog A)
  (w : World) :
  run S (try_catch m h) w =
  match run S m w with
  | (Ret a, w') => (Ret a, w')
  | (Throw msg, w') => run S (h msg) w'
  end.
Proof.
  revert w; induction m as [a|msg|R e k IH]; intros w; simpl; try reflexivity.
  destruct (handle S e w) as [r w']. apply IH.
Qed.

Lemma quiet_nil : quiet [].
Proof. intros op b []. Qed.

Lemma quiet_app (e1 e2 : list Event) : quiet e1 -> quiet e2 -> quiet (e1 ++ e2)%list.
Proof.
  intros H1 H2 op b Hin. apply in_app_or in Hin as [Hin|Hin];
    [exact (H1 _ _ Hin)|exact (H2 _ _ Hin)].
Qed.

Lemma ends_weaken {A : Type} (S : Services) (p : prog A) (Q Q' : outcome A -> Prop) :
  ends S p Q -> (forall o, Q o -> Q' o) -> ends S p Q'.
Proof.
  intros H HQ w. destruct (H w) as (o & w' & evs & E & D & Hh & Hq & HQo).
  exists o, w', evs. repeat split; auto.
Qed.

Lemma ends_pure {A : Type} (S : Services) (a : A) (Q : outcome A -> Prop) :
  Q (Ret a) -> ends S (Pure a) Q.
Proof. intros H w. exists (Ret a), w, []. simpl. repeat split; auto using quiet_nil. Qed.

Lemma ends_raise {A : Type} (S : Services) (msg : string) (Q : outcome A -> Prop) :
  Q (Throw msg) -> ends S (Raise msg) Q.
Proof. intros H w. exists (Throw msg), w, []. simpl. repeat split; auto using quiet_nil. Qed.

Lemma ends_lift {A : Type} (S : Services) (o : outcome A) (Q : outcome A -> Prop) :
  Q o -> ends S (lift o) Q.
Proof. destruct o; simpl; [apply ends_pure|apply ends_raise]. Qed.

Lemma ends_bind {A B : Type} (S : Services) (m : prog A) (f : A -> prog B)
  (Q1 : outcome A -> Prop) (Q2 : outcome B -> Prop) :
  ends S m Q1 ->
  (forall a, Q1 (Ret a) -> ends S (f a) Q2) ->
  (forall msg, Q1 (Throw msg) -> Q2 (Throw msg)) ->
  ends S (bind m f) Q2.
Proof.
  intros Hm Hf Ht w. rewrite run_bind.
  destruct (Hm w) as (o & w1 & e1 & E1 & D1 & H1 & q1 & HQ1). rewrite E1.
  destruct o as [a|msg].
  - destruct (Hf a HQ1 w1) as (o2 & w2 & e2 & E2 & D2 & H2 & q2 & HQ2).
    exists o2, w2, (e2 ++ e1)%list. rewrite E2, D2, D1, H2, H1, app_assoc.
    repeat split; auto using quiet_app.
  - exists (Throw msg), w1, e1. repeat split; auto.
Qed.

Lemma ends_try_catch {A : Type} (S : Services) (m : prog A) (h : string -> prog A)
  (Q1 Q2 : outcome A -> Prop) :
  ends S m Q1 ->
  (forall a, Q1 (Ret a) -> Q2 (Ret a)) ->
  (forall msg, Q1 (Throw msg) -> ends S (h msg) Q2) ->
  ends S (try_catch m h) Q2.
Proof.
  intros Hm Hr Hh w. rewrite run_try_catch.
  destruct (Hm w) as (o & w1 & e1 & E1 & D1 & H1 & q1 & HQ1). rewrite E1.
  destruct o as [a|msg].
  - exists (Ret a), w1, e1. repeat split; auto.
  - destruct (Hh msg HQ1 w1) as (o2 & w2 & e2 & E2 & D2 & H2 & q2 & HQ2).
    exists o2, w2, (e2 ++ e1)%list. rewrite E2, D2, D1, H2, H1, app_assoc.
    repeat split; auto using quiet_app.
Qed.

Lemma handle_off_storage {R : Type} (S : Services) (e : effect R) (w : World) :
  off_storage e = true ->
  exists evs, db (snd (handle S e w)) = db w
              /\ history (snd (handle S e w)) = (evs ++ history w)%list /\ quiet evs.
Proof.
  destruct e; simpl; try discriminate; intros _;
    first [ now (exists []; auto using quiet_nil)
          | eexists [_]; repeat split; intros op b [H|[]]; discriminate ].
Qed.

Lemma ends_vis {A R : Type} (S : Services) (e : effect R) (k : R -> prog A)
  (Q : outcome A -> Prop) :
  off_storage e = true ->
  (forall r, ends S (k r) Q) ->
  ends S (Vis e k) Q.
Proof.
  intros He Hk w. simpl.
  destruct (handle_off_storage S e w He) as (e1 & D1 & H1 & q1).
  destruct (handle S e w) as [r w1]; simpl in *.
  destruct (Hk r w1) as (o2 & w2 & e2 & E2 & D2 & H2 & q2 & HQ2).
  exists o2, w2, (e2 ++ e1)%list. rewrite E2, D2, D1, H2, H1, app_assoc.
  repeat split; auto using quiet_app.
Qed.

Lemma ends_perform {R : Type} (S : Services) (e : effect R) (Q : outcome R -> Prop) :
  off_storage e = true -> (forall r, Q (Ret r)) -> ends S (perform e) Q.
Proof. intros He HQ. apply ends_vis; [exact He|]. intros r. now apply ends_pure. Qed.

Lemma ends_await {R : Type} (S : Services) (e : effect (outcome R))
  (Q : outcome R -> Prop) :
  off_storage e = true -> (forall o, Q o) -> ends S (await e) Q.
Proof. intros He HQ. apply ends_vis; [exact He|]. intros r. now apply ends_lift. Qed.

Lemma bind_pure {A B : Type} (a : A) (f : A -> prog B) : bind (Pure a) f = f a.
Proof. reflexivity. Qed.

Lemma bind_raise {A B : Type} (msg : string) (f : A -> prog B) :
  bind (Raise msg) f = Raise msg.
Proof. reflexivity. Qed.

Lemma bind_vis {A B R : Type} (e : effect R) (k : R -> prog A) (f : A -> prog B) :
  bind (Vis e k) f = Vis e (fun r => bind (k r) f).
Proof. reflexivity. Qed.

(** Walks down a tree of network effects; [leaf] closes the goals at the
    values returned. *)
Ltac walk leaf :=
  repeat first
    [ rewrite bind_vis
    | rewrite bind_pure
    | rewrite bind_raise
    | progress cbn [lift]
    | apply ends_pure; leaf
    | apply ends_raise; leaf
    | apply ends_vis; [reflexivity | intros ?]
    | match goal with
      | |- ends _ (match ?x with _ => _ end) _ => destruct x eqn:?
      | |- ends _ (bind (match ?x with _ => _ end) _) _ => destruct x eqn:?
      | |- ends _ (bind (lift ?x) _) _ => destruct x eqn:?
      | |- ends _ (lift ?x) _ => destruct x eqn:?
      end ].

Ltac harmless := walk ltac:(exact I).

Lemma if_returns_ret {A : Type} (P : A -> Prop) (a : A) : P a -> if_returns P (Ret a).
Proof. intros H b [= <-]. exact H. Qed.

Lemma if_returns_throw {A : Type} (P : A -> Prop) (msg : string) :
  if_returns P (Throw msg).
Proof. intros b [=]. Qed.

Lemma returns_True {A : Type} (a : A) : returns (fun _ => True) (Ret a).
Proof. now exists a. Qed.

(** *** The asset sourcer *)

Lemma getUnsplashImages_ends (S : Services) (query : string) (count : Z) :
  ends S (getUnsplashImages query count) (returns (fun _ => True)).
Proof.
  unfold getUnsplashImages.
  apply ends_try_catch with (Q1 := anything).
  - unfold perform, await. harmless.
  - intros a _. apply returns_True.
  - intros msg _. apply ends_pure, returns_True.
Qed.






(** The run of [getUnsplashImages], branch by branch. *)
Lemma getUnsplashImages_run (S : Services) (query : string) (count : Z)
  (w : World) :
  run S (getUnsplashImages query count) w =
  if JS.falsy (env S UNSPLASH_ACCESS_KEY)
  then (Ret (generatePlaceholderImages query count), w)
  else
    match encodeURIComponent S query with
    | Throw _ => (Ret (generatePlaceholderImages query count), w)
    | Ret _ =>
        (Ret match unsplash S (history w) query count
                     (JS.show (env S UNSPLASH_ACCESS_KEY)) with
             | Throw _ => generatePlaceholderImages query count
             | Ret response =>
                 if ok response
                 then match payload response with
                      | Throw _ => generatePlaceholderImages query count
                      | Ret data =>
                          match results data with
                          | None => generatePlaceholderImages query count
                          | Some photos =>
                              match map_outcome (asset_of_photo query) photos with
                              | Ret images => images
                              | Throw _ => generatePlaceholderImages query count
                              end
                          end
                      end
                 else generatePlaceholderImages query count
             end,
         record (CalledUnsplash query count) w)
    end.
Proof.
  unfold getUnsplashImages. rewrite run_try_catch.
  unfold perform, await. rewrite bind_vis. cbn [run handle]. rewrite bind_pure.
  destruct (JS.falsy (env S UNSPLASH_ACCESS_KEY)); [reflexivity|].
  rewrite bind_vis. cbn [run handle].
  destruct (encodeURIComponent S query) as [encoded|msg]; cbn [lift];
    [rewrite bind_pure|reflexivity].
  rewrite bind_vis. cbn [run handle].
  destruct (unsplash S (history w) query count (JS.show (env S UNSPLASH_ACCESS_KEY)))
    as [response|msg]; cbn [lift]; [rewrite bind_pure|reflexivity].
  destruct (ok response); cbn [negb run]; [|reflexivity].
  destruct (payload response) as [data|msg]; cbn [lift]; rewrite ?bind_pure;
    cbn [run]; [|reflexivity].
  destruct (results data) as [photos|]; cbn [run]; [|reflexivity].
  now destruct (map_outcome (asset_of_photo query) photos) as [images|msg].
Qed.

(** *** The page analyzer *)

Lemma fallback_within_limits (url : string) : within_limits url (fallback_summary url).
Proof. unfold within_limits; simpl; repeat split; lia. Qed.

Lemma analyzeProductURL_ends (S : Services) (url : string) :
  ends S (analyzeProductURL url) (returns (within_limits url)).
Proof.
  unfold analyzeProductURL.
  apply ends_try_catch with (Q1 := if_returns (within_limits url)).
  - unfold perform, await.
    walk ltac:(first [ apply if_returns_throw
                     | apply if_returns_ret; unfold within_limits, JS.substring0;
                       cbn [title description price originalUrl];
                       repeat split; apply length_take ]).
  - intros a H. exists a. split; [reflexivity|]. now apply H.
  - intros msg _. apply ends_pure. exists (fallback_summary url).
    split; [reflexivity|apply fallback_within_limits].
Qed.

Lemma analyzeProductURL_fallback (S : Services) (url : string) (w : World) :
  (forall r, page_server S (history w) url = Ret r -> ok r = false) ->
  fst (run S (analyzeProductURL url) w) = Ret (fallback_summary url).
Proof.
  intros H. unfold analyzeProductURL. rewrite run_try_catch. simpl.
  destruct (page_server S (history w) url) as [r|msg]; simpl; [|reflexivity].
  now rewrite (H r eq_refl).
Qed.

(** *** The deployment publisher *)

Lemma deployToNetlify_ends (S : Services) (websiteHTML siteName : string) :
  ends S (deployToNetlify websiteHTML siteName) (returns (fun _ => True)).
Proof.
  unfold deployToNetlify.
  apply ends_try_catch with (Q1 := anything).
  - unfold perform, await. harmless.
  - intros a _. apply returns_True.
  - intros msg _. apply ends_pure, returns_True.
Qed.

Lemma deployToNetlify_unconfigured (S : Services) (websiteHTML siteName : string)
  (w : World) :
  JS.falsy (env S NETLIFY_ACCESS_TOKEN) = true ->
  run S (deployToNetlify websiteHTML siteName) w = (Ret None, w).
Proof.
  intros H. unfold deployToNetlify. rewrite run_try_catch. simpl. now rewrite H.
Qed.

(** *** The content synthesizer *)

Lemma template_has_root_marker (productInfo : ProductSummary)
  (heroImages featureImages testimonialImages : list ImageAsset) :
  has_root_marker (generateProfessionalTemplate productInfo heroImages
                     featureImages testimonialImages) = true.
Proof. reflexivity. Qed.

Lemma document_of_has_root_marker (answer : outcome string) (template : string) :
  has_root_marker template = true ->
  has_root_marker (document_of answer template) = true.
Proof.
  intros Ht. destruct answer as [text|msg]; simpl; [|exact Ht].
  destruct (has_root_marker (clean_response text)) eqn:E; [exact E|].
  destruct (JS.match_doctype_html (clean_response text)) as [m|] eqn:M; [|exact Ht].
  unfold has_root_marker.
  rewrite (includes_startsWith _ _ (match_doctype_html_head _ _ M)). reflexivity.
Qed.

Lemma generateWebsiteContent_run (S : Services) (productInfo : ProductSummary)
  (w : World) :
  exists heroImages featureImages testimonialImages w1 w2 w3,
    run S (getUnsplashImages (title productInfo ++ " product lifestyle") 1) w
    = (Ret heroImages, w1)
    /\ run S (getUnsplashImages (title productInfo ++ " benefits features") 2) w1
       = (Ret featureImages, w2)
    /\ run S (getUnsplashImages "happy customer testimonial" 1) w2
       = (Ret testimonialImages, w3)
    /\ let prompt := generation_prompt productInfo heroImages featureImages
                       testimonialImages in
       run S (generateWebsiteContent productInfo) w
       = (Ret (document_of (gemini S (history w3) prompt)
                 (generateProfessionalTemplate productInfo heroImages
                    featureImages testimonialImages)),
          record (CalledGemini prompt) w3).
Proof.
  destruct (getUnsplashImages_ends S (title productInfo ++ " product lifestyle") 1 w)
    as (o1 & w1 & e1 & E1 & _ & _ & _ & (hero & -> & _)).
  destruct (getUnsplashImages_ends S (title productInfo ++ " benefits features") 2 w1)
    as (o2 & w2 & e2 & E2 & _ & _ & _ & (feat & -> & _)).
  destruct (getUnsplashImages_ends S "happy customer testimonial" 1 w2)
    as (o3 & w3 & e3 & E3 & _ & _ & _ & (testi & -> & _)).
  exists hero, feat, testi, w1, w2, w3. repeat split; try assumption.
  unfold generateWebsiteContent.
  rewrite run_bind, E1, run_bind, E2, run_bind, E3.
  cbv zeta. rewrite run_try_catch. unfold await. rewrite bind_vis.
  cbn [run handle].
  destruct (gemini S (history w3)
              (generation_prompt productInfo hero feat testi)) as [text|msg];
    cbn [lift bind run document_of]; [|reflexivity].
  cbv zeta. unfold has_root_marker.
  destruct (JS.includes (JS.toLowerCase (clean_response text)) "<!doctype");
    destruct (JS.includes (JS.toLowerCase (clean_response text)) "<html");
    cbn [negb andb orb]; try reflexivity.
  now destruct (JS.match_doctype_html (clean_response text)).
Qed.

Lemma generateWebsiteContent_ends (S : Services) (productInfo : ProductSummary) :
  ends S (generateWebsiteContent productInfo)
    (returns (fun websiteHTML => has_root_marker websiteHTML = true)).
Proof.
  intros w.
  destruct (generateWebsiteContent_run S productInfo w)
    as (hero & feat & testi & w1 & w2 & w3 & E1 & E2 & E3 & E).
  destruct (getUnsplashImages_ends S (title productInfo ++ " product lifestyle") 1 w)
    as (o1 & w1' & e1 & E1' & D1 & H1 & q1 & _).
  rewrite E1 in E1'; injection E1' as <- <-.
  destruct (getUnsplashImages_ends S (title productInfo ++ " benefits features") 2 w1)
    as (o2 & w2' & e2 & E2' & D2 & H2 & q2 & _).
  rewrite E2 in E2'; injection E2' as <- <-.
  destruct (getUnsplashImages_ends S "happy customer testimonial" 1 w2)
    as (o3 & w3' & e3 & E3' & D3 & H3 & q3 & _).
  rewrite E3 in E3'; injection E3' as <- <-.
  cbv zeta in E. rewrite E.
  eexists _, _, (CalledGemini _ :: e3 ++ e2 ++ e1)%list.
  split; [reflexivity|]. cbn [record db history].
  rewrite D3, D2, D1, H3, H2, H1. repeat split.
  - rewrite <- app_comm_cons, <- ?app_assoc. reflexivity.
  - intros op b [Hin|Hin]; [discriminate|].
    revert Hin. apply quiet_app; [assumption|now apply quiet_app].
  - eexists; split; [reflexivity|].
    apply document_of_has_root_marker, template_has_root_marker.
Qed.

(** *** Saving and answering *)

Lemma save_and_respond_cases (S : Services) (user : UserData) (productUrl : string)
  (productInfo : ProductSummary) (websiteHTML slug : string)
  (netlifyDeployment : option NetlifyDeployment) (limit current : Z) (w : World) :
  exists o w' evs rec,
    run S (save_and_respond user productUrl productInfo websiteHTML slug
             netlifyDeployment limit current) w = (o, w')
    /\ history w' = (evs ++ history w)%list
    /\ record_for user productUrl productInfo websiteHTML slug netlifyDeployment rec
    /\ saved S user w w' evs rec o
    /\ (forall r, o = Ret r ->
                  success_for S slug netlifyDeployment (limit - current - 1) r).
Proof.
  unfold save_and_respond, await, perform.
  rewrite ?bind_vis. cbn [run handle]. unfold storage_call at 1.
  destruct (storage_fails S (history w) OpConnect) eqn:F1.
  { eexists _, _, [_], {| w_id := EmptyString; w_userId := _id user; w_slug := slug;
                         w_productUrl := productUrl; w_productInfo := productInfo;
                         w_html := websiteHTML;
                         w_netlifyDeployment := netlifyDeployment;
                         w_title := EmptyString; w_description := EmptyString;
                         w_createdAt := 0; w_updatedAt := 0; w_views := 0;
                         w_clicks := 0; w_isActive := true |}.
    cbn [lift bind run record db history].
    split; [reflexivity|]. split; [reflexivity|].
    split; [repeat split|]. split; [|discriminate].
    apply saved_nothing; [reflexivity|]. left. split; [now left|eauto]. }
  cbn [lift bind]. rewrite ?bind_vis. cbn [run handle bind].
  rewrite ?bind_vis. cbn [run handle]. unfold storage_call at 1.
  cbn [history db].
  match goal with
  | |- context [(_ ++ [?d])%list] => set (rec := d)
  end.
  destruct (storage_fails S (CalledStorage OpConnect true :: history w)
              OpInsertWebsite) eqn:F2.
  { exists (Throw "MongoError"),
      (record (CalledStorage OpInsertWebsite false)
         {| db := db w; history := CalledStorage OpConnect true :: history w |}),
      [CalledStorage OpInsertWebsite false; CalledStorage OpConnect true], rec.
    cbn [lift bind run record db history].
    split; [reflexivity|]. split; [reflexivity|].
    split; [repeat split|]. split; [|discriminate].
    apply saved_nothing; [reflexivity|]. right. split; [now left|eauto]. }
  cbn [lift bind]. rewrite ?bind_vis. cbn [run handle]. unfold storage_call at 1.
  cbn [history db].
  destruct (storage_fails S
              (CalledStorage OpInsertWebsite true
               :: CalledStorage OpConnect true :: history w) OpIncCount) eqn:F3.
  { eexists (Throw "MongoError"), _,
      [CalledStorage OpIncCount false; CalledStorage OpInsertWebsite true;
       CalledStorage OpConnect true], rec.
    cbn [lift bind run record db history].
    split; [reflexivity|]. split; [reflexivity|].
    split; [repeat split|]. split; [|discriminate].
    apply saved_record_only; [reflexivity|reflexivity|].
    split; [now left|eauto]. }
  cbn [lift bind]. rewrite ?bind_vis. cbn [run handle bind].
  eexists _, _,
    [CalledStorage OpIncCount true; CalledStorage OpInsertWebsite true;
     CalledStorage OpConnect true], rec.
  split; [reflexivity|]. split; [reflexivity|].
  split; [repeat split|]. split.
  - apply saved_all; try reflexivity.
    intros op [H|[H|[H|[]]]]; discriminate.
  - intros r [= <-]. unfold success_for. eexists _, _.
    split; [reflexivity|]. repeat split.
Qed.

Lemma saved_from (S : Services) (user : UserData) (w0 w w' : World)
  (evs : list Event) (rec : WebsiteData) (o : outcome Response) :
  db w = db w0 -> saved S user w w' evs rec o -> saved S user w0 w' evs rec o.
Proof.
  intros D H. destruct H; rewrite D in *;
    [apply saved_all|apply saved_nothing|apply saved_record_only]; assumption.
Qed.

(** *** The admitted request *)

Lemma create_website_cases (S : Services) (user : UserData) (productUrl : string)
  (limit current : Z) (w : World) :
  exists o w' w1 evs productInfo websiteHTML slug netlifyDeployment rec,
    run S (create_website user productUrl limit current) w = (o, w')
    /\ staged S productUrl w w1 productInfo websiteHTML slug netlifyDeployment
    /\ history w' = (evs ++ history w1)%list
    /\ record_for user productUrl productInfo websiteHTML slug netlifyDeployment rec
    /\ saved S user w w' evs rec o
    /\ (forall r, o = Ret r ->
                  success_for S slug netlifyDeployment (limit - current - 1) r).
Proof.
  unfold create_website. rewrite run_bind.
  destruct (analyzeProductURL_ends S productUrl w)
    as (o1 & w1 & e1 & E1 & D1 & H1 & q1 & (productInfo & -> & L)).
  rewrite E1, run_bind.
  destruct (generateWebsiteContent_ends S productInfo w1)
    as (o2 & w2 & e2 & E2 & D2 & H2 & q2 & (websiteHTML & -> & M)).
  rewrite E2. unfold perform. rewrite bind_vis. cbn [run handle].
  rewrite bind_pure. cbv zeta. rewrite run_bind.
  set (slug := slug_of (title productInfo) (clock S (history w2))).
  destruct (deployToNetlify_ends S websiteHTML slug w2)
    as (o3 & w3 & e3 & E3 & D3 & H3 & q3 & (nd & -> & _)).
  rewrite E3.
  destruct (save_and_respond_cases S user productUrl productInfo websiteHTML slug
              nd limit current w3) as (o & w' & evs & rec & E & H & R & Sv & Ok).
  exists o, w', w3, evs, productInfo, websiteHTML, slug, nd, rec.
  split; [exact E|]. split; [|split; [exact H|split; [exact R|split; [|exact Ok]]]].
  - constructor; try assumption.
    + now rewrite D3, D2, D1.
    + exists (e3 ++ e2 ++ e1)%list. rewrite H3, H2, H1, <- !app_assoc.
      split; [reflexivity|]. auto using quiet_app.
    + now exists (clock S (history w2)).
    + intros F. rewrite (deployToNetlify_unconfigured S _ _ w2 F) in E3.
      now injection E3 as <- _.
  - apply saved_from with (w := w3); [now rewrite D3, D2, D1|exact Sv].
Qed.

(** Where [POST] goes, stage by stage. *)
Lemma POST_run (S : Services) (request : Request) (w : World) :
  run S (POST request) w =
  match run S (verifyUser request) w with
  | (Throw _, w1) => (Ret failure_response, w1)
  | (Ret None, w1) => (Ret (json_response 401 (ErrorBody "Authentication required")), w1)
  | (Ret (Some user), w1) =>
      match json_productUrl request with
      | Throw _ => (Ret failure_response, w1)
      | Ret parsed =>
          if JS.falsy parsed
          then (Ret (json_response 400 (ErrorBody "Product URL is required")), w1)
          else match run S (admit_and_create user (JS.show parsed)) w1 with
               | (Ret r, w') => (Ret r, w')
               | (Throw _, w') => (Ret failure_response, w')
               end
      end
  end.
Proof.
  unfold POST. rewrite run_try_catch, run_bind.
  destruct (run S (verifyUser request) w) as [[[user|]|msg] w1]; try reflexivity.
  rewrite run_bind.
  destruct (json_productUrl request) as [parsed|msg]; cbn [lift run]; [|reflexivity].
  destruct (JS.falsy parsed); [reflexivity|].
  now destruct (run S (admit_and_create user (JS.show parsed)) w1) as [[r|msg] w'].
Qed.

Lemma verifyUser_ends (S : Services) (request : Request) (w : World) :
  exists found w1, run S (verifyUser request) w = (Ret found, w1) /\ db w1 = db w.
Proof.
  unfold verifyUser. rewrite run_try_catch.
  destruct (JS.falsy (cookie request)); [now exists None, w|].
  unfold await. rewrite !bind_vis. cbn [run handle]. unfold storage_call at 1.
  destruct (storage_fails S (history w) OpConnect);
    [now eexists None, _|].
  cbn [lift bind]. rewrite ?bind_vis. cbn [run handle]. unfold storage_call at 1.
  destruct (storage_fails S _ OpFindUser); [now eexists None, _|].
  cbn [lift bind run]. now eexists _, _.
Qed.

(** With storage up, the user is the one the token finds. *)
Lemma verifyUser_found (S : Services) (request : Request) (token : string) (w : World) :
  cookie request = Some token -> token <> EmptyString ->
  (forall h op, storage_fails S h op = false) ->
  run S (verifyUser request) w =
  (Ret (findOne token (users (db w))),
   {| db := db w;
      history := CalledStorage OpFindUser true
                 :: CalledStorage OpConnect true :: history w |}).
Proof.
  intros C T F. unfold verifyUser. rewrite run_try_catch, C.
  destruct token as [|c t]; [contradiction|]. cbn [JS.falsy JS.truthy negb JS.show].
  unfold await. rewrite !bind_vis. cbn [run handle]. unfold storage_call.
  rewrite F. cbn [lift bind]. rewrite ?bind_vis. cbn [run handle].
  unfold storage_call. cbn [history db]. rewrite F. reflexivity.
Qed.

(** * The claims *)

(** ** C4: the asset sourcer *)



(** ** C5: the page analyzer *)

(** C5: [analyzeProductURL] never throws; the title it returns has at most
    100 code units, the description at most 200, the price at most 20; and
    when the page cannot be fetched or answers without success, it returns
    the fallback summary 'Premium Product', '$99.99', with the address it
    was given. *)
Theorem analyzeProductURL_total (S : Services) (url : string) (w : World) :
  exists productInfo w',
    run S (analyzeProductURL url) w = (Ret productInfo, w')
    /\ (String.length (title productInfo) <= 100)%nat
    /\ (String.length (description productInfo) <= 200)%nat
    /\ (String.length (price productInfo) <= 20)%nat
    /\ originalUrl productInfo = url
    /\ ((exists r, page_server S (history w) url = Ret r /\ ok r = true)
        \/ (productInfo = fallback_summary url
            /\ title productInfo = "Premium Product"
            /\ price productInfo = "$99.99")).
Proof.
  destruct (analyzeProductURL_ends S url w)
    as (o & w' & evs & E & _ & _ & _ & (p & -> & L1 & L2 & L3 & L4)).
  exists p, w'. repeat split; try assumption.
  pose proof (analyzeProductURL_fallback S url w) as F. rewrite E in F.
  destruct (page_server S (history w) url) as [r|msg] eqn:P.
  - destruct (ok r) eqn:O; [left; now exists r|].
    right. assert (Ret p = Ret (fallback_summary url)) as [= ->]; [|now repeat split].
    apply F. now intros r' [= <-].
  - right. assert (Ret p = Ret (fallback_summary url)) as [= ->]; [|now repeat split].
    apply F. intros r' [=].
Qed.

(** ** C1: the content synthesizer *)


Lemma startsWith_app_r (p s b : string) :
  JS.startsWith p s = true -> JS.startsWith p (s ++ b) = true.
Proof.
  revert s; induction p as [|c p IH]; intros [|d s]; simpl; try easy.
  intros H. apply andb_true_iff in H as [H1 H2]. now rewrite H1, IH.
Qed.

Lemma includes_app_r (s b p : string) :
  JS.includes s p = true -> JS.includes (s ++ b) p = true.
Proof.
  induction s as [|c s IH].
  - simpl. destruct p; [intros _; now destruct b|discriminate].
  - change (JS.includes (String c s) p)
      with (if JS.startsWith p (String c s) then true else JS.includes s p).
    destruct (JS.startsWith p (String c s)) eqn:E; intros H.
    + apply includes_startsWith. now apply startsWith_app_r.
    + simpl String.append. now apply includes_cons, IH.
Qed.







(** ** The request that passed authorization and validation *)

Lemma falsy_Some (s : string) : s <> EmptyString -> JS.falsy (Some s) = false.
Proof. destruct s; [contradiction|reflexivity]. Qed.

Lemma POST_rejected (S : Services) (request : Request) (user : UserData)
  (productUrl : string) (w w1 : World) :
  run S (verifyUser request) w = (Ret (Some user), w1) ->
  json_productUrl request = Ret (Some productUrl) ->
  productUrl <> EmptyString ->
  ~ JS.num_or_zero (websiteCount user) < getPlanLimits (plan user) ->
  run S (POST request) w = (Ret (limit_response user), w1).
Proof.
  intros A B U Q. rewrite POST_run, A, B, (falsy_Some _ U).
  unfold admit_and_create. cbv zeta.
  destruct (Z.geb_spec (JS.num_or_zero (websiteCount user))
              (getPlanLimits (plan user))) as [G|G]; [reflexivity|lia].
Qed.

Lemma POST_admitted (S : Services) (request : Request) (user : UserData)
  (productUrl : string) (w w1 : World) :
  run S (verifyUser request) w = (Ret (Some user), w1) ->
  json_productUrl request = Ret (Some productUrl) ->
  productUrl <> EmptyString ->
  JS.num_or_zero (websiteCount user) < getPlanLimits (plan user) ->
  run S (POST request) w =
  match run S (create_website user productUrl (getPlanLimits (plan user))
                 (JS.num_or_zero (websiteCount user))) w1 with
  | (Ret r, w') => (Ret r, w')
  | (Throw _, w') => (Ret failure_response, w')
  end.
Proof.
  intros A B U Q. rewrite POST_run, A, B, (falsy_Some _ U).
  unfold admit_and_create. cbv zeta.
  destruct (Z.geb_spec (JS.num_or_zero (websiteCount user))
              (getPlanLimits (plan user))) as [G|G]; [lia|reflexivity].
Qed.


(** ** C2 and C10: the quota gate *)

(** C2: a request that passed authorization and validation is admitted
    exactly when the recorded usage is below the ceiling of the plan (3 for
    'basic', 10 for 'pro', 999 for 'enterprise'); a rejected one is answered
    403 with the usage and the ceiling and leaves the world as the
    authorization left it, so a 'basic' account at usage 3 gets
    currentCount 3 and limit 3. *)
Theorem quota_admission (S : Services) (request : Request) (user : UserData)
  (productUrl : string) (w w1 : World) :
  run S (verifyUser request) w = (Ret (Some user), w1) ->
  json_productUrl request = Ret (Some productUrl) ->
  productUrl <> EmptyString ->
  exists r w',
    run S (POST request) w = (Ret r, w')
    /\ (JS.num_or_zero (websiteCount user) < getPlanLimits (plan user)
        <-> code r <> 403)
    /\ (code r = 403 -> r = limit_response user /\ w' = w1)
    /\ getPlanLimits "basic" = 3
    /\ getPlanLimits "pro" = 10
    /\ getPlanLimits "enterprise" = 999
    /\ (plan user = "basic" -> websiteCount user = Some 3 ->
        code r = 403
        /\ exists e m, body r = LimitBody e m 3 3).
Proof.
  intros A B U.
  destruct (Z.lt_ge_cases (JS.num_or_zero (websiteCount user))
              (getPlanLimits (plan user))) as [Q|Q].
  - rewrite (POST_admitted S request user productUrl w w1 A B U Q).
    destruct (create_website_cases S user productUrl (getPlanLimits (plan user))
                (JS.num_or_zero (websiteCount user)) w1)
      as (o & w' & w2 & evs & pinfo & html & slug & nd & rec & E & _ & _ & _ & Sv & _).
    rewrite E.
    assert (N : forall r : Response, code r = 200 \/ r = failure_response ->
                                     code r <> 403).
    { intros r [C| ->]; [rewrite C|]; discriminate. }
    destruct Sv as [r C _ _ _| |]; eexists _, _; (split; [reflexivity|]);
      (split; [split; [intros _; apply N; auto|intros _; exact Q]|]);
      (split; [intros C'; exfalso; revert C'; apply N; auto|]);
      do 3 (split; [reflexivity|]);
      intros P W; rewrite P, W in Q; discriminate Q.
  - rewrite (POST_rejected S request user productUrl w w1 A B U); [|lia].
    eexists _, _. split; [reflexivity|].
    split; [split; [lia|intros C; now contradiction C]|].
    split; [now intros _|]. do 3 (split; [reflexivity|]).
    intros P W. split; [reflexivity|]. unfold limit_response.
    rewrite P, W. eexists _, _. reflexivity.
Qed.

Lemma quota_admission_witness :
  exists r w',
    run offline (POST widget_request) (world_of (account "basic" 3)) = (Ret r, w')
    /\ code r = 403
    /\ exists e m, body r = LimitBody e m 3 3.
Proof.
  destruct (quota_admission offline widget_request (account "basic" 3)
              "https://example.com/product" (world_of (account "basic" 3))
              {| db := {| users := [account "basic" 3]; websites := [] |};
                 history := [CalledStorage OpFindUser true;
                             CalledStorage OpConnect true] |}
              eq_refl eq_refl ltac:(discriminate))
    as (r & w' & E & _ & _ & _ & _ & _ & L).
  exists r, w'. split; [exact E|]. exact (L eq_refl eq_refl).
Defined.

(** C10: [getPlanLimits] gives 3 for 'basic', 10 for 'pro', 999 for
    'enterprise' and 3 for every other plan; so the ceiling of 'enterprise'
    is finite, and an enterprise account whose recorded usage is 999 or more
    is answered 403 with limit 999. *)
Theorem enterprise_ceiling (S : Services) (request : Request) (user : UserData)
  (productUrl : string) (w w1 : World) :
  run S (verifyUser request) w = (Ret (Some user), w1) ->
  json_productUrl request = Ret (Some productUrl) ->
  productUrl <> EmptyString ->
  plan user = "enterprise" ->
  999 <= JS.num_or_zero (websiteCount user) ->
  getPlanLimits "basic" = 3
  /\ getPlanLimits "pro" = 10
  /\ getPlanLimits "enterprise" = 999
  /\ (forall p, p <> "basic" -> p <> "pro" -> p <> "enterprise" -> getPlanLimits p = 3)
  /\ run S (POST request) w =
     (Ret (json_response 403
             (LimitBody "Website limit reached"
                "Your enterprise plan allows 999 websites. Please upgrade to create more."
                (JS.num_or_zero (websiteCount user)) 999)), w1).
Proof.
  intros A B U P Q. do 3 (split; [reflexivity|]). split.
  - intros p H1 H2 H3. unfold getPlanLimits.
    apply String.eqb_neq in H1, H2, H3. now rewrite H1, H2, H3.
  - rewrite (POST_rejected S request user productUrl w w1 A B U).
    + unfold limit_response. rewrite P. reflexivity.
    + rewrite P. change (getPlanLimits "enterprise") with 999. lia.
Qed.

Lemma enterprise_ceiling_witness :
  fst (run offline (POST widget_request) (world_of (account "enterprise" 999)))
  = Ret (json_response 403
           (LimitBody "Website limit reached"
              "Your enterprise plan allows 999 websites. Please upgrade to create more."
              999 999)).
Proof.
  destruct (enterprise_ceiling offline widget_request (account "enterprise" 999)
              "https://example.com/product" (world_of (account "enterprise" 999))
              {| db := {| users := [account "enterprise" 999]; websites := [] |};
                 history := [CalledStorage OpFindUser true;
                             CalledStorage OpConnect true] |}
              eq_refl eq_refl ltac:(discriminate) eq_refl ltac:(discriminate))
    as (_ & _ & _ & _ & E).
  rewrite E. reflexivity.
Defined.

(** ** C3 and C8: the failure exits and the saving *)


Lemma never_failed (S : Services) (evs : list Event) (op : DbOp) :
  (forall h o, storage_fails S h o = false) -> ~ storage_failed S evs op.
Proof. intros F [_ [h H]]. rewrite F in H. discriminate. Qed.






(** ** C6: the deployment publisher without a credential *)

(** C6, as stated, fails: without a hosting credential the live address of
    the answer is the [/websites/] address of the slug, which is not the
    preview address of the same answer. *)
Lemma live_url_counterexample :
  exists view msg remaining st pf,
    fst (run offline (POST widget_request) (world_of (account "basic" 0)))
    = Ret (json_response 200 (SuccessBody view msg remaining st pf))
    /\ v_url view = "https://affilify.eu/websites/premium-product-1700000000000"
    /\ v_previewUrl view = "https://affilify.eu/preview/premium-product-1700000000000"
    /\ v_url view <> v_previewUrl view.
Proof.
  eexists _, _, _, _, _. split; [vm_compute; reflexivity|].
  repeat split. discriminate.
Qed.

(** C6, amended: without a hosting credential [deployToNetlify] returns
    [null] and calls nothing, and the live address returned to the caller is
    the application address followed by [/websites/] and the slug (the
    preview address of the answer has [/preview/] there). *)
Theorem unconfigured_hosting (S : Services) (request : Request) (user : UserData)
  (productUrl : string) (w w1 : World) :
  run S (verifyUser request) w = (Ret (Some user), w1) ->
  json_productUrl request = Ret (Some productUrl) ->
  productUrl <> EmptyString ->
  JS.num_or_zero (websiteCount user) < getPlanLimits (plan user) ->
  (forall h op, storage_fails S h op = false) ->
  JS.falsy (env S NETLIFY_ACCESS_TOKEN) = true ->
  (forall websiteHTML siteName w0,
      run S (deployToNetlify websiteHTML siteName) w0 = (Ret None, w0))
  /\ exists view msg remaining w',
       run S (POST request) w
       = (Ret (json_response 200 (SuccessBody view msg remaining "local" "affilify")),
          w')
       /\ v_url view
          = app_url (env S NEXT_PUBLIC_APP_URL) ++ "/websites/" ++ v_slug view
       /\ v_previewUrl view
          = app_url (env S NEXT_PUBLIC_APP_URL) ++ "/preview/" ++ v_slug view
       /\ v_netlifyUrl view = None.
Proof.
  intros A B U Q Up F. split.
  { intros websiteHTML siteName w0. now apply deployToNetlify_unconfigured. }
  rewrite (POST_admitted S request user productUrl w w1 A B U Q).
  destruct (create_website_cases S user productUrl (getPlanLimits (plan user))
              (JS.num_or_zero (websiteCount user)) w1)
    as (o & w' & w2 & evs & pinfo & html & slug & nd & rec & E & St & _ & _ & Sv & Ok).
  rewrite E. rewrite (staged_local _ _ _ _ _ _ _ _ St F) in Ok.
  destruct Sv as [r _ _ _ _|msg _ Fl|msg _ _ Fl].
  - destruct (Ok r eq_refl) as (view & msg & -> & Hs & Hu & Hp & Hn).
    eexists view, msg, _, w'. rewrite Hs. now repeat split.
  - destruct Fl as [Fl|Fl]; now apply (never_failed S _ _ Up) in Fl.
  - now apply (never_failed S _ _ Up) in Fl.
Qed.

Lemma unconfigured_hosting_witness :
  exists view msg remaining w',
    run offline (POST widget_request) (world_of (account "basic" 0))
    = (Ret (json_response 200 (SuccessBody view msg remaining "local" "affilify")), w')
    /\ v_url view = "https://affilify.eu" ++ "/websites/" ++ v_slug view.
Proof.
  destruct (unconfigured_hosting offline widget_request (account "basic" 0)
              "https://example.com/product" (world_of (account "basic" 0))
              {| db := {| users := [account "basic" 0]; websites := [] |};
                 history := [CalledStorage OpFindUser true;
                             CalledStorage OpConnect true] |}
              eq_refl eq_refl ltac:(discriminate) eq_refl
              ltac:(reflexivity) eq_refl)
    as (_ & view & msg & remaining & w' & E & Hu & _).
  exists view, msg, remaining, w'. split; [exact E|exact Hu].
Defined.

(** ** C7: two requests of one account *)

Lemma sched_app {A : Type} (S : Services) (o1 o2 : list bool) (p q : prog A) (w : World) :
  sched S (o1 ++ o2)%list p q w =
  let '(p', q', w') := sched S o1 p q w in sched S o2 p' q' w'.
Proof.
  revert p q w; induction o1 as [|[|] o1 IH]; intros p q w; simpl.
  - reflexivity.
  - destruct (step S p w) as [p' w']. apply IH.
  - destruct (step S q w) as [q' w']. apply IH.
Qed.

(** A request that runs to its end alone can do so while another waits. *)
Lemma sched_first {A : Type} (S : Services) (p q : prog A) (w w' : World) (a : A) :
  run S p w = (Ret a, w') ->
  exists order, sched S order p q w = (Pure a, q, w').
Proof.
  revert w; induction p as [b|msg|R e k IH]; intros w; simpl.
  - intros [= -> ->]. now exists [].
  - discriminate.
  - destruct (handle S e w) as [r w1] eqn:E. intros H.
    destruct (IH r w1 H) as [order Ho]. exists (true :: order). simpl.
    now rewrite E.
Qed.

Lemma sched_second {A : Type} (S : Services) (p q : prog A) (w w' : World) (a : A) :
  run S q w = (Ret a, w') ->
  exists order, sched S order p q w = (p, Pure a, w').
Proof.
  revert w; induction q as [b|msg|R e k IH]; intros w; simpl.
  - intros [= -> ->]. now exists [].
  - discriminate.
  - destruct (handle S e w) as [r w1] eqn:E. intros H.
    destruct (IH r w1 H) as [order Ho]. exists (false :: order). simpl.
    now rewrite E.
Qed.

Lemma map_id_updateOne_inc (uid : string) (us : list UserData) :
  map _id (updateOne_inc uid us) = map _id us.
Proof.
  induction us as [|x us IH]; simpl; [reflexivity|].
  destruct (String.eqb (_id x) uid); simpl; [reflexivity|now rewrite IH].
Qed.

Lemma findOne_In (token : string) (us : list UserData) (u : UserData) :
  findOne token us = Some u -> In u us /\ authToken u = token.
Proof.
  unfold findOne. intros H. apply find_some in H as [H1 H2].
  split; [exact H1|now apply String.eqb_eq].
Qed.

Lemma findOne_updateOne_inc (token : string) (us : list UserData) (u : UserData) :
  NoDup (map _id us) -> findOne token us = Some u ->
  findOne token (updateOne_inc (_id u) us) = Some (incremented u).
Proof.
  induction us as [|x us IH]; simpl; [discriminate|].
  intros N. inversion N as [|i l Hn N']; subst.
  destruct (String.eqb (authToken x) token) eqn:T.
  - intros [= ->]. rewrite String.eqb_refl. simpl. now rewrite T.
  - intros H. destruct (String.eqb (_id x) (_id u)) eqn:I.
    + apply String.eqb_eq in I. apply findOne_In in H as [H _].
      exfalso. apply Hn. rewrite I. now apply in_map.
    + simpl. rewrite T. now apply IH.
Qed.

(** After its authorization, a request that will be admitted is left with
    the work of [create_website] for the user it read. *)
Lemma POST_after_auth (S : Services) (request : Request) (token : string)
  (user : UserData) (productUrl : string) (q : prog Response) (w : World) :
  cookie request = Some token -> token <> EmptyString ->
  json_productUrl request = Ret (Some productUrl) -> productUrl <> EmptyString ->
  (forall h op, storage_fails S h op = false) ->
  findOne token (users (db w)) = Some user ->
  JS.num_or_zero (websiteCount user) < getPlanLimits (plan user) ->
  exists p1,
    sched S [true; true] (POST request) q w
    = (p1, q, {| db := db w;
                 history := CalledStorage OpFindUser true
                            :: CalledStorage OpConnect true :: history w |})
    /\ forall w0,
         run S p1 w0 =
         match run S (create_website user productUrl (getPlanLimits (plan user))
                        (JS.num_or_zero (websiteCount user))) w0 with
         | (Ret r, w') => (Ret r, w')
         | (Throw _, w') => (Ret failure_response, w')
         end.
Proof.
  intros C T B U Up Fd Q.
  unfold POST, verifyUser. rewrite C, B, (falsy_Some _ T).
  unfold await. rewrite !bind_vis. cbn [try_catch]. rewrite !bind_vis.
  cbn [try_catch sched step handle]. unfold storage_call at 1. rewrite Up.
  cbn [lift bind try_catch]. rewrite ?bind_vis. cbn [try_catch].
  cbn [step handle]. unfold storage_call at 1. cbn [history db JS.show].
  rewrite Up, Fd.
  cbn [lift bind try_catch JS.show]. rewrite (falsy_Some _ U).
  unfold admit_and_create. cbv zeta.
  destruct (Z.geb_spec (JS.num_or_zero (websiteCount user))
              (getPlanLimits (plan user))) as [G|G]; [lia|].
  eexists. split; [reflexivity|]. intros w0. rewrite run_try_catch.
  now destruct (run S (create_website user productUrl (getPlanLimits (plan user))
                         (JS.num_or_zero (websiteCount user))) w0) as [[r|msg] w'].
Qed.

Lemma create_website_up (S : Services) (user : UserData) (productUrl : string)
  (limit current : Z) (w : World) :
  (forall h op, storage_fails S h op = false) ->
  exists r w' rec,
    run S (create_website user productUrl limit current) w = (Ret r, w')
    /\ code r = 200
    /\ users (db w') = updateOne_inc (_id user) (users (db w))
    /\ websites (db w') = (websites (db w) ++ [rec])%list.
Proof.
  intros Up.
  destruct (create_website_cases S user productUrl limit current w)
    as (o & w' & w2 & evs & pinfo & html & slug & nd & rec & E & _ & _ & _ & Sv & _).
  destruct Sv as [r C Us Ws _|msg _ F|msg _ _ F].
  - now exists r, w', rec.
  - destruct F as [F|F]; now apply (never_failed S _ _ Up) in F.
  - now apply (never_failed S _ _ Up) in F.
Qed.

(** C7: when an account has one slot left, two requests of it can both be
    admitted and both be answered 200, after which its usage is one above
    the ceiling: the second request is authorized and admitted between the
    authorization of the first and the increment the first makes at its
    end. *)
Theorem concurrent_overshoot (S : Services) (request : Request) (token : string)
  (user : UserData) (productUrl : string) (w : World) :
  cookie request = Some token -> token <> EmptyString ->
  json_productUrl request = Ret (Some productUrl) -> productUrl <> EmptyString ->
  (forall h op, storage_fails S h op = false) ->
  NoDup (map _id (users (db w))) ->
  findOne token (users (db w)) = Some user ->
  JS.num_or_zero (websiteCount user) = getPlanLimits (plan user) - 1 ->
  exists order r1 r2 w' user',
    sched S order (POST request) (POST request) w = (Pure r1, Pure r2, w')
    /\ code r1 = 200 /\ code r2 = 200
    /\ findOne token (users (db w')) = Some user'
    /\ websiteCount user' = Some (getPlanLimits (plan user) + 1)
    /\ length (websites (db w')) = (length (websites (db w)) + 2)%nat.
Proof.
  intros C T B U Up N Fd One.
  assert (Q : JS.num_or_zero (websiteCount user) < getPlanLimits (plan user)) by lia.
  destruct (POST_after_auth S request token user productUrl (POST request) w
              C T B U Up Fd Q) as (p1 & H1 & Hrun).
  set (wA := {| db := db w;
                history := CalledStorage OpFindUser true
                           :: CalledStorage OpConnect true :: history w |}) in *.
  (* the second request, from its start to its end *)
  pose proof (verifyUser_found S request token wA C T Up) as A2.
  cbn [wA db] in A2. rewrite Fd in A2.
  pose proof (POST_admitted S request user productUrl wA _ A2 B U Q) as E2.
  destruct (create_website_up S user productUrl (getPlanLimits (plan user))
              (JS.num_or_zero (websiteCount user))
              {| db := db w;
                 history := CalledStorage OpFindUser true
                            :: CalledStorage OpConnect true :: history wA |} Up)
    as (r2 & wB & rec2 & R2 & C2 & Us2 & Ws2).
  rewrite R2 in E2. cbn [db] in Us2, Ws2.
  destruct (sched_second S p1 (POST request) wA wB r2 E2) as [order2 S2].
  (* the rest of the first request *)
  destruct (create_website_up S user productUrl (getPlanLimits (plan user))
              (JS.num_or_zero (websiteCount user)) wB Up)
    as (r1 & wC & rec1 & R1 & C1 & Us1 & Ws1).
  pose proof (Hrun wB) as E1. rewrite R1 in E1.
  destruct (sched_first S p1 (Pure r2) wB wC r1 E1) as [order3 S3].
  exists ([true; true] ++ order2 ++ order3)%list, r1, r2, wC,
    (incremented (incremented user)).
  split.
  { rewrite sched_app, H1. cbv beta iota. rewrite sched_app, S2. exact S3. }
  split; [exact C1|]. split; [exact C2|]. split; [|split].
  - rewrite Us1, Us2.
    apply (findOne_updateOne_inc token _ (incremented user)).
    + now rewrite map_id_updateOne_inc.
    + now apply findOne_updateOne_inc.
  - cbn [incremented websiteCount JS.num_or_zero]. f_equal. lia.
  - rewrite Ws1, Ws2, !length_app. simpl. lia.
Qed.

(** Alone, the second of the two requests is rejected. *)
Lemma sequential_second_rejected :
  let w := world_of (account "basic" 2) in
  exists r1 w1 r2 w2,
    run offline (POST widget_request) w = (Ret r1, w1) /\ code r1 = 200
    /\ run offline (POST widget_request) w1 = (Ret r2, w2) /\ code r2 = 403.
Proof. eexists _, _, _, _. repeat split; vm_compute; reflexivity. Qed.

Lemma concurrent_overshoot_witness :
  exists order r1 r2 w' user',
    sched offline order (POST widget_request) (POST widget_request)
      (world_of (account "basic" 2)) = (Pure r1, Pure r2, w')
    /\ code r1 = 200 /\ code r2 = 200
    /\ findOne "token-1" (users (db w')) = Some user'
    /\ websiteCount user' = Some 4
    /\ length (websites (db w')) = 2%nat.
Proof.
  apply (concurrent_overshoot offline widget_request "token-1" (account "basic" 2)
           "https://example.com/product" (world_of (account "basic" 2))).
  - reflexivity.
  - discriminate.
  - reflexivity.
  - discriminate.
  - reflexivity.
  - simpl. constructor; [intros []|constructor].
  - reflexivity.
  - reflexivity.
Defined.

(** ** C9: verifyToken *)

(** C9, as stated, fails: a token whose verification fails and whose payload
    decodes to an object with the field [userId] holding the empty string
    gives [null]. *)
Lemma verifyToken_empty_userId_counterexample :
  userId (PayloadClaims [("userId", JStr "")]) = JStr ""
  /\ verifyToken failing_verify
       (decode_to (Some (PayloadClaims [("userId", JStr "")])))
       "your-super-secret-jwt-key" "forged.token.value" = None.
Proof. split; reflexivity. Qed.

Section VerifyTokenProperties.

  Variable jwt_verify : string -> string -> outcome TokenPayload.
  Variable jwt_decode : string -> outcome (option TokenPayload).
  Variable JWT_SECRET : string.

(** C9, amended: when the verification of a token fails and the token still
    decodes to a payload whose [userId] is truthy (not absent, null, false,
    0 or the empty string), [verifyToken] returns that payload, user
    identifier included, and not [null]; it returns [null] exactly when the
    verification fails and the token does not decode to a payload with a
    truthy [userId].  A valid signature is not needed for a result. *)
Theorem verifyToken_fallback (token : string) :
  (forall msg p,
      jwt_verify token JWT_SECRET = Throw msg ->
      jwt_decode token = Ret (Some p) ->
      js_truthy (userId p) = true ->
      verifyToken jwt_verify jwt_decode JWT_SECRET token = Some p)
  /\ (verifyToken jwt_verify jwt_decode JWT_SECRET token = None
      <-> (exists msg, jwt_verify token JWT_SECRET = Throw msg)
          /\ ~ (exists p, jwt_decode token = Ret (Some p)
                          /\ js_truthy (userId p) = true)).
Proof.
  assert (PT : forall p, js_truthy (userId p) = true ->
                         (payload_truthy p && js_truthy (userId p))%bool = true).
  { intros [s|claims] H; [discriminate H|exact H]. }
  unfold verifyToken. split.
  - intros msg p V D Tr. now rewrite V, D, (PT p Tr).
  - destruct (jwt_verify token JWT_SECRET) as [decoded|msg].
    { split; [discriminate|]. now intros [[m [=]] _]. }
    destruct (jwt_decode token) as [[p|]|m].
    + destruct (payload_truthy p && js_truthy (userId p))%bool eqn:X.
      * split; [discriminate|].
        intros [_ H]. exfalso. apply H. exists p. split; [reflexivity|].
        now apply andb_true_iff in X.
      * split; [|reflexivity].
        intros _. split; [now exists msg|].
        intros (p' & [= <-] & Tr'). rewrite (PT p Tr') in X. discriminate.
    + split; [|reflexivity]. intros _. split; [now exists msg|].
      now intros (p' & [=] & _).
    + split; [|reflexivity]. intros _. split; [now exists msg|].
      now intros (p' & [=] & _).
Qed.

End VerifyTokenProperties.

Lemma verifyToken_fallback_witness :
  verifyToken failing_verify
    (decode_to (Some (PayloadClaims [("userId", JStr "65a1b2c3d4e5f60718293a4b")])))
    "your-super-secret-jwt-key" "expired.token.value"
  = Some (PayloadClaims [("userId", JStr "65a1b2c3d4e5f60718293a4b")]).
Proof.
  apply (proj1 (verifyToken_fallback failing_verify
                  (decode_to (Some (PayloadClaims
                                      [("userId", JStr "65a1b2c3d4e5f60718293a4b")])))
                  "your-super-secret-jwt-key" "expired.token.value")
           "invalid signature"); reflexivity.
Defined.

(** ** Runs on concrete inputs *)

Example toLowerCase_example : JS.toLowerCase "<!DocType HTML>" = "<!doctype html>".
Proof. reflexivity. Qed.

Example clean_response_example :
  clean_response "```html
<html><p>Hi</p></html>
``` " = "<html><p>Hi</p></html>".
Proof. reflexivity. Qed.

Example match_doctype_html_example :
  JS.match_doctype_html "see <!doctype html><HTML></html> and </HTML> here"
  = Some "<!doctype html><HTML></html> and </HTML>".
Proof. reflexivity. Qed.

Example slug_of_example : slug_of "Widget Pro!" 1700000000123 = "widget-pro--1700000000123".
Proof. reflexivity. Qed.

Example getPlanLimits_example : map getPlanLimits ["basic"; "pro"; "enterprise"; "free"] = [3; 10; 999; 3].
Proof. reflexivity. Qed.

Example generatePlaceholderImages_example :
  generatePlaceholderImages "desk" 2 = [placeholder "desk"; placeholder "desk"].
Proof. reflexivity. Qed.

Example first_website_example :
  exists view msg w',
    run titled_page (POST widget_request) (world_of (account "basic" 0))
    = (Ret (json_response 200 (SuccessBody view msg 2 "local" "affilify")), w')
    /\ v_title view = "Widget Pro"
    /\ v_description view
       = "Discover this incredible product that will transform your life."
    /\ v_slug view = "widget-pro-1700000000000"
    /\ users (db w') = [account "basic" 1]
    /\ map w_productInfo (websites (db w'))
       = [{| title := "Widget Pro";
             description := "Discover this incredible product that will transform your life.";
             price := "$99.99";
             originalUrl := "https://example.com/product" |}].
Proof. eexists _, _, _. split; [vm_compute; reflexivity|]. repeat split. Qed.

Example at_the_limit_example :
  run titled_page (POST widget_request) (world_of (account "basic" 3))
  = (Ret (json_response 403
            (LimitBody "Website limit reached"
               "Your basic plan allows 3 websites. Please upgrade to create more."
               3 3)),
     {| db := {| users := [account "basic" 3]; websites := [] |};
        history := [CalledStorage OpFindUser true; CalledStorage OpConnect true] |}).
Proof. vm_compute. reflexivity. Qed.

(** * Further properties of the generation route *)

(** ** Authorization and validation *)

Lemma verifyUser_run (S : Services) (request : Request) (w : World) :
  run S (verifyUser request) w =
  if JS.falsy (cookie request) then (Ret None, w)
  else if storage_fails S (history w) OpConnect
       then (Ret None, record (CalledStorage OpConnect false) w)
       else if storage_fails S (CalledStorage OpConnect true :: history w) OpFindUser
            then (Ret None,
                  record (CalledStorage OpFindUser false)
                    {| db := db w;
                       history := CalledStorage OpConnect true :: history w |})
            else (Ret (findOne (JS.show (cookie request)) (users (db w))),
                  {| db := db w;
                     history := CalledStorage OpFindUser true
                                :: CalledStorage OpConnect true :: history w |}).
Proof.
  unfold verifyUser. rewrite run_try_catch.
  destruct (JS.falsy (cookie request)); [reflexivity|].
  unfold await. rewrite !bind_vis. cbn [run handle]. unfold storage_call at 1.
  destruct (storage_fails S (history w) OpConnect); [reflexivity|].
  cbn [lift bind]. rewrite ?bind_vis. cbn [run handle]. unfold storage_call at 1.
  cbn [history db].
  destruct (storage_fails S (CalledStorage OpConnect true :: history w) OpFindUser);
    reflexivity.
Qed.

(** X1: [verifyUser] never throws and never writes.  It returns an account
    exactly when the cookie is not empty, the connection and the lookup both
    succeed, and some account holds the cookie as its token; the account is
    then the first such one.  Without a cookie it calls nothing. *)
Theorem verifyUser_outcomes (S : Services) (request : Request) (w : World) :
  exists found w',
    run S (verifyUser request) w = (Ret found, w')
    /\ db w' = db w
    /\ (forall u,
           found = Some u
           <-> JS.falsy (cookie request) = false
               /\ storage_fails S (history w) OpConnect = false
               /\ storage_fails S (CalledStorage OpConnect true :: history w)
                    OpFindUser = false
               /\ findOne (JS.show (cookie request)) (users (db w)) = Some u)
    /\ (forall u, found = Some u ->
                  In u (users (db w)) /\ Some (authToken u) = cookie request)
    /\ (JS.falsy (cookie request) = true -> w' = w).
Proof.
  rewrite verifyUser_run.
  destruct (JS.falsy (cookie request)) eqn:C.
  { exists None, w. repeat split; try easy; intuition congruence. }
  destruct (storage_fails S (history w) OpConnect) eqn:F1.
  { eexists None, _. repeat split; try easy; intuition congruence. }
  destruct (storage_fails S (CalledStorage OpConnect true :: history w) OpFindUser)
    eqn:F2.
  { eexists None, _. repeat split; try easy; intuition congruence. }
  eexists _, _. split; [reflexivity|]. split; [reflexivity|].
  split; [|split; [|discriminate]].
  - intros u. split; [intros ->; now repeat split|now intros (_ & _ & _ & ->)].
  - intros u Fd. destruct (findOne_In _ _ _ Fd) as [I T]. split; [exact I|].
    rewrite T. destruct (cookie request) as [[|c t]|]; try discriminate C.
    reflexivity.
Qed.

(** X2: [POST] answers 401 when there is no cookie, when storage fails during
    the authorization (the failure is not reported as 500), and when no
    account holds the token; the database is left as it was, no provider is
    called, and without a cookie nothing at all is called. *)
Theorem POST_unauthorized (S : Services) (request : Request) (w : World) :
  JS.falsy (cookie request) = true
  \/ storage_fails S (history w) OpConnect = true
  \/ storage_fails S (CalledStorage OpConnect true :: history w) OpFindUser = true
  \/ findOne (JS.show (cookie request)) (users (db w)) = None ->
  exists w' evs,
    run S (POST request) w = (Ret unauthorized_response, w')
    /\ db w' = db w
    /\ history w' = (evs ++ history w)%list
    /\ storage_only evs
    /\ (JS.falsy (cookie request) = true -> w' = w).
Proof.
  intros H. rewrite POST_run, verifyUser_run.
  destruct (JS.falsy (cookie request)) eqn:C.
  { exists w, []. repeat split; auto. intros ev []. }
  destruct (storage_fails S (history w) OpConnect) eqn:F1.
  { eexists _, [_]. split; [reflexivity|]. repeat split; try easy.
    intros ev [<-|[]]; eauto. }
  destruct (storage_fails S (CalledStorage OpConnect true :: history w) OpFindUser)
    eqn:F2.
  { eexists _, [_; _]. split; [reflexivity|]. repeat split; try easy.
    intros ev [<-|[<-|[]]]; eauto. }
  destruct H as [H|[H|[H|H]]]; try discriminate H.
  rewrite H. eexists _, [_; _]. split; [reflexivity|]. repeat split; try easy.
  intros ev [<-|[<-|[]]]; eauto.
Qed.

Lemma POST_unauthorized_witness :
  run offline (POST {| cookie := None; json_productUrl := Throw "SyntaxError" |})
    (world_of (account "basic" 0))
  = (Ret unauthorized_response, world_of (account "basic" 0)).
Proof.
  destruct (POST_unauthorized offline
              {| cookie := None; json_productUrl := Throw "SyntaxError" |}
              (world_of (account "basic" 0)) (or_introl eq_refl))
    as (w' & evs & E & _ & _ & _ & W).
  rewrite E, (W eq_refl). reflexivity.
Defined.

(** X3: For an authorized request the body is looked at before the quota: a
    body that cannot be read is answered 500 and a missing or empty
    [productUrl] is answered 400, whatever the usage of the account, and in
    both cases nothing more is called or written. *)
Theorem POST_validation (S : Services) (request : Request) (user : UserData)
  (w w1 : World) :
  run S (verifyUser request) w = (Ret (Some user), w1) ->
  (forall url, json_productUrl request = Ret (Some url) -> url = EmptyString) ->
  exists r,
    run S (POST request) w = (Ret r, w1)
    /\ ((exists msg, json_productUrl request = Throw msg) /\ r = failure_response
        \/ (exists parsed, json_productUrl request = Ret parsed)
           /\ r = bad_request_response).
Proof.
  intros A E. rewrite POST_run, A.
  destruct (json_productUrl request) as [[[|c url]|]|msg] eqn:J.
  - eexists. split; [reflexivity|]. right. split; [now eexists|reflexivity].
  - discriminate (E _ eq_refl).
  - eexists. split; [reflexivity|]. right. split; [now eexists|reflexivity].
  - eexists. split; [reflexivity|]. left. split; [now eexists|reflexivity].
Qed.

Lemma POST_validation_witness :
  fst (run offline (POST {| cookie := Some "token-1"; json_productUrl := Ret None |})
         (world_of (account "basic" 7)))
  = Ret bad_request_response.
Proof.
  destruct (POST_validation offline
              {| cookie := Some "token-1"; json_productUrl := Ret None |}
              (account "basic" 7) (world_of (account "basic" 7))
              {| db := {| users := [account "basic" 7]; websites := [] |};
                 history := [CalledStorage OpFindUser true;
                             CalledStorage OpConnect true] |}
              eq_refl ltac:(discriminate))
    as (r & E & [[[msg M] _]|[_ ->]]); [discriminate M|].
  rewrite E. reflexivity.
Defined.

(** ** What a request may change *)

Lemma updateOne_inc_keeps (uid : string) (us : list UserData) :
  map _id (updateOne_inc uid us) = map _id us
  /\ map authToken (updateOne_inc uid us) = map authToken us
  /\ map email (updateOne_inc uid us) = map email us
  /\ map plan (updateOne_inc uid us) = map plan us.
Proof.
  induction us as [|x us (I1 & I2 & I3 & I4)]; simpl; [easy|].
  destruct (String.eqb (_id x) uid); simpl; [easy|].
  now rewrite I1, I2, I3, I4.
Qed.

(** The saving part leaves the database as it was, or with one record
    more, and with the counts as they were or with one count one higher. *)
Lemma saved_footprint (S : Services) (user : UserData) (w w' : World)
  (evs : list Event) (rec : WebsiteData) (o : outcome Response) :
  saved S user w w' evs rec o ->
  (users (db w') = users (db w)
   \/ users (db w') = updateOne_inc (_id user) (users (db w)))
  /\ exists new, websites (db w') = (websites (db w) ++ new)%list
                 /\ (length new <= 1)%nat.
Proof.
  intros [r _ Us Ws _|msg D _|msg Us Ws _].
  - split; [now right|]. exists [rec]. now split.
  - rewrite D. split; [now left|]. exists [].
    split; [now rewrite app_nil_r|simpl; lia].
  - split; [now left|]. exists [rec]. now split.
Qed.

(** X4: Whatever the request and the world, [POST] answers (it never throws);
    it never adds, removes or reorders accounts and never changes the
    identifier, token, e-mail or plan of one; it removes and changes no
    website record and adds at most one; and when the answer is neither 200
    nor 500 the database is exactly as before. *)
Theorem POST_footprint (S : Services) (request : Request) (w : World) :
  exists r w',
    run S (POST request) w = (Ret r, w')
    /\ map _id (users (db w')) = map _id (users (db w))
    /\ map authToken (users (db w')) = map authToken (users (db w))
    /\ map email (users (db w')) = map email (users (db w))
    /\ map plan (users (db w')) = map plan (users (db w))
    /\ (exists new, websites (db w') = (websites (db w) ++ new)%list
                    /\ (length new <= 1)%nat)
    /\ (code r = 200 \/ code r = 500 \/ db w' = db w).
Proof.
  assert (Same : forall (r : Response) (w' : World), db w' = db w ->
            map _id (users (db w')) = map _id (users (db w))
            /\ map authToken (users (db w')) = map authToken (users (db w))
            /\ map email (users (db w')) = map email (users (db w))
            /\ map plan (users (db w')) = map plan (users (db w))
            /\ (exists new, websites (db w') = (websites (db w) ++ new)%list
                            /\ (length new <= 1)%nat)
            /\ (code r = 200 \/ code r = 500 \/ db w' = db w)).
  { intros r w' ->. repeat split; auto.
    exists []. split; [now rewrite app_nil_r|simpl; lia]. }
  rewrite POST_run.
  destruct (verifyUser_ends S request w) as (found & w1 & -> & D1).
  destruct found as [user|]; [|eexists _, _; split; [reflexivity|now apply Same]].
  destruct (json_productUrl request) as [parsed|msg];
    [|eexists _, _; split; [reflexivity|now apply Same]].
  destruct (JS.falsy parsed); [eexists _, _; split; [reflexivity|now apply Same]|].
  unfold admit_and_create. cbv zeta.
  destruct (JS.num_or_zero (websiteCount user) >=? getPlanLimits (plan user));
    [eexists _, _; split; [reflexivity|now apply Same]|].
  destruct (create_website_cases S user (JS.show parsed) (getPlanLimits (plan user))
              (JS.num_or_zero (websiteCount user)) w1)
    as (o & w' & w2 & evs & pinfo & html & slug & nd & rec & E & _ & _ & _ & Sv & _).
  rewrite E.
  assert (C : forall r, o = Ret r -> code r = 200) by (destruct Sv; now intros ? [= <-]).
  destruct (saved_footprint _ _ _ _ _ _ _ Sv) as ([Us|Us] & Ws);
    rewrite D1 in Us, Ws; destruct (updateOne_inc_keeps (_id user) (users (db w)))
      as (K1 & K2 & K3 & K4);
    destruct o as [r|msg]; eexists _, _; (split; [reflexivity|]); rewrite Us;
    repeat (split; [first [assumption|reflexivity]|]);
    first [left; now apply C | right; left; reflexivity].
Qed.

(** ** The quota under sequential requests *)

Lemma within_quota_updateOne_inc (user : UserData) (us : list UserData) :
  NoDup (map _id us) -> In user us ->
  JS.num_or_zero (websiteCount user) < getPlanLimits (plan user) ->
  within_quota us -> within_quota (updateOne_inc (_id user) us).
Proof.
  unfold within_quota. induction us as [|x us IH]; simpl; [easy|].
  intros N I Q W. inversion N as [|i l Hn N']; subst.
  inversion W as [|y l Hx W']; subst.
  destruct (String.eqb (_id x) (_id user)) eqn:E.
  - apply String.eqb_eq in E. destruct I as [->|I].
    + constructor; [simpl; lia|exact W'].
    + exfalso. apply Hn. rewrite E. now apply in_map.
  - constructor; [exact Hx|]. destruct I as [->|I].
    + now rewrite String.eqb_refl in E.
    + now apply IH.
Qed.

(** One request keeps the accounts at or below their ceilings. *)
Lemma POST_keeps_quota (S : Services) (request : Request) (w : World) :
  NoDup (map _id (users (db w))) -> within_quota (users (db w)) ->
  NoDup (map _id (users (db (snd (run S (POST request) w)))))
  /\ within_quota (users (db (snd (run S (POST request) w)))).
Proof.
  intros N W. rewrite POST_run, verifyUser_run.
  destruct (JS.falsy (cookie request)); [easy|].
  destruct (storage_fails S (history w) OpConnect); [easy|].
  destruct (storage_fails S (CalledStorage OpConnect true :: history w) OpFindUser);
    [easy|].
  destruct (findOne (JS.show (cookie request)) (users (db w))) as [user|] eqn:Fd;
    [|easy].
  destruct (json_productUrl request) as [parsed|msg]; [|easy].
  destruct (JS.falsy parsed); [easy|].
  unfold admit_and_create. cbv zeta.
  destruct (Z.geb_spec (JS.num_or_zero (websiteCount user))
              (getPlanLimits (plan user))) as [G|G]; [easy|].
  match goal with
  | |- context [run S (create_website ?u ?p ?l ?c) ?w1] =>
      destruct (create_website_cases S u p l c w1)
        as (o & w' & w2 & evs & pinfo & html & slug & nd & rec & E & _ & _ & _ & Sv & _)
  end.
  rewrite E.
  destruct (saved_footprint _ _ _ _ _ _ _ Sv) as ([Us|Us] & _); cbn [db] in Us;
    destruct o as [r|msg]; cbn [snd]; rewrite Us; try easy;
    (split; [now rewrite map_id_updateOne_inc|]);
    (apply within_quota_updateOne_inc; [exact N| |exact G|exact W]);
    now apply (findOne_In _ _ _ Fd).
Qed.

(** X5: Served one after the other, requests never take an account above the
    ceiling of its plan: when the identifiers are distinct and every account
    is at or below its ceiling, both still hold after any list of requests,
    whatever the collaborators do. *)
Theorem serve_keeps_quota (S : Services) (requests : list Request) (w : World) :
  NoDup (map _id (users (db w))) -> within_quota (users (db w)) ->
  NoDup (map _id (users (db (snd (serve S requests w)))))
  /\ within_quota (users (db (snd (serve S requests w)))).
Proof.
  revert w; induction requests as [|request rest IH]; intros w N W; simpl; [easy|].
  destruct (POST_keeps_quota S request w N W) as [N1 W1].
  destruct (run S (POST request) w) as [o w1]. cbn [snd] in N1, W1.
  specialize (IH w1 N1 W1). now destruct (serve S rest w1) as [os w2].
Qed.

Lemma serve_keeps_quota_witness :
  within_quota
    (users (db (snd (serve offline
                       [widget_request; widget_request; widget_request]
                       (world_of (account "basic" 2)))))).
Proof.
  apply (serve_keeps_quota offline [widget_request; widget_request; widget_request]
           (world_of (account "basic" 2))).
  - simpl. constructor; [intros []|constructor].
  - constructor; [vm_compute; discriminate|constructor].
Defined.

(** ** The answer and the record of a success *)

(** X6: When an authorized request with a product address is answered 200, the
    account was below its ceiling, the count of remaining websites in the
    answer is the ceiling minus the usage minus one and is not negative, and
    exactly one record was added: it belongs to the account, has the slug of
    the answer, no views and no clicks, is active, holds a page with a root
    marker and a summary within the length limits for the address given. *)
Theorem POST_success_record (S : Services) (request : Request) (user : UserData)
  (productUrl : string) (w w1 w' : World) (r : Response) :
  run S (verifyUser request) w = (Ret (Some user), w1) ->
  json_productUrl request = Ret (Some productUrl) ->
  productUrl <> EmptyString ->
  run S (POST request) w = (Ret r, w') ->
  code r = 200 ->
  exists view msg st pf rec,
    body r = SuccessBody view msg
               (getPlanLimits (plan user) - JS.num_or_zero (websiteCount user) - 1)
               st pf
    /\ 0 <= getPlanLimits (plan user) - JS.num_or_zero (websiteCount user) - 1
    /\ websites (db w') = (websites (db w1) ++ [rec])%list
    /\ users (db w') = updateOne_inc (_id user) (users (db w1))
    /\ w_userId rec = _id user
    /\ w_productUrl rec = productUrl
    /\ w_slug rec = v_slug view
    /\ w_views rec = 0 /\ w_clicks rec = 0 /\ w_isActive rec = true
    /\ has_root_marker (w_html rec) = true
    /\ (String.length (title (w_productInfo rec)) <= 100)%nat
    /\ (String.length (description (w_productInfo rec)) <= 200)%nat
    /\ (String.length (price (w_productInfo rec)) <= 20)%nat
    /\ originalUrl (w_productInfo rec) = productUrl
    /\ exists now, w_slug rec = slug_of (title (w_productInfo rec)) now.
Proof.
  intros A B U E C.
  destruct (Z.lt_ge_cases (JS.num_or_zero (websiteCount user))
              (getPlanLimits (plan user))) as [Q|Q].
  2:{ rewrite (POST_rejected S request user productUrl w w1 A B U) in E by lia.
      injection E as <- _. discriminate C. }
  rewrite (POST_admitted S request user productUrl w w1 A B U Q) in E.
  destruct (create_website_cases S user productUrl (getPlanLimits (plan user))
              (JS.num_or_zero (websiteCount user)) w1)
    as (o & w2 & w3 & evs & pinfo & html & slug & nd & rec & E' & St & _ & R & Sv & Ok).
  rewrite E' in E. destruct Sv as [r' _ Us Ws _|msg _ _|msg _ _ _];
    injection E as <- <-; try discriminate C.
  destruct (Ok r' eq_refl) as (view & msg & -> & Hs & _).
  destruct R as (R1 & R2 & R3 & R4 & R5 & R6 & R7 & R8 & R9).
  destruct St as [_ _ (L1 & L2 & L3 & L4) M (now & Sl) _].
  exists view, msg. eexists _, _, rec. split; [reflexivity|].
  split; [lia|]. rewrite R4, R5, Hs.
  repeat (split; [assumption|]). exists now. now rewrite R2.
Qed.

Lemma POST_success_record_witness :
  exists view msg st pf,
    body (json_response 200 (SuccessBody view msg 2 st pf))
    = SuccessBody view msg 2 st pf
    /\ fst (run titled_page (POST widget_request) (world_of (account "basic" 0)))
       = Ret (json_response 200 (SuccessBody view msg 2 st pf)).
Proof.
  destruct (run titled_page (POST widget_request) (world_of (account "basic" 0)))
    as [o w'] eqn:E.
  assert (E0 := E). vm_compute in E0. injection E0 as <- <-.
  destruct (POST_success_record titled_page widget_request (account "basic" 0)
              "https://example.com/product" (world_of (account "basic" 0))
              {| db := {| users := [account "basic" 0]; websites := [] |};
                 history := [CalledStorage OpFindUser true;
                             CalledStorage OpConnect true] |}
              _ _ eq_refl eq_refl ltac:(discriminate) E eq_refl)
    as (view & msg & st & pf & rec & Hb & _).
  eexists _, _, _, _. split; reflexivity.
Defined.

(** ** The slug *)

Lemma length_string_app (a b : string) :
  String.length (a ++ b) = (String.length a + String.length b)%nat.
Proof. induction a as [|c a IH]; simpl; [reflexivity|now rewrite IH]. Qed.

Lemma all_chars_app (P : ascii -> bool) (a b : string) :
  all_chars P (a ++ b) = (all_chars P a && all_chars P b)%bool.
Proof. induction a as [|c a IH]; simpl; [reflexivity|now rewrite IH, andb_assoc]. Qed.

Lemma all_chars_replace_non_alnum (s : string) :
  all_chars slug_safe (JS.replace_non_alnum s) = true.
Proof.
  induction s as [|c s IH]; simpl; [reflexivity|]. rewrite IH, andb_true_r.
  unfold JS.slug_char, slug_safe.
  destruct (JS.in_range 97 122 c || JS.in_range 48 57 c)%bool eqn:E;
    [now rewrite E|reflexivity].
Qed.

Lemma all_chars_string_of_uint (d : Decimal.uint) :
  all_chars slug_safe (NilEmpty.string_of_uint d) = true.
Proof. induction d; simpl; try reflexivity; exact IHd. Qed.

Lemma all_chars_num_to_string (n : Z) :
  all_chars slug_safe (JS.num_to_string n) = true.
Proof.
  assert (U : forall d, all_chars slug_safe (NilZero.string_of_uint d) = true).
  { intros d. unfold NilZero.string_of_uint.
    destruct d; try reflexivity;
      match goal with
      | |- all_chars _ (NilEmpty.string_of_uint ?x) = true =>
          apply (all_chars_string_of_uint x)
      end. }
  unfold JS.num_to_string, NilZero.string_of_int.
  destruct (Z.to_int n) as [d|d]; [apply U|].
  cbn [all_chars]. rewrite U. reflexivity.
Qed.

Lemma get_replace_non_alnum (s : string) (i : nat) (c : ascii) :
  String.get i s = Some c ->
  String.get i (JS.replace_non_alnum s) = Some (JS.slug_char c).
Proof.
  revert i; induction s as [|d s IH]; intros [|i]; simpl; try discriminate.
  - now intros [= ->].
  - apply IH.
Qed.

Lemma length_replace_non_alnum (s : string) :
  String.length (JS.replace_non_alnum s) = String.length s.
Proof. induction s as [|c s IH]; simpl; [reflexivity|now rewrite IH]. Qed.

(** X7: the slug made from any title and any time holds lower-case letters,
    digits and dashes only.  It is the lower-cased title, in which every
    code unit that is not a lower-case letter or a digit is replaced by one
    dash, followed by a dash and the digits of the time; so it is as long as
    the lower-cased title, a dash and the time (the lower-cased title itself
    may be longer than the title). *)
Theorem slug_of_safe (t : string) (now : Z) :
  all_chars slug_safe (slug_of t now) = true
  /\ exists body,
       slug_of t now = body ++ "-" ++ JS.num_to_string now
       /\ String.length body = String.length (JS.toLowerCase t)
       /\ forall i c, String.get i (JS.toLowerCase t) = Some c ->
                      String.get i body
                      = Some (if (JS.in_range 97 122 c || JS.in_range 48 57 c)%bool
                              then c else "-"%char).
Proof.
  unfold slug_of. split.
  - rewrite all_chars_app, all_chars_replace_non_alnum. simpl.
    apply all_chars_num_to_string.
  - exists (JS.replace_non_alnum (JS.toLowerCase t)).
    split; [reflexivity|]. split; [apply length_replace_non_alnum|].
    intros i c H. now apply get_replace_non_alnum in H.
Qed.

(** ** The calls of the stages *)

(** X8: [deployToNetlify] never throws and writes nothing.  It calls the host
    not at all (no credential), once (the site), or twice (the site, then
    the deploy): the deploy is called only after the site was created with
    success and for the identifier the host gave, and a result is returned
    only when both calls succeeded; nothing is called after a failure, so a
    site whose deploy failed is left as it is. *)
Theorem deployToNetlify_calls (S : Services) (websiteHTML siteName : string)
  (w : World) :
  exists result w' evs,
    run S (deployToNetlify websiteHTML siteName) w = (Ret result, w')
    /\ db w' = db w
    /\ history w' = (evs ++ history w)%list
    /\ (evs = [] /\ result = None
        \/ evs = [CalledNetlifySite siteName] /\ result = None
        \/ exists token siteResponse siteData,
             evs = [CalledNetlifyDeploy (site_id_field siteData);
                    CalledNetlifySite siteName]
             /\ env S NETLIFY_ACCESS_TOKEN = Some token
             /\ netlify_site S (history w) siteName token = Ret siteResponse
             /\ ok siteResponse = true
             /\ payload siteResponse = Ret (Some siteData)
             /\ (result = None
                 \/ exists deployResponse deployData,
                      netlify_deploy S (CalledNetlifySite siteName :: history w)
                        (site_id_field siteData) websiteHTML token
                      = Ret deployResponse
                      /\ ok deployResponse = true
                      /\ payload deployResponse = Ret (Some deployData)
                      /\ result = Some {| nd_url := or_opt (site_ssl_url siteData)
                                                           (site_url siteData);
                                          deploy_id := deploy_id_field deployData;
                                          site_id := site_id_field siteData;
                                          admin_url := site_admin_url siteData |})).
Proof.
  unfold deployToNetlify. rewrite run_try_catch.
  unfold perform, await. rewrite bind_vis. cbn [run handle]. rewrite bind_pure.
  destruct (env S NETLIFY_ACCESS_TOKEN) as [token|] eqn:K; cbn [JS.falsy];
    [|exists None, w, []; repeat split; auto].
  destruct (JS.truthy token); cbn [negb];
    [|exists None, w, []; repeat split; auto].
  rewrite bind_vis. cbn [run handle JS.show].
  assert (One : exists (result : option NetlifyDeployment) w' evs,
             (Ret result, record (CalledNetlifySite siteName) w) = (Ret result, w')
             /\ db w' = db w /\ history w' = (evs ++ history w)%list
             /\ evs = [CalledNetlifySite siteName] /\ result = None).
  { eexists None, _, [_]. repeat split. }
  destruct (netlify_site S (history w) siteName token) as [siteResponse|msg] eqn:N1;
    cbn [lift]; [rewrite bind_pure|];
    [|destruct One as (r0 & w0 & e0 & E0 & D0 & H0 & Ev0 & R0); subst r0;
      exists None, w0, e0; cbn [run]; repeat split; auto].
  destruct (ok siteResponse) eqn:O1; cbn [negb run];
    [|destruct One as (r0 & w0 & e0 & E0 & D0 & H0 & Ev0 & R0); subst r0;
      exists None, w0, e0; repeat split; auto].
  destruct (payload siteResponse) as [[siteData|]|msg] eqn:P1; cbn [lift];
    rewrite ?bind_pure; cbn [run];
    try (destruct One as (r0 & w0 & e0 & E0 & D0 & H0 & Ev0 & R0); subst r0;
         exists None, w0, e0; repeat split; now auto).
  cbv zeta. rewrite bind_vis. cbn [run handle record history db].
  unfold createZipFromHTML.
  assert (Two : forall result : option NetlifyDeployment,
             (result = None
              \/ exists deployResponse deployData,
                   netlify_deploy S (CalledNetlifySite siteName :: history w)
                     (site_id_field siteData) websiteHTML token = Ret deployResponse
                   /\ ok deployResponse = true
                   /\ payload deployResponse = Ret (Some deployData)
                   /\ result = Some {| nd_url := or_opt (site_ssl_url siteData)
                                                        (site_url siteData);
                                       deploy_id := deploy_id_field deployData;
                                       site_id := site_id_field siteData;
                                       admin_url := site_admin_url siteData |}) ->
             exists result0 w' evs,
               (Ret result,
                record (CalledNetlifyDeploy (site_id_field siteData))
                  {| db := db w; history := CalledNetlifySite siteName :: history w |})
               = (Ret result0, w')
               /\ db w' = db w /\ history w' = (evs ++ history w)%list
               /\ (evs = [] /\ result0 = None
                   \/ evs = [CalledNetlifySite siteName] /\ result0 = None
                   \/ exists token0 siteResponse0 siteData0,
                        evs = [CalledNetlifyDeploy (site_id_field siteData0);
                               CalledNetlifySite siteName]
                        /\ Some token = Some token0
                        /\ netlify_site S (history w) siteName token0 = Ret siteResponse0
                        /\ ok siteResponse0 = true
                        /\ payload siteResponse0 = Ret (Some siteData0)
                        /\ (result0 = None
                            \/ exists deployResponse deployData,
                                 netlify_deploy S
                                   (CalledNetlifySite siteName :: history w)
                                   (site_id_field siteData0) websiteHTML token0
                                 = Ret deployResponse
                                 /\ ok deployResponse = true
                                 /\ payload deployResponse = Ret (Some deployData)
                                 /\ result0
                                    = Some {| nd_url := or_opt (site_ssl_url siteData0)
                                                               (site_url siteData0);
                                              deploy_id := deploy_id_field deployData;
                                              site_id := site_id_field siteData0;
                                              admin_url := site_admin_url siteData0 |}))).
  { intros result R. eexists result, _, [_; _]. split; [reflexivity|].
    split; [reflexivity|]. split; [reflexivity|]. right; right.
    exists token, siteResponse, siteData. repeat split; auto. }
  destruct (netlify_deploy S (CalledNetlifySite siteName :: history w)
              (site_id_field siteData) websiteHTML token)
    as [deployResponse|msg] eqn:N2; cbn [lift]; [rewrite bind_pure|];
    [|cbn [run]; apply Two; now left].
  destruct (ok deployResponse) eqn:O2; cbn [negb run]; [|apply Two; now left].
  destruct (payload deployResponse) as [[deployData|]|msg] eqn:P2; cbn [lift];
    rewrite ?bind_pure; cbn [run]; try (apply Two; now left).
  apply Two. right. now exists deployResponse, deployData.
Qed.

Lemma or_else_truthy (x : option string) (d : string) :
  d <> EmptyString -> JS.or_else x d <> EmptyString.
Proof.
  intros D. destruct x as [[|c s]|]; simpl; try exact D. discriminate.
Qed.

Lemma map_outcome_Forall {A B : Type} (f : A -> outcome B) (P : B -> Prop)
  (l : list A) (r : list B) :
  (forall x y, f x = Ret y -> P y) -> map_outcome f l = Ret r -> Forall P r.
Proof.
  intros H. revert r; induction l as [|x l IH]; simpl; intros r.
  - intros [= <-]. constructor.
  - destruct (f x) as [y|] eqn:E; [|discriminate].
    destruct (map_outcome f l) as [ys|]; [|discriminate].
    intros [= <-]. constructor; [exact (H x y E)|now apply IH].
Qed.

Lemma getUnsplashImages_trace (S : Services) (query : string) (count : Z)
  (w : World) :
  exists images w',
    run S (getUnsplashImages query count) w = (Ret images, w')
    /\ db w' = db w
    /\ history w' = (searched S query count ++ history w)%list
    /\ (query = EmptyString \/ Forall (fun a => alt a <> EmptyString) images).
Proof.
  assert (Alt : query = EmptyString
                \/ Forall (fun a => alt a <> EmptyString)
                     (generatePlaceholderImages query count)).
  { destruct query as [|c q]; [now left|right]. unfold generatePlaceholderImages.
    apply Forall_forall. intros a Ha. apply repeat_spec in Ha. now subst a. }
  rewrite getUnsplashImages_run. unfold searched.
  destruct (JS.falsy (env S UNSPLASH_ACCESS_KEY)) eqn:K.
  { eexists _, w. repeat split; auto. }
  destruct (encodeURIComponent S query) as [encoded|msg].
  2:{ eexists _, w. repeat split; auto. }
  eexists _, _. split; [reflexivity|]. split; [reflexivity|].
  split; [reflexivity|].
  destruct (unsplash S (history w) query count (JS.show (env S UNSPLASH_ACCESS_KEY)))
    as [response|msg]; [|exact Alt].
  destruct (ok response); [|exact Alt].
  destruct (payload response) as [data|msg]; [|exact Alt].
  destruct (results data) as [photos|]; [|exact Alt].
  destruct (map_outcome (asset_of_photo query) photos) as [images|msg] eqn:M;
    [|exact Alt].
  destruct query as [|c q]; [now left|right].
  apply (map_outcome_Forall (asset_of_photo (String c q)) _ photos images); [|exact M].
  intros [ph|] y; [|discriminate]. unfold asset_of_photo.
  destruct (urls ph), (user ph), (links ph); try discriminate.
  intros [= <-]. cbn [alt]. now apply or_else_truthy.
Qed.

(** X9: [getUnsplashImages] writes nothing and asks the provider at most
    once: exactly once, for the query and the count given and whatever the
    answer, when a key is set and the query can be encoded (the built-in
    throws on a lone surrogate), and not at all otherwise.  Every image it
    returns has an alternative text, the description of the photo or else
    the query, which is not empty when the query is not. *)
Theorem getUnsplashImages_calls (S : Services) (query : string) (count : Z)
  (w : World) :
  exists images w' evs,
    run S (getUnsplashImages query count) w = (Ret images, w')
    /\ db w' = db w
    /\ history w' = (evs ++ history w)%list
    /\ (evs = [] \/ evs = [CalledUnsplash query count])
    /\ (evs = [CalledUnsplash query count]
        <-> JS.falsy (env S UNSPLASH_ACCESS_KEY) = false
            /\ exists encoded, encodeURIComponent S query = Ret encoded)
    /\ (query = EmptyString \/ Forall (fun a => alt a <> EmptyString) images).
Proof.
  destruct (getUnsplashImages_trace S query count w) as (images & w' & E & D & H & A).
  exists images, w', (searched S query count).
  split; [exact E|]. split; [exact D|]. split; [exact H|].
  split; [|split; [|exact A]]; unfold searched.
  - destruct (JS.falsy (env S UNSPLASH_ACCESS_KEY)); [now left|].
    destruct (encodeURIComponent S query); [now right|now left].
  - destruct (JS.falsy (env S UNSPLASH_ACCESS_KEY)).
    { split; [discriminate|]. now intros [? _]. }
    destruct (encodeURIComponent S query) as [encoded|msg].
    + split; [|reflexivity]. intros _. split; [reflexivity|now exists encoded].
    + split; [discriminate|]. now intros [_ [? ?]].
Qed.

(** A query that cannot be encoded: placeholders, and no call. *)
Example getUnsplashImages_unencodable_example :
  run lone_surrogate (getUnsplashImages "widget" 2) (world_of (account "basic" 0))
  = (Ret [placeholder "widget"; placeholder "widget"], world_of (account "basic" 0)).
Proof. reflexivity. Qed.

(** The credit of a photo whose photographer has the name [null]. *)
Example asset_of_photo_null_example :
  map_outcome (asset_of_photo "widget")
    [Some {| urls := Some {| regular := Some "https://images.example/1";
                             urls_thumb := None |};
             alt_description := None;
             user := Some {| name := JS.Null |};
             links := Some {| download_location := None |} |}]
  = Ret [{| url := Some "https://images.example/1"; thumb := None; alt := "widget";
            credit := "Photo by null on Unsplash"; download_url := None |}].
Proof. reflexivity. Qed.

Example encodeURIComponent_example :
  JS.encodeURIComponent "Widget Pro product lifestyle & more"
  = "Widget%20Pro%20product%20lifestyle%20%26%20more".
Proof. reflexivity. Qed.


(** ** What the page analyzer extracts *)

Lemma take_truthy (n : nat) (s : string) :
  s <> EmptyString -> JS.take (Datatypes.S n) s <> EmptyString.
Proof. destruct s; [contradiction|discriminate]. Qed.

Lemma first_truthy_truthy (candidates : list string) (default : string) :
  default <> EmptyString -> first_truthy candidates default <> EmptyString.
Proof.
  intros D. unfold first_truthy.
  destruct (find JS.truthy candidates) as [s|] eqn:F; [|exact D].
  apply find_some in F as [_ T]. now destruct s.
Qed.

Lemma analyzeProductURL_run (S : Services) (url : string) (w : World) :
  exists productInfo,
    run S (analyzeProductURL url) w = (Ret productInfo, record (CalledPage url) w)
    /\ (productInfo = fallback_summary url
        \/ exists response html page,
             page_server S (history w) url = Ret response
             /\ ok response = true
             /\ payload response = Ret html
             /\ cheerio S html = Ret page
             /\ productInfo
                = {| title := JS.substring0 100
                                (first_truthy
                                   [title_text page; h1_text page;
                                    product_title_text page]
                                   "Amazing Product");
                     description := JS.substring0 200
                                      (first_truthy
                                         [JS.or_else (meta_description page) "";
                                          JS.or_else (og_description page) "";
                                          p_text page]
                                         "Discover this incredible product that will transform your life.");
                     price := JS.substring0 20
                                (first_truthy
                                   [price_testid_text page; price_class_text page;
                                    price_attr_text page]
                                   "$99.99");
                     originalUrl := url |}).
Proof.
  unfold analyzeProductURL. rewrite run_try_catch. unfold await.
  rewrite bind_vis. cbn [run handle].
  destruct (page_server S (history w) url) as [response|msg] eqn:P; cbn [lift];
    [rewrite bind_pure|eexists; cbn [run]; split; [reflexivity|now left]].
  destruct (ok response) eqn:O; cbn [negb run];
    [|eexists; split; [reflexivity|now left]].
  destruct (payload response) as [html|msg] eqn:H; cbn [lift];
    [rewrite bind_pure|eexists; cbn [run]; split; [reflexivity|now left]].
  rewrite bind_vis. cbn [run handle record history db].
  destruct (cheerio S html) as [page|msg] eqn:C; cbn [lift];
    [rewrite bind_pure|eexists; cbn [run]; split; [reflexivity|now left]].
  cbv zeta. cbn [run]. eexists. split; [reflexivity|]. right.
  exists response, html, page. now repeat split.
Qed.

(** X11: [analyzeProductURL] fetches the page exactly once and calls nothing
    else, and no field of the summary it returns is ever empty: each one
    holds text of the page or a fixed literal. *)
Theorem analyzeProductURL_populated (S : Services) (url : string) (w : World) :
  exists productInfo w',
    run S (analyzeProductURL url) w = (Ret productInfo, w')
    /\ db w' = db w
    /\ history w' = CalledPage url :: history w
    /\ title productInfo <> EmptyString
    /\ description productInfo <> EmptyString
    /\ price productInfo <> EmptyString.
Proof.
  destruct (analyzeProductURL_run S url w)
    as (p & E & [->|(response & html & page & _ & _ & _ & _ & ->)]);
    eexists _, _; (split; [exact E|]); repeat split; try discriminate;
    cbn [title description price]; unfold JS.substring0;
    apply take_truthy, first_truthy_truthy; discriminate.
Qed.

(** X12: On a page fetched with success and parsed, the title of the summary is
    the first 100 code units of the text of the [title] element when that is
    not empty, else of the first [h1], else of the element with the test
    identifier [product-title], else of 'Amazing Product'; the description
    prefers the [description] meta content to the [og:description] one and
    that to the first paragraph; the price prefers the test identifier
    [price] to the class [price] and that to a class containing [price], and
    is '$99.99' when all are empty. *)
Theorem analyzeProductURL_precedence (S : Services) (url : string) (w : World)
  (response : http string) (html : string) (page : Page) :
  page_server S (history w) url = Ret response ->
  ok response = true ->
  payload response = Ret html ->
  cheerio S html = Ret page ->
  exists productInfo,
    fst (run S (analyzeProductURL url) w) = Ret productInfo
    /\ title productInfo
       = JS.take 100
           (if JS.truthy (title_text page) then title_text page
            else if JS.truthy (h1_text page) then h1_text page
            else if JS.truthy (product_title_text page) then product_title_text page
            else "Amazing Product")
    /\ description productInfo
       = JS.take 200
           (if negb (JS.falsy (meta_description page))
            then JS.show (meta_description page)
            else if negb (JS.falsy (og_description page))
                 then JS.show (og_description page)
                 else if JS.truthy (p_text page) then p_text page
                 else "Discover this incredible product that will transform your life.")
    /\ price productInfo
       = JS.take 20
           (if JS.truthy (price_testid_text page) then price_testid_text page
            else if JS.truthy (price_class_text page) then price_class_text page
            else if JS.truthy (price_attr_text page) then price_attr_text page
            else "$99.99")
    /\ originalUrl productInfo = url.
Proof.
  intros P O H C.
  unfold analyzeProductURL. rewrite run_try_catch. unfold await.
  rewrite bind_vis. cbn [run handle]. rewrite P. cbn [lift].
  rewrite bind_pure, O. cbn [negb]. rewrite H. cbn [lift].
  rewrite bind_pure, bind_vis. cbn [run handle]. rewrite C. cbn [lift].
  rewrite bind_pure. cbv zeta. cbn [run fst].
  eexists. split; [reflexivity|].
  cbn [title description price originalUrl]. unfold JS.substring0, first_truthy.
  cbn [find]. repeat split.
  - now destruct (JS.truthy (title_text page)), (JS.truthy (h1_text page)),
      (JS.truthy (product_title_text page)).
  - destruct (meta_description page) as [[|c m]|], (og_description page) as [[|d o]|],
      (JS.truthy (p_text page)) eqn:T; cbn [JS.or_else JS.truthy JS.falsy negb JS.show];
      rewrite ?T; reflexivity.
  - now destruct (JS.truthy (price_testid_text page)),
      (JS.truthy (price_class_text page)), (JS.truthy (price_attr_text page)).
Qed.

Lemma analyzeProductURL_precedence_witness :
  exists productInfo,
    fst (run titled_page (analyzeProductURL "https://example.com/product")
           (world_of (account "basic" 0))) = Ret productInfo
    /\ title productInfo = "Widget Pro".
Proof.
  destruct (analyzeProductURL_precedence titled_page "https://example.com/product"
              (world_of (account "basic" 0)) _ _ _ eq_refl eq_refl eq_refl eq_refl)
    as (p & E & T & _).
  exists p. split; [exact E|exact T].
Defined.

(** ** The clean-up of the model's answer *)

Lemma remove_from_skip (p : string) (k : nat) (s : string) :
  JS.remove_from p k s = JS.remove_from p O (JS.drop k s).
Proof.
  revert s; induction k as [|k IH]; intros [|c s]; simpl; try reflexivity.
  apply IH.
Qed.

Lemma length_drop (k : nat) (s : string) :
  (String.length (JS.drop k s) <= String.length s)%nat.
Proof.
  revert s; induction k as [|k IH]; intros [|c s]; simpl; try lia.
  specialize (IH s). lia.
Qed.

Lemma startsWith_cons (a b : ascii) (p s : string) :
  JS.startsWith (String a p) (String b s) = (Ascii.eqb a b && JS.startsWith p s)%bool.
Proof. reflexivity. Qed.

Lemma startsWith_empty (s : string) : JS.startsWith EmptyString s = true.
Proof. now destruct s. Qed.

Lemma startsWith_longer (a b s : string) :
  JS.startsWith a s = false -> JS.startsWith (a ++ b) s = false.
Proof.
  revert s; induction a as [|c a IH]; intros s.
  - now rewrite startsWith_empty.
  - destruct s as [|d s]; [reflexivity|]. simpl String.append.
    rewrite !startsWith_cons. destruct (Ascii.eqb c d); [apply IH|reflexivity].
Qed.

Lemma removeAll_cons (p : string) (c : ascii) (s : string) :
  JS.removeAll p (String c s) =
  if JS.startsWith p (String c s)
  then JS.removeAll p (JS.drop (Nat.pred (String.length p)) s)
  else String c (JS.removeAll p s).
Proof.
  unfold JS.removeAll. cbn [JS.remove_from].
  destruct (JS.startsWith p (String c s)); [apply remove_from_skip|reflexivity].
Qed.

(** What is left after the fences are removed does not begin with one. *)
Lemma removeAll_fence_no_head (n : nat) (s : string) :
  (String.length s <= n)%nat ->
  JS.startsWith "```" (JS.removeAll "```" s) = false.
Proof.
  revert s; induction n as [|n IH]; intros s L.
  { destruct s; [reflexivity|simpl in L; lia]. }
  destruct s as [|c s]; [reflexivity|].
  rewrite removeAll_cons.
  destruct (JS.startsWith "```" (String c s)) eqn:P.
  - apply IH. change (Nat.pred (String.length "```")) with 2%nat.
    pose proof (length_drop 2 s) as Ld. cbn [String.length] in L. lia.
  - rewrite startsWith_cons in P |- *.
    destruct (Ascii.eqb "`" c); [|reflexivity]. cbn [andb] in P |- *.
    destruct s as [|d s]; [reflexivity|].
    pose proof (startsWith_longer "``" "`" _ P) as P3.
    change ("``" ++ "`") with "```" in P3. rewrite removeAll_cons, P3.
    rewrite startsWith_cons in P |- *.
    destruct (Ascii.eqb "`" d); [|reflexivity]. cbn [andb] in P |- *.
    destruct s as [|e s]; [reflexivity|].
    pose proof (startsWith_longer "`" "``" _ P) as P3'.
    change ("`" ++ "``") with "```" in P3'. rewrite removeAll_cons, P3'.
    rewrite startsWith_cons in P |- *. rewrite startsWith_empty in P |- *.
    exact P.
Qed.

Lemma removeAll_fence_free (n : nat) (s : string) :
  (String.length s <= n)%nat ->
  JS.includes (JS.removeAll "```" s) "```" = false.
Proof.
  revert s; induction n as [|n IH]; intros s L.
  { destruct s; [reflexivity|simpl in L; lia]. }
  destruct s as [|c s]; [reflexivity|].
  pose proof (removeAll_fence_no_head (Datatypes.S n) (String c s) L) as H.
  rewrite removeAll_cons in H |- *.
  destruct (JS.startsWith "```" (String c s)) eqn:P.
  - apply IH. change (Nat.pred (String.length "```")) with 2%nat.
    pose proof (length_drop 2 s) as Ld. cbn [String.length] in L. lia.
  - change (JS.includes (String c (JS.removeAll "```" s)) "```")
      with (if JS.startsWith "```" (String c (JS.removeAll "```" s))
            then true else JS.includes (JS.removeAll "```" s) "```").
    rewrite H. apply IH. cbn [String.length] in L. lia.
Qed.

Lemma includes_false_tail (c : ascii) (s p : string) :
  JS.includes (String c s) p = false -> JS.includes s p = false.
Proof.
  intros H. destruct (JS.includes s p) eqn:E; [|reflexivity].
  now rewrite (includes_cons c s p E) in H.
Qed.

Lemma includes_trimStart (s p : string) :
  JS.includes s p = false -> JS.includes (JS.trimStart s) p = false.
Proof.
  induction s as [|c s IH]; [easy|]. intros H. cbn [JS.trimStart].
  destruct (JS.is_space c); [apply IH; exact (includes_false_tail c s p H)|exact H].
Qed.

Lemma trimEnd_prefix (s : string) : exists rest, s = JS.trimEnd s ++ rest.
Proof.
  induction s as [|c s [rest IH]]; [now exists EmptyString|].
  cbn [JS.trimEnd]. destruct (JS.trimEnd s) as [|d t] eqn:T.
  - destruct (JS.is_space c); [now exists (String c s)|].
    exists rest. simpl in *. now rewrite <- IH.
  - exists rest. simpl in *. now rewrite <- IH.
Qed.

Lemma includes_trimEnd (s p : string) :
  JS.includes s p = false -> JS.includes (JS.trimEnd s) p = false.
Proof.
  intros H. destruct (JS.includes (JS.trimEnd s) p) eqn:E; [|reflexivity].
  destruct (trimEnd_prefix s) as [rest R]. rewrite R in H.
  now rewrite (includes_app_r _ rest _ E) in H.
Qed.

Lemma trimEnd_idempotent (s : string) : JS.trimEnd (JS.trimEnd s) = JS.trimEnd s.
Proof.
  induction s as [|c s IH]; [reflexivity|]. cbn [JS.trimEnd].
  destruct (JS.trimEnd s) as [|d t] eqn:T.
  - destruct (JS.is_space c) eqn:Sp; [reflexivity|]. simpl. now rewrite Sp.
  - change (JS.trimEnd (String c (String d t)))
      with (match JS.trimEnd (String d t) with
            | EmptyString => if JS.is_space c then EmptyString
                             else String c EmptyString
            | r => String c r
            end).
    now rewrite IH.
Qed.

Lemma trimStart_trimEnd (s : string) :
  JS.trimStart s = s -> JS.trimStart (JS.trimEnd s) = JS.trimEnd s.
Proof.
  destruct s as [|c s]; [reflexivity|]. cbn [JS.trimStart JS.trimEnd].
  destruct (JS.is_space c) eqn:Sp.
  - intros H. exfalso.
    assert (L : forall t, (String.length (JS.trimStart t) <= String.length t)%nat).
    { induction t as [|d t IH]; simpl; [lia|]. destruct (JS.is_space d); simpl; lia. }
    specialize (L s). rewrite H in L. simpl in L. lia.
  - intros _. destruct (JS.trimEnd s); cbn [JS.trimStart]; now rewrite Sp.
Qed.

Lemma trimStart_idempotent (s : string) : JS.trimStart (JS.trimStart s) = JS.trimStart s.
Proof.
  induction s as [|c s IH]; [reflexivity|]. cbn [JS.trimStart].
  destruct (JS.is_space c) eqn:Sp; [exact IH|]. cbn [JS.trimStart]. now rewrite Sp.
Qed.

(** X13: The cleaned answer of the model holds no code fence (three backticks in
    a row) anywhere, whatever the answer was, and has no white space at
    either end: trimming it again changes nothing. *)
Theorem clean_response_fence_free (text : string) :
  JS.includes (clean_response text) "```" = false
  /\ JS.trim (clean_response text) = clean_response text.
Proof.
  unfold clean_response, JS.trim. split.
  - apply includes_trimEnd, includes_trimStart.
    now apply (removeAll_fence_free _ _ (Nat.le_refl _)).
  - rewrite (trimStart_trimEnd _ (trimStart_idempotent _)).
    apply trimEnd_idempotent.
Qed.

(** * Further properties of the account library and the reviews route *)

Module AuthFacts.

Import Auth.
Import AuthVocabulary.

Lemma getUserByEmail_run (S : Services) (e : string) (w : World) :
  getUserByEmail S e w =
  if fails S (log w) Connect
  then (Ret None, {| users := users w; log := (Connect, false) :: log w |})
  else if fails S ((Connect, true) :: log w) FindOne
       then (Ret None,
             {| users := users w;
                log := (FindOne, false) :: (Connect, true) :: log w |})
       else (Ret (option_map with_id (find (by_email e) (users w))),
             {| users := users w;
                log := (FindOne, true) :: (Connect, true) :: log w |}).
Proof.
  unfold getUserByEmail, try_catch, bind, connectToDatabase, call, ret.
  destruct (fails S (log w) Connect); [reflexivity|]. cbn [log users].
  destruct (fails S ((Connect, true) :: log w) FindOne); [reflexivity|].
  now destruct (find (by_email e) (users w)).
Qed.

Lemma find_app_none {A : Type} (f : A -> bool) (l : list A) (x : A) :
  find f l = None -> f x = true -> find f (l ++ [x]) = Some x.
Proof.
  induction l as [|y l IH]; simpl; intros N T; [now rewrite T|].
  destruct (f y); [discriminate|now apply IH].
Qed.

Lemma find_none_not_in (e : string) (us : list User) :
  find (by_email e) us = None -> ~ In e (map email us).
Proof.
  intros N I. apply in_map_iff in I as (x & E & I).
  pose proof (find_none _ _ N x I) as F. unfold by_email in F.
  rewrite E, String.eqb_refl in F. discriminate.
Qed.

Lemma planLimits_entries (p : string) :
  match planLimits p with
  | TableEntry websites analyses =>
      (p = "basic" /\ websites = 3 /\ analyses = 10)
      \/ (p = "pro" /\ websites = 25 /\ analyses = 50)
      \/ (p = "enterprise" /\ websites = -1 /\ analyses = -1)
  | InheritedMember =>
      In p object_prototype_members /\ ~ In p ["basic"; "pro"; "enterprise"]
  | NoEntry =>
      ~ In p object_prototype_members /\ ~ In p ["basic"; "pro"; "enterprise"]
  end.
Proof.
  unfold planLimits.
  destruct (String.eqb p "basic") eqn:B;
    [apply String.eqb_eq in B; now left|apply String.eqb_neq in B].
  destruct (String.eqb p "pro") eqn:P;
    [apply String.eqb_eq in P; right; now left|apply String.eqb_neq in P].
  destruct (String.eqb p "enterprise") eqn:E;
    [apply String.eqb_eq in E; right; now right|apply String.eqb_neq in E].
  assert (T : ~ In p ["basic"; "pro"; "enterprise"]).
  { intros [H|[H|[H|[]]]]; congruence. }
  destruct (existsb (String.eqb p) object_prototype_members) eqn:X.
  - split; [|exact T]. apply existsb_exists in X as (x & I & X).
    apply String.eqb_eq in X. now subst x.
  - split; [|exact T]. intros I.
    assert (existsb (String.eqb p) object_prototype_members = true).
    { apply existsb_exists. exists p. split; [exact I|apply String.eqb_refl]. }
    congruence.
Qed.

(** What [createUser] does, step by step. *)
Lemma createUser_run (S : Services) (userData : UserInput) (w : World) :
  exists result w',
    createUser S userData w = (Ret result, w')
    /\ (result = None /\ users w' = users w
        \/ exists stored limits l1 l2 l3 l4,
             result = Some (with_id stored)
             /\ users w' = (users w ++ [stored])%list
             /\ limits_of (planLimits (JS.or_else (in_plan userData) "basic"))
                = Ret limits
             /\ stored = new_user userData (hash S l1 (in_password userData))
                           (JS.or_else (in_plan userData) "basic") limits
                           (now S l2) (now S l3) (insertedId S l4)
             /\ (fails S ((Connect, true) :: log w) Connect = false ->
                 fails S ((Connect, true) :: (Connect, true) :: log w) FindOne = false ->
                 find (by_email (in_email userData)) (users w) = None)).
Proof.
  unfold createUser, try_catch at 1, bind at 1, connectToDatabase at 1, call at 1.
  destruct (fails S (log w) Connect); [eexists _, _; split; [reflexivity|now left]|].
  unfold bind at 1. rewrite getUserByEmail_run. cbn [log users].
  assert (Go : forall w1 : World,
             users w1 = users w ->
             (fails S ((Connect, true) :: log w) Connect = false ->
              fails S ((Connect, true) :: (Connect, true) :: log w) FindOne = false ->
              find (by_email (in_email userData)) (users w) = None) ->
             exists result w',
               match
                 bind (hashPassword S (in_password userData))
                   (fun hashedPassword =>
                      bind (lift (limits_of
                                    (planLimits
                                       (JS.or_else (in_plan userData) "basic"))))
                        (fun limits =>
                           bind (clock S) (fun created =>
                           bind (clock S) (fun updated =>
                           bind (insertOne S
                                   (new_user userData hashedPassword
                                      (JS.or_else (in_plan userData) "basic") limits
                                      created updated))
                             (fun stored => ret (Some (with_id stored))))))) w1
               with
               | (Ret a, w'0) => (Ret a, w'0)
               | (Throw msg, w'0) => ret None w'0
               end = (Ret result, w')
               /\ (result = None /\ users w' = users w
                   \/ exists stored limits l1 l2 l3 l4,
                        result = Some (with_id stored)
                        /\ users w' = (users w ++ [stored])%list
                        /\ limits_of
                             (planLimits (JS.or_else (in_plan userData) "basic"))
                           = Ret limits
                        /\ stored = new_user userData (hash S l1 (in_password userData))
                                      (JS.or_else (in_plan userData) "basic") limits
                                      (now S l2) (now S l3) (insertedId S l4)
                        /\ (fails S ((Connect, true) :: log w) Connect = false ->
                            fails S ((Connect, true) :: (Connect, true) :: log w)
                              FindOne = false ->
                            find (by_email (in_email userData)) (users w) = None))).
  { intros w1 U N. unfold bind, hashPassword, lift, clock, insertOne, call, ret, throw.
    destruct (limits_of (planLimits (JS.or_else (in_plan userData) "basic")))
      as [limits|msg];
      [|eexists _, _; split; [reflexivity|left; now split]].
    destruct (fails S (log w1) InsertOne);
      [eexists _, _; split; [reflexivity|left; now split]|].
    eexists _, _. split; [reflexivity|]. right.
    eexists _, limits, _, _, _, _. cbn [users]. rewrite U.
    repeat split. exact N. }
  destruct (fails S ((Connect, true) :: log w) Connect) eqn:F1.
  { apply Go; [reflexivity|discriminate]. }
  destruct (fails S ((Connect, true) :: (Connect, true) :: log w) FindOne) eqn:F2.
  { apply Go; [reflexivity|discriminate]. }
  destruct (find (by_email (in_email userData)) (users w)) as [x|] eqn:Fd.
  - cbn [option_map]. unfold throw, ret. eexists _, _.
    split; [reflexivity|left; now split].
  - cbn [option_map]. apply Go; [reflexivity|trivial].
Qed.

(** With storage up, a new e-mail and a plan that the lookup finds, an
    account is created. *)
Lemma createUser_created (S : Services) (userData : UserInput) (w : World) :
  (forall l op, fails S l op = false) ->
  ~ In (in_email userData) (map email (users w)) ->
  In (JS.or_else (in_plan userData) "basic")
    (["basic"; "pro"; "enterprise"] ++ object_prototype_members)%list ->
  exists u w', createUser S userData w = (Ret (Some u), w').
Proof.
  intros Up Ni Pl.
  unfold createUser, try_catch at 1, bind at 1, connectToDatabase at 1, call at 1.
  rewrite Up. unfold bind at 1. rewrite getUserByEmail_run. cbn [log users].
  rewrite !Up.
  destruct (find (by_email (in_email userData)) (users w)) as [x|] eqn:Fd.
  { exfalso. apply Ni. apply find_some in Fd as [I E]. apply String.eqb_eq in E.
    apply in_map_iff. now exists x. }
  cbn [option_map].
  unfold bind, hashPassword, lift, clock, insertOne, call, ret, throw.
  pose proof (planLimits_entries (JS.or_else (in_plan userData) "basic")) as P.
  destruct (planLimits (JS.or_else (in_plan userData) "basic")) as [a b| |];
    cbn [limits_of].
  - rewrite Up. now eexists _, _.
  - rewrite Up. now eexists _, _.
  - exfalso. destruct P as [M T]. apply in_app_or in Pl as [I|I]; tauto.
Qed.

(** The limits of an account that [createUser] stores. *)
Lemma stored_limits (p : string) (limits : option Z * option Z) :
  limits_of (planLimits p) = Ret limits ->
  (p = "basic" /\ limits = (Some 3, Some 10))
  \/ (p = "pro" /\ limits = (Some 25, Some 50))
  \/ (p = "enterprise" /\ limits = (Some (-1), Some (-1)))
  \/ (In p object_prototype_members /\ limits = (None, None)).
Proof.
  pose proof (planLimits_entries p) as H.
  destruct (planLimits p) as [a b| |]; cbn [limits_of]; [| |discriminate];
    intros [= <-].
  - destruct H as [(-> & -> & ->)|[(-> & -> & ->)|(-> & -> & ->)]]; tauto.
  - right. right. right. tauto.
Qed.

(** X14: [createUser] never throws.  It returns [null] and changes nothing, or
    it adds exactly one account at the end and returns it with its
    identifier: the account has the name and e-mail given, the plan given or
    else 'basic', no usage, is verified, and holds the hash of the
    password, which the value returned carries too.  Its limits are those
    of the table (3 and 10, 25 and 50, or -1 and -1); for a plan that is a
    name of [Object.prototype], such as 'constructor', the lookup finds an
    inherited member and the account is stored without limits.  A plan
    that is neither gives [null].  With storage up, a new e-mail and a plan
    of one of the two kinds, an account is created. *)
Theorem createUser_outcomes (S : Services) (userData : UserInput) (w : World) :
  exists result w',
    createUser S userData w = (Ret result, w')
    /\ (result = None /\ users w' = users w
        \/ exists stored u,
             result = Some u
             /\ users w' = (users w ++ [stored])%list
             /\ id u = Some (_id stored)
             /\ _id u = _id stored
             /\ name stored = in_name userData
             /\ email stored = in_email userData
             /\ plan stored = JS.or_else (in_plan userData) "basic"
             /\ ((plan stored = "basic" /\ websiteLimit stored = Some 3
                  /\ analysisLimit stored = Some 10)
                 \/ (plan stored = "pro" /\ websiteLimit stored = Some 25
                     /\ analysisLimit stored = Some 50)
                 \/ (plan stored = "enterprise" /\ websiteLimit stored = Some (-1)
                     /\ analysisLimit stored = Some (-1))
                 \/ (In (plan stored) object_prototype_members
                     /\ websiteLimit stored = None /\ analysisLimit stored = None))
             /\ websitesCreated stored = 0
             /\ analysesUsed stored = 0
             /\ isVerified stored = true
             /\ (exists l, password stored = Some (hash S l (in_password userData)))
             /\ password u = password stored)
    /\ (~ In (JS.or_else (in_plan userData) "basic") ["basic"; "pro"; "enterprise"] ->
        ~ In (JS.or_else (in_plan userData) "basic") object_prototype_members ->
        result = None)
    /\ ((forall l op, fails S l op = false) ->
        ~ In (in_email userData) (map email (users w)) ->
        In (JS.or_else (in_plan userData) "basic")
          (["basic"; "pro"; "enterprise"] ++ object_prototype_members)%list ->
        result <> None).
Proof.
  assert (Live : forall result w',
             createUser S userData w = (Ret result, w') ->
             (forall l op, fails S l op = false) ->
             ~ In (in_email userData) (map email (users w)) ->
             In (JS.or_else (in_plan userData) "basic")
               (["basic"; "pro"; "enterprise"] ++ object_prototype_members)%list ->
             result <> None).
  { intros result w' E Up Ni Pl.
    destruct (createUser_created S userData w Up Ni Pl) as (u & w0 & E0).
    rewrite E in E0. now injection E0 as -> _. }
  destruct (createUser_run S userData w)
    as (result & w' & E & [[-> U]|(stored & limits & l1 & l2 & l3 & l4
                                   & -> & U & P & -> & _)]).
  - exists None, w'. split; [exact E|]. split; [now left|].
    split; [reflexivity|now apply Live with (w' := w')].
  - eexists _, w'. split; [exact E|]. apply stored_limits in P.
    split; [|split; [|discriminate]].
    + right. eexists _, _. split; [reflexivity|]. split; [exact U|].
      cbn [with_id new_user id _id name email plan websiteLimit analysisLimit
             websitesCreated analysesUsed isVerified password].
      do 5 (split; [reflexivity|]). split.
      * destruct P as [[-> ->]|[[-> ->]|[[-> ->]|[I ->]]]]; cbn [fst snd]; tauto.
      * repeat split. now exists l1.
    + intros T M. exfalso.
      destruct P as [[Q _]|[[Q _]|[[Q _]|[I _]]]]; [| | |now apply M];
        apply T; rewrite Q; simpl; tauto.
Qed.

(** A plan named after a member of [Object.prototype]: the account is
    stored, without limits. *)
Example createUser_inherited_example :
  exists u w',
    createUser steady eve_input (world_with (ann "basic")) = (Ret (Some u), w')
    /\ plan u = "constructor"
    /\ websiteLimit u = None /\ analysisLimit u = None
    /\ map email (users w') = ["ann@example.com"; "eve@example.com"].
Proof. eexists _, _. split; [vm_compute; reflexivity|]. now repeat split. Qed.

Lemma NoDup_snoc {A : Type} (l : list A) (x : A) :
  NoDup l -> ~ In x l -> NoDup (l ++ [x]).
Proof.
  induction l as [|y l IH]; simpl; intros N I.
  - constructor; [intros []|constructor].
  - inversion N as [|z l' Hn N']; subst. constructor.
    + intros H. apply in_app_or in H as [H|[<-|[]]]; [now apply Hn|]. apply I. now left.
    + apply IH; [exact N'|]. intros H. apply I. now right.
Qed.

(** X15: with storage up, [createUser] returns [null] exactly when an
    account already has the e-mail, or the plan is neither in the table nor
    a name of [Object.prototype]; and e-mails that were distinct stay
    distinct. *)
Theorem createUser_unique (S : Services) (userData : UserInput) (w : World) :
  up S ->
  NoDup (map email (users w)) ->
  exists result w',
    createUser S userData w = (Ret result, w')
    /\ NoDup (map email (users w'))
    /\ (result = None
        <-> In (in_email userData) (map email (users w))
            \/ (~ In (JS.or_else (in_plan userData) "basic")
                  ["basic"; "pro"; "enterprise"]
                /\ ~ In (JS.or_else (in_plan userData) "basic")
                     object_prototype_members)).
Proof.
  intros Up N.
  unfold createUser, try_catch at 1, bind at 1, connectToDatabase at 1, call at 1.
  rewrite Up. unfold bind at 1. rewrite getUserByEmail_run. cbn [log users].
  rewrite !Up.
  destruct (find (by_email (in_email userData)) (users w)) as [x|] eqn:Fd.
  - cbn [option_map]. unfold throw, ret. eexists _, _. split; [reflexivity|].
    cbn [users]. split; [exact N|]. split; [|reflexivity]. intros _. left.
    apply find_some in Fd as [I E]. apply String.eqb_eq in E.
    apply in_map_iff. now exists x.
  - cbn [option_map].
    unfold bind, hashPassword, lift, clock, insertOne, call, ret, throw.
    pose proof (planLimits_entries (JS.or_else (in_plan userData) "basic")) as P.
    destruct (planLimits (JS.or_else (in_plan userData) "basic")) as [a b| |];
      cbn [limits_of].
    + rewrite Up. eexists _, _. split; [reflexivity|]. cbn [users]. split.
      * rewrite map_app. cbn [map new_user email].
        apply NoDup_snoc; [exact N|now apply find_none_not_in].
      * split; [discriminate|]. intros [I|[T _]].
        -- now apply find_none_not_in in Fd.
        -- exfalso. apply T.
           destruct P as [(Q & _)|[(Q & _)|(Q & _)]]; rewrite Q; simpl; tauto.
    + rewrite Up. eexists _, _. split; [reflexivity|]. cbn [users]. split.
      * rewrite map_app. cbn [map new_user email].
        apply NoDup_snoc; [exact N|now apply find_none_not_in].
      * split; [discriminate|]. intros [I|[_ M]].
        -- now apply find_none_not_in in Fd.
        -- exfalso. now apply M.
    + eexists _, _. split; [reflexivity|]. cbn [users]. split; [exact N|].
      split; [intros _; right; tauto|reflexivity].
Qed.

Lemma createUser_unique_witness :
  exists u w',
    createUser steady bob_input (world_with (ann "basic")) = (Ret (Some u), w')
    /\ map email (users w') = ["ann@example.com"; "bob@example.com"].
Proof.
  destruct (createUser_unique steady bob_input (world_with (ann "basic")))
    as (result & w' & E & _ & _).
  - intros l op. reflexivity.
  - simpl. constructor; [intros []|constructor].
  - assert (E0 := E). vm_compute in E0. injection E0 as <- <-.
    eexists _, _. split; [exact E|reflexivity].
Defined.

(** X16: With storage up, an account that [createUser] returned is what
    [getUserByEmail] then returns for its e-mail, and [getUserById] returns
    for its identifier the same account without the password. *)
Theorem createUser_then_lookup (S : Services) (userData : UserInput) (w w' : World)
  (u : User) :
  up S ->
  createUser S userData w = (Ret (Some u), w') ->
  fst (getUserByEmail S (in_email userData) w') = Ret (Some u)
  /\ (objectId S (JStr (_id u)) = Ret (_id u) ->
      ~ In (_id u) (map _id (users w)) ->
      fst (getUserById S (_id u) w') = Ret (Some (without_password u))).
Proof.
  intros Up E.
  destruct (createUser_run S userData w)
    as (result & w0 & E' & [[-> _]|(stored & limits & l1 & l2 & l3 & l4
                                    & -> & U & P & St & Fd)]);
    rewrite E in E'; injection E' as R <-; [discriminate R|].
  subst u. specialize (Fd (Up _ _) (Up _ _)).
  assert (Em : email stored = in_email userData) by now rewrite St.
  split.
  - rewrite getUserByEmail_run, !Up, U. cbn [fst].
    rewrite (find_app_none _ _ stored Fd); [reflexivity|].
    unfold by_email. rewrite Em. apply String.eqb_refl.
  - intros O Ni. cbn [with_id _id] in *.
    unfold getUserById, try_catch, bind, connectToDatabase, call, lift, ret.
    rewrite Up. cbn [log users]. rewrite O, Up. cbn [users fst]. rewrite U.
    rewrite (find_app_none (by_id (_id stored)) (users w) stored).
    + reflexivity.
    + destruct (find (by_id (_id stored)) (users w)) as [x|] eqn:F; [|reflexivity].
      exfalso. apply find_some in F as [I F]. apply String.eqb_eq in F.
      apply Ni. rewrite <- F. now apply in_map.
    + apply String.eqb_refl.
Qed.

Lemma createUser_then_lookup_witness :
  exists u w',
    createUser steady bob_input (world_with (ann "basic")) = (Ret (Some u), w')
    /\ fst (getUserByEmail steady "bob@example.com" w') = Ret (Some u).
Proof.
  destruct (createUser steady bob_input (world_with (ann "basic"))) as [o w'] eqn:E.
  assert (E0 := E). vm_compute in E0. injection E0 as <- <-.
  eexists _, _. split; [reflexivity|].
  apply (createUser_then_lookup steady bob_input (world_with (ann "basic")) _ _
           (fun _ _ => eq_refl) E).
Defined.

(** X17: [getUserById] never throws and never writes.  An account it returns is
    one of the stored accounts with the identifier asked for, carries that
    identifier as [id] and never the password; a malformed identifier, a
    storage failure and an unknown identifier all give [null]. *)
Theorem getUserById_outcomes (S : Services) (userId : string) (w : World) :
  exists result w',
    getUserById S userId w = (Ret result, w')
    /\ users w' = users w
    /\ (forall u, result = Some u ->
          password u = None
          /\ id u = Some (_id u)
          /\ objectId S (JStr userId) = Ret (_id u)
          /\ exists x, In x (users w) /\ u = with_id (without_password x))
    /\ ((exists msg, objectId S (JStr userId) = Throw msg) -> result = None)
    /\ (forall oid, objectId S (JStr userId) = Ret oid ->
                    ~ In oid (map _id (users w)) -> result = None)
    /\ (fails S (log w) Connect = true -> result = None)
    /\ (fails S ((Connect, true) :: log w) FindOne = true -> result = None).
Proof.
  unfold getUserById, try_catch, bind, connectToDatabase, call, lift, ret.
  destruct (fails S (log w) Connect).
  { eexists _, _. split; [reflexivity|]. repeat split; try easy. }
  cbn [log users].
  destruct (objectId S (JStr userId)) as [oid|msg] eqn:O.
  2:{ eexists _, _. split; [reflexivity|]. repeat split; try easy. }
  destruct (fails S ((Connect, true) :: log w) FindOne).
  { eexists _, _. split; [reflexivity|]. repeat split; try easy. }
  destruct (find (by_id oid) (users w)) as [x|] eqn:F; cbn [option_map].
  - eexists _, _. split; [reflexivity|]. split; [reflexivity|].
    apply find_some in F as [I F]. apply String.eqb_eq in F.
    split; [|split; [|split; [|split]]].
    + intros u [= <-]. cbn [with_id without_password password id _id].
      rewrite F. repeat split. now exists x.
    + now intros [msg [=]].
    + intros oid' [= <-] Ni. exfalso. apply Ni. rewrite <- F. now apply in_map.
    + discriminate.
    + discriminate.
  - eexists _, _. split; [reflexivity|]. repeat split; try easy.
Qed.

Lemma update_first_spec (oid : string) (f : User -> User) (us : list User) :
  (fst (update_first oid f us) = false
   /\ snd (update_first oid f us) = us
   /\ ~ In oid (map _id us))
  \/ (fst (update_first oid f us) = true
      /\ exists before x after,
           us = (before ++ x :: after)%list
           /\ snd (update_first oid f us) = (before ++ f x :: after)%list
           /\ _id x = oid
           /\ ~ In oid (map _id before)).
Proof.
  induction us as [|u us IH]; simpl.
  - left. repeat split. intros [].
  - unfold by_id. destruct (String.eqb (_id u) oid) eqn:E.
    + right. split; [reflexivity|]. exists [], u, us. apply String.eqb_eq in E.
      repeat split; auto.
    + apply String.eqb_neq in E. destruct (update_first oid f us) as [b us'].
      cbn [fst snd] in *. destruct IH as [(-> & -> & Ni)|(-> & before & x & after
                                                       & -> & -> & I & Ni)].
      * left. repeat split. intros [H|H]; [now apply E|now apply Ni].
      * right. split; [reflexivity|]. exists (u :: before), x, after.
        repeat split; auto. intros [H|H]; [now apply E|now apply Ni].
Qed.

(** X18: [incrementUserWebsites] never throws.  It answers [true] exactly
    when storage answers, the identifier is well formed and an account has
    it, whatever the limit of websites of the account: it then changes the
    first account with the identifier, whose count of websites goes up by
    one and whose update time is set; every other account and every other
    field stays.  It answers [false], and changes nothing, when storage
    fails, when the identifier is malformed and when no account has it. *)
Theorem incrementUserWebsites_outcomes (S : Services) (userId : string) (w : World) :
  exists done w',
    incrementUserWebsites S userId w = (Ret done, w')
    /\ (done = false /\ users w' = users w
        \/ done = true
           /\ exists before x after t,
                users w = (before ++ x :: after)%list
                /\ users w' = (before ++ inc_websites t x :: after)%list
                /\ objectId S (JStr userId) = Ret (_id x)
                /\ ~ In (_id x) (map _id before)
                /\ websitesCreated (inc_websites t x) = websitesCreated x + 1
                /\ websiteLimit (inc_websites t x) = websiteLimit x
                /\ analysesUsed (inc_websites t x) = analysesUsed x
                /\ _id (inc_websites t x) = _id x
                /\ plan (inc_websites t x) = plan x)
    /\ (done = true
        <-> fails S (log w) Connect = false
            /\ fails S ((Connect, true) :: log w) UpdateOne = false
            /\ exists oid, objectId S (JStr userId) = Ret oid
                           /\ In oid (map _id (users w)))
    /\ (fails S (log w) Connect = true -> done = false)
    /\ (fails S ((Connect, true) :: log w) UpdateOne = true -> done = false)
    /\ ((exists msg, objectId S (JStr userId) = Throw msg) -> done = false)
    /\ (forall oid, objectId S (JStr userId) = Ret oid ->
                    ~ In oid (map _id (users w)) -> done = false).
Proof.
  unfold incrementUserWebsites, try_catch, bind, connectToDatabase, call, lift,
    clock, ret.
  destruct (fails S (log w) Connect) eqn:F1.
  { eexists _, _. split; [reflexivity|]. split; [now left|].
    split; [split; [discriminate|now intros (? & _)]|now repeat split]. }
  cbn [log users].
  destruct (objectId S (JStr userId)) as [oid|msg] eqn:O.
  2:{ eexists _, _. split; [reflexivity|]. split; [now left|].
      split; [split; [discriminate|now intros (_ & _ & ? & ? & _)]|
              now repeat split]. }
  destruct (fails S ((Connect, true) :: log w) UpdateOne) eqn:F2.
  { eexists _, _. split; [reflexivity|]. split; [now left|].
    split; [split; [discriminate|now intros (_ & ? & _)]|now repeat split]. }
  destruct (update_first_spec oid (inc_websites (now S ((Connect, true) :: log w)))
              (users w))
    as [(F & U & Ni)|(F & before & x & after & Us & U & I & Ni)];
    destruct (update_first oid _ (users w)) as [b us']; cbn [fst snd] in *; subst b.
  - eexists _, _. split; [reflexivity|]. split; [left; now split|].
    split; [|now repeat split]. split; [discriminate|].
    intros (_ & _ & o & [= <-] & In'). now contradiction Ni.
  - eexists _, _. split; [reflexivity|]. split.
    + right. split; [reflexivity|].
      exists before, x, after, (now S ((Connect, true) :: log w)). subst oid.
      now repeat split.
    + assert (In' : In oid (map _id (users w))).
      { rewrite Us, map_app, in_app_iff. right. left. exact I. }
      split; [split; [intros _|reflexivity]|].
      { split; [reflexivity|]. split; [reflexivity|]. now exists oid. }
      split; [discriminate|]. split; [discriminate|]. split; [now intros [? [=]]|].
      intros oid' [= <-] Ni'. now contradiction Ni'.
Qed.

(** X19: [incrementUserAnalyses] never throws.  It answers [true] exactly
    when storage answers, the identifier is well formed and an account has
    it, whatever the limit of analyses of the account: it then changes the
    first account with the identifier, whose count of analyses goes up by
    one and whose update time is set; the count of websites, the
    identifier and the plan stay.  It answers [false], and changes nothing,
    when storage fails, when the identifier is malformed and when no
    account has it. *)
Theorem incrementUserAnalyses_outcomes (S : Services) (userId : string) (w : World) :
  exists done w',
    incrementUserAnalyses S userId w = (Ret done, w')
    /\ (done = false /\ users w' = users w
        \/ done = true
           /\ exists before x after t,
                users w = (before ++ x :: after)%list
                /\ users w' = (before ++ inc_analyses t x :: after)%list
                /\ objectId S (JStr userId) = Ret (_id x)
                /\ ~ In (_id x) (map _id before)
                /\ analysesUsed (inc_analyses t x) = analysesUsed x + 1
                /\ analysisLimit (inc_analyses t x) = analysisLimit x
                /\ websitesCreated (inc_analyses t x) = websitesCreated x
                /\ _id (inc_analyses t x) = _id x
                /\ plan (inc_analyses t x) = plan x)
    /\ (done = true
        <-> fails S (log w) Connect = false
            /\ fails S ((Connect, true) :: log w) UpdateOne = false
            /\ exists oid, objectId S (JStr userId) = Ret oid
                           /\ In oid (map _id (users w)))
    /\ (fails S (log w) Connect = true -> done = false)
    /\ (fails S ((Connect, true) :: log w) UpdateOne = true -> done = false)
    /\ ((exists msg, objectId S (JStr userId) = Throw msg) -> done = false)
    /\ (forall oid, objectId S (JStr userId) = Ret oid ->
                    ~ In oid (map _id (users w)) -> done = false).
Proof.
  unfold incrementUserAnalyses, try_catch, bind, connectToDatabase, call, lift,
    clock, ret.
  destruct (fails S (log w) Connect) eqn:F1.
  { eexists _, _. split; [reflexivity|]. split; [now left|].
    split; [split; [discriminate|now intros (? & _)]|now repeat split]. }
  cbn [log users].
  destruct (objectId S (JStr userId)) as [oid|msg] eqn:O.
  2:{ eexists _, _. split; [reflexivity|]. split; [now left|].
      split; [split; [discriminate|now intros (_ & _ & ? & ? & _)]|
              now repeat split]. }
  destruct (fails S ((Connect, true) :: log w) UpdateOne) eqn:F2.
  { eexists _, _. split; [reflexivity|]. split; [now left|].
    split; [split; [discriminate|now intros (_ & ? & _)]|now repeat split]. }
  destruct (update_first_spec oid (inc_analyses (now S ((Connect, true) :: log w)))
              (users w))
    as [(F & U & Ni)|(F & before & x & after & Us & U & I & Ni)];
    destruct (update_first oid _ (users w)) as [b us']; cbn [fst snd] in *; subst b.
  - eexists _, _. split; [reflexivity|]. split; [left; now split|].
    split; [|now repeat split]. split; [discriminate|].
    intros (_ & _ & o & [= <-] & In'). now contradiction Ni.
  - eexists _, _. split; [reflexivity|]. split.
    + right. split; [reflexivity|].
      exists before, x, after, (now S ((Connect, true) :: log w)). subst oid.
      now repeat split.
    + assert (In' : In oid (map _id (users w))).
      { rewrite Us, map_app, in_app_iff. right. left. exact I. }
      split; [split; [intros _|reflexivity]|].
      { split; [reflexivity|]. split; [reflexivity|]. now exists oid. }
      split; [discriminate|]. split; [discriminate|]. split; [now intros [? [=]]|].
      intros oid' [= <-] Ni'. now contradiction Ni'.
Qed.

Lemma verifyAuth_run (S : Services) (request : Request) (w : World) :
  verifyAuth S request w =
  if JS.falsy (token request) then (Ret (AuthFailure "No token provided"), w)
  else match jwt_verify S (JS.show (token request)) (JWT_SECRET S) with
       | Throw _ => (Ret (AuthFailure "Invalid token"), w)
       | Ret decoded =>
           if fails S (log w) Connect
           then (Ret (AuthFailure "Invalid token"),
                 {| users := users w; log := (Connect, false) :: log w |})
           else match objectId S (userId decoded) with
                | Throw _ => (Ret (AuthFailure "Invalid token"),
                              {| users := users w;
                                 log := (Connect, true) :: log w |})
                | Ret oid =>
                    if fails S ((Connect, true) :: log w) FindOne
                    then (Ret (AuthFailure "Invalid token"),
                          {| users := users w;
                             log := (FindOne, false) :: (Connect, true) :: log w |})
                    else (Ret match find (by_id oid) (users w) with
                              | Some u => AuthSuccess u
                              | None => AuthFailure "User not found"
                              end,
                          {| users := users w;
                             log := (FindOne, true) :: (Connect, true) :: log w |})
                end
       end.
Proof.
  unfold verifyAuth, try_catch, bind, connectToDatabase, call, lift, ret.
  destruct (JS.falsy (token request)); [reflexivity|].
  destruct (jwt_verify S (JS.show (token request)) (JWT_SECRET S)); [|reflexivity].
  destruct (fails S (log w) Connect); [reflexivity|]. cbn [log users].
  destruct (objectId S (userId a)); [|reflexivity].
  destruct (fails S ((Connect, true) :: log w) FindOne); [reflexivity|].
  now destruct (find (by_id a0) (users w)).
Qed.

Lemma verifyAuth_returns (S : Services) (request : Request) (w : World) :
  exists result w',
    verifyAuth S request w = (Ret result, w') /\ users w' = users w.
Proof.
  rewrite verifyAuth_run.
  destruct (JS.falsy (token request)); [now eexists _, _|].
  destruct (jwt_verify S (JS.show (token request)) (JWT_SECRET S));
    [|now eexists _, _].
  destruct (fails S (log w) Connect); [now eexists _, _|].
  destruct (objectId S (userId a)); [|now eexists _, _].
  destruct (fails S ((Connect, true) :: log w) FindOne); now eexists _, _.
Qed.

(** X20: [verifyAuth] never throws and never writes.  It succeeds exactly when
    there is a token, the library verifies it under the configured secret,
    storage answers, and the [userId] of the payload is the identifier of a
    stored account, which it returns.  A token that fails verification is
    refused before storage is touched, so no payload is ever trusted
    without its signature; in particular nothing succeeds under a secret for
    which the library verifies nothing. *)
Theorem verifyAuth_outcomes (S : Services) (request : Request) (w : World) :
  exists result w',
    verifyAuth S request w = (Ret result, w')
    /\ users w' = users w
    /\ (forall u,
           result = AuthSuccess u
           <-> exists decoded oid,
                 JS.falsy (token request) = false
                 /\ jwt_verify S (JS.show (token request)) (JWT_SECRET S) = Ret decoded
                 /\ fails S (log w) Connect = false
                 /\ objectId S (userId decoded) = Ret oid
                 /\ fails S ((Connect, true) :: log w) FindOne = false
                 /\ find (by_id oid) (users w) = Some u)
    /\ ((forall decoded,
            jwt_verify S (JS.show (token request)) (JWT_SECRET S) <> Ret decoded) ->
        w' = w
        /\ (result = AuthFailure "No token provided"
            \/ result = AuthFailure "Invalid token")).
Proof.
  rewrite verifyAuth_run.
  destruct (JS.falsy (token request)) eqn:T.
  { eexists _, _. split; [reflexivity|]. split; [reflexivity|]. split.
    - intros u. split; [discriminate|]. now intros (? & ? & ? & _).
    - intros _. split; [reflexivity|now left]. }
  destruct (jwt_verify S (JS.show (token request)) (JWT_SECRET S)) as [decoded|msg]
    eqn:V.
  2:{ eexists _, _. split; [reflexivity|]. split; [reflexivity|]. split.
      - intros u. split; [discriminate|]. now intros (? & ? & _ & ? & _).
      - intros _. split; [reflexivity|now right]. }
  assert (No : forall (P : Prop),
             ((forall d, Ret decoded <> Ret d) -> P)).
  { intros P H. now contradiction (H decoded). }
  destruct (fails S (log w) Connect) eqn:F1.
  { eexists _, _. split; [reflexivity|]. split; [reflexivity|]. split; [|apply No].
    intros u. split; [discriminate|]. now intros (? & ? & _ & _ & ? & _). }
  destruct (objectId S (userId decoded)) as [oid|msg] eqn:O.
  2:{ eexists _, _. split; [reflexivity|]. split; [reflexivity|]. split; [|apply No].
      intros u. split; [discriminate|].
      intros (d & o & _ & [= <-] & _ & O' & _). rewrite O in O'. discriminate. }
  destruct (fails S ((Connect, true) :: log w) FindOne) eqn:F2.
  { eexists _, _. split; [reflexivity|]. split; [reflexivity|]. split; [|apply No].
    intros u. split; [discriminate|]. now intros (? & ? & _ & _ & _ & _ & ? & _). }
  eexists _, _. split; [reflexivity|]. split; [reflexivity|]. split; [|apply No].
  intros u. split.
  - destruct (find (by_id oid) (users w)) as [x|] eqn:Fd; [|discriminate].
    intros [= <-]. now exists decoded, oid.
  - intros (d & o & _ & [= <-] & _ & O' & _ & Fd). rewrite O in O'.
    injection O' as <-. now rewrite Fd.
Qed.

(** X21: The plan wrappers answer 401 when [verifyAuth] fails and never run the
    handler then.  For an authenticated account, [requireEnterprise] runs
    the handler exactly for the plan 'enterprise' and [requirePro] for every
    plan but 'basic' (so also for a plan that is neither 'pro' nor
    'enterprise'); otherwise the answer is 403.  What [requireEnterprise]
    lets through, [requirePro] lets through with the same result. *)
Theorem checkPlan_gate (S : Services) (handler : Handler) (request : Request)
  (w : World) :
  exists result w1,
    verifyAuth S request w = (Ret result, w1)
    /\ match result with
       | AuthFailure _ =>
           requirePro S handler request w
           = (Ret (ErrorReply 401 "Authentication required"), w1)
           /\ requireEnterprise S handler request w
              = (Ret (ErrorReply 401 "Authentication required"), w1)
       | AuthSuccess u =>
           requirePro S handler request w
           = (if String.eqb (plan u) "basic"
              then (Ret (ErrorReply 403 "Pro plan required"), w1)
              else handler request u w1)
           /\ requireEnterprise S handler request w
              = (if String.eqb (plan u) "enterprise"
                 then handler request u w1
                 else (Ret (ErrorReply 403 "Enterprise plan required"), w1))
           /\ (requireEnterprise S handler request w
               <> (Ret (ErrorReply 403 "Enterprise plan required"), w1) ->
               requirePro S handler request w
               = requireEnterprise S handler request w)
       end.
Proof.
  destruct (verifyAuth_returns S request w) as (result & w1 & E & _).
  exists result, w1. split; [exact E|].
  unfold requirePro, requireEnterprise, checkPlan, bind. rewrite E.
  destruct result as [err|u]; [now split|]. unfold ret.
  destruct (String.eqb (plan u) "enterprise") eqn:En; cbn [negb].
  - apply String.eqb_eq in En. rewrite En.
    split; [reflexivity|]. split; reflexivity.
  - split; [now destruct (String.eqb (plan u) "basic")|].
    split; [reflexivity|].
    intros H. now contradiction H.
Qed.

Lemma reviews_POST_handler_run (S : Services) (request : Request) (user : User)
  (w : World) :
  exists reply,
    reviews_POST_handler S request user w = (Ret reply, w)
    /\ match json request with
       | Ret (Some fields) =>
           if complete fields
           then exists review,
                  reply = ReviewCreated review "Review created successfully"
                  /\ customerName review = lookup "customerName" fields
                  /\ rating review = lookup "rating" fields
                  /\ content review = lookup "content" fields
                  /\ productId review = lookup "productId" fields
                  /\ websiteId review = lookup "websiteId" fields
                  /\ sent_or_empty "customerEmail" fields (customerEmail review)
                  /\ sent_or_empty "title" fields (r_title review)
                  /\ status review = "pending"
                  /\ isVisible review = false
                  /\ isFeatured review = false
                  /\ verified review = false
                  /\ r_id review = JS.num_to_string (now S (log w))
           else reply = ErrorReply 400 "Missing required fields"
       | _ => reply = ErrorReply 500 "Internal server error"
       end.
Proof.
  unfold reviews_POST_handler, try_catch, bind, lift, throw, clock, ret.
  destruct (json request) as [[fields|]|msg].
  2,3: now eexists.
  unfold complete, required_fields. cbn [forallb].
  destruct (js_truthy (lookup "customerName" fields)); cbn [negb orb andb];
    [|now eexists].
  destruct (js_truthy (lookup "rating" fields)); cbn [negb orb andb];
    [|now eexists].
  destruct (js_truthy (lookup "content" fields)); cbn [negb orb andb];
    [|now eexists].
  destruct (js_truthy (lookup "productId" fields)); cbn [negb orb andb];
    [|now eexists].
  destruct (js_truthy (lookup "websiteId" fields)); cbn [negb orb andb];
    [|now eexists].
  eexists. split; [reflexivity|]. eexists. split; [reflexivity|].
  cbn [customerName rating content productId websiteId customerEmail r_title
       status isVisible isFeatured verified r_id].
  do 5 (split; [reflexivity|]).
  assert (E : forall key, sent_or_empty key fields (or_empty (lookup key fields))).
  { intros key. unfold sent_or_empty, or_empty.
    destruct (js_truthy (lookup key fields)) eqn:T; [now right|now left]. }
  split; [apply E|]. split; [apply E|]. now repeat split.
Qed.

(** X22: The handler behind the creation of a review never throws and changes
    nothing.  It creates a review exactly when the body is an object in
    which customerName, rating, content, productId and websiteId are all
    truthy, so a rating of 0 is refused as missing; it answers 400 for any
    other object and 500 when the body is null or unreadable.  A created
    review repeats the five fields, is pending, hidden, not featured and
    not verified, and its e-mail and title are what was sent or the empty
    text. *)
Theorem reviews_POST_handler_outcomes (S : Services) (request : Request)
  (user : User) (w : World) :
  exists reply,
    reviews_POST_handler S request user w = (Ret reply, w)
    /\ ((exists review msg, reply = ReviewCreated review msg)
        <-> exists fields, json request = Ret (Some fields)
                           /\ complete fields = true)
    /\ (reply = ErrorReply 400 "Missing required fields"
        <-> exists fields, json request = Ret (Some fields)
                           /\ complete fields = false)
    /\ (reply = ErrorReply 500 "Internal server error"
        <-> json request = Ret None \/ exists msg, json request = Throw msg)
    /\ (forall fields, json request = Ret (Some fields) ->
        lookup "rating" fields = JNum 0 ->
        reply = ErrorReply 400 "Missing required fields")
    /\ (forall review msg, reply = ReviewCreated review msg ->
        exists fields,
          json request = Ret (Some fields)
          /\ msg = "Review created successfully"
          /\ customerName review = lookup "customerName" fields
          /\ rating review = lookup "rating" fields
          /\ content review = lookup "content" fields
          /\ productId review = lookup "productId" fields
          /\ websiteId review = lookup "websiteId" fields
          /\ sent_or_empty "customerEmail" fields (customerEmail review)
          /\ sent_or_empty "title" fields (r_title review)
          /\ status review = "pending"
          /\ isVisible review = false
          /\ isFeatured review = false
          /\ verified review = false).
Proof.
  destruct (reviews_POST_handler_run S request user w) as (reply & E & H).
  exists reply. split; [exact E|]. clear E.
  destruct (json request) as [[fields|]|msg].
  - destruct (complete fields) eqn:C.
    + destruct H as (review & -> & H). split; [|split; [|split; [|split]]].
      * split; [now exists fields|intros _; now eexists _, _].
      * split; [discriminate|]. intros (f & [= <-] & C'). congruence.
      * split; [discriminate|]. now intros [?|[? ?]].
      * intros f [= <-] R. unfold complete, required_fields in C.
        cbn [forallb] in C. rewrite R in C. cbn in C.
        rewrite Bool.andb_false_r in C. discriminate.
      * intros r m [= <- <-]. exists fields. split; [reflexivity|].
        split; [reflexivity|]. tauto.
    + subst reply. split; [|split; [|split; [|split]]].
      * split; [now intros (? & ? & ?)|]. intros (f & [= <-] & C'). congruence.
      * split; [now exists fields|reflexivity].
      * split; [discriminate|]. now intros [?|[? ?]].
      * reflexivity.
      * discriminate.
  - subst reply. split; [|split; [|split; [|split]]].
    + split; [now intros (? & ? & ?)|]. now intros (? & ? & _).
    + split; [discriminate|]. now intros (? & ? & _).
    + split; [now left|reflexivity].
    + discriminate.
    + discriminate.
  - subst reply. split; [|split; [|split; [|split]]].
    + split; [now intros (? & ? & ?)|]. now intros (? & ? & _).
    + split; [discriminate|]. now intros (? & ? & _).
    + split; [right; now exists msg|reflexivity].
    + discriminate.
    + discriminate.
Qed.

Lemma reviews_GET_handler_run (S : Services) (request : Request) (user : User)
  (w : World) :
  exists review,
    reviews_GET_handler S request user w = (Ret (ReviewList [review]), w).
Proof. now eexists. Qed.

(** X23: The two routes of the reviews never throw and never write, and they
    answer from the world in which the verification of the cookie ended.
    They give the reviews, or create one, only to an authenticated account
    whose plan is 'enterprise': without authentication both answer 401, and
    for every other plan both answer 403 whatever the body is. *)
Theorem reviews_enterprise_only (S : Services) (request : Request) (w : World) :
  exists got posted w1,
    reviews_GET S request w = (Ret got, w1)
    /\ reviews_POST S request w = (Ret posted, w1)
    /\ users w1 = users w
    /\ ((exists reviews, got = ReviewList reviews)
        <-> exists u, verifyAuth S request w = (Ret (AuthSuccess u), w1)
                      /\ plan u = "enterprise")
    /\ (forall review msg, posted = ReviewCreated review msg ->
        exists u, verifyAuth S request w = (Ret (AuthSuccess u), w1)
                  /\ plan u = "enterprise")
    /\ (forall err, verifyAuth S request w = (Ret (AuthFailure err), w1) ->
        got = ErrorReply 401 "Authentication required"
        /\ posted = ErrorReply 401 "Authentication required")
    /\ (forall u, verifyAuth S request w = (Ret (AuthSuccess u), w1) ->
        plan u <> "enterprise" ->
        got = ErrorReply 403 "Enterprise plan required"
        /\ posted = ErrorReply 403 "Enterprise plan required").
Proof.
  destruct (verifyAuth_returns S request w) as (result & w1 & E & U).
  unfold reviews_GET, reviews_POST, requireEnterprise, checkPlan, bind.
  rewrite E. destruct result as [err|u].
  { eexists _, _, w1. split; [reflexivity|]. split; [reflexivity|].
    split; [exact U|]. split; [|split; [|split]].
    - split; [now intros (? & ?)|]. now intros (? & ? & _).
    - discriminate.
    - now intros.
    - discriminate. }
  destruct (String.eqb (plan u) "enterprise") eqn:P; cbn [negb].
  - apply String.eqb_eq in P.
    destruct (reviews_GET_handler_run S request u w1) as (review & ->).
    destruct (reviews_POST_handler_run S request u w1) as (reply & -> & _).
    eexists _, _, w1. split; [reflexivity|]. split; [reflexivity|].
    split; [exact U|]. split; [|split; [|split]].
    + split; [now exists u|now eexists].
    + intros. now exists u.
    + discriminate.
    + intros ? [= <-] N. now contradiction N.
  - apply String.eqb_neq in P.
    eexists _, _, w1. split; [reflexivity|]. split; [reflexivity|].
    split; [exact U|]. split; [|split; [|split]].
    + split; [now intros (? & ?)|]. intros (? & [= <-] & ?). now contradiction P.
    + discriminate.
    + discriminate.
    + now intros.
Qed.

(** X24: the limit of websites that [createUser] stores with an account
    and the ceiling that the generation route enforces for the plan of the
    account agree for the plan 'basic' only: 3 and 3 for 'basic', 25
    against 10 for 'pro', -1 against 999 for 'enterprise'; an account
    created under a name of [Object.prototype] has no limit stored, and
    the route takes 3. *)
Theorem plan_tables_differ (S : Services) (userData : UserInput) (w w' : World)
  (u : User) :
  createUser S userData w = (Ret (Some u), w') ->
  ((plan u = "basic" /\ websiteLimit u = Some 3 /\ getPlanLimits (plan u) = 3)
   \/ (plan u = "pro" /\ websiteLimit u = Some 25 /\ getPlanLimits (plan u) = 10)
   \/ (plan u = "enterprise" /\ websiteLimit u = Some (-1)
       /\ getPlanLimits (plan u) = 999)
   \/ (In (plan u) object_prototype_members /\ websiteLimit u = None
       /\ getPlanLimits (plan u) = 3))
  /\ (websiteLimit u = Some (getPlanLimits (plan u)) <-> plan u = "basic").
Proof.
  intros E.
  destruct (createUser_run S userData w)
    as (result & w0 & E' & [[-> _]|(stored & limits & l1 & l2 & l3 & l4
                                    & -> & _ & P & -> & _)]);
    rewrite E in E'; injection E' as R <-; [discriminate R|].
  subst u. cbn [with_id new_user plan websiteLimit].
  apply stored_limits in P.
  destruct P as [[-> ->]|[[-> ->]|[[-> ->]|[I ->]]]]; cbn [fst].
  - split; [now left|now split].
  - split; [right; now left|]. split; [discriminate|discriminate].
  - split; [right; right; now left|]. split; [discriminate|discriminate].
  - assert (G : getPlanLimits (JS.or_else (in_plan userData) "basic") = 3).
    { revert I. generalize (JS.or_else (in_plan userData) "basic"). intros p I.
      simpl in I. repeat (destruct I as [<-|I]; [reflexivity|]). destruct I. }
    split; [right; right; right; now repeat split|].
    split; [discriminate|]. intros B. rewrite B in I. simpl in I.
    repeat (destruct I as [I|I]; [discriminate I|]). destruct I.
Qed.

Lemma plan_tables_differ_witness :
  exists u w',
    createUser steady bob_input (world_with (ann "basic")) = (Ret (Some u), w')
    /\ plan u = "pro" /\ websiteLimit u = Some 25 /\ getPlanLimits (plan u) = 10
    /\ websiteLimit u <> Some (getPlanLimits (plan u)).
Proof.
  eexists _, _. split; [vm_compute; reflexivity|].
  destruct (plan_tables_differ steady bob_input (world_with (ann "basic")) _ _
              ltac:(vm_compute; reflexivity)) as [_ [H _]].
  repeat split. intros Q. apply H in Q. discriminate Q.
Defined.

End AuthFacts.
